(** * LatentTrees: training and tuning scripts

    A shallow embedding of the control flow of [dntn.py],
    [tune_clustering.py] and [src/monitors.py]: the epoch loops with their
    best-checkpoint, early-stop and NaN-abort policies, the command line of
    [dntn.py], the state record written into checkpoints and the scalar
    monitor.

    The numerical libraries the scripts drive (the models, the optimizer, the
    learning-rate scheduler, the data loaders, the purity metric) are not part
    of the scripts: they appear as the fields of a [Backend] record, and every
    theorem holds for all backends.  Validation metrics are IEEE-754 values
    ([spec_float]), so that not-a-number and its comparisons are the ones the
    scripts run with. *)

From Stdlib Require Import ZArith List Bool String Ascii Lia.
From Stdlib Require Import Floats.SpecFloat.
From stdpp Require Import base option list gmap strings.

Open Scope Z_scope.

(** ** Python values the scripts rely on *)

Module PyFloat.

Definition float : Type := spec_float.

(** [float("inf")] *)
Definition inf : float := S754_infinity false.

Definition nan : float := S754_nan.

(** [x <= y] on floats: false as soon as one side is not-a-number. *)
Definition le (x y : float) : bool := SFleb x y.

(** [x > y] on floats. *)
Definition gt (x y : float) : bool := SFltb y x.

(** [np.isnan(x)] *)
Definition isnan (x : float) : bool :=
  match x with
  | S754_nan => true
  | _ => false
  end.

(** The binary64 values of the literals of the scripts. *)
Definition zero : float := S754_zero false.
Definition one : float := S754_finite false 4503599627370496 (-52).
Definition half : float := S754_finite false 4503599627370496 (-53).
Definition two : float := S754_finite false 4503599627370496 (-51).
Definition lit_0_1 : float := S754_finite false 7205759403792794 (-56).
Definition lit_0_001 : float := S754_finite false 4611686018427388 (-62).

End PyFloat.

Import PyFloat.

(** Exceptions that leave the scripts. *)
Inductive PyExn : Type :=
| IndexError
| ValueError
| NameError
| FileNotFoundError
| DatasetError
| TrialPruned.

Inductive result (A : Type) : Type :=
| Ok (a : A)
| Raise (e : PyExn).

Arguments Ok {A} a.
Arguments Raise {A} e.

(** The primitive values a state record holds. *)
Inductive Value : Type :=
| VInt (z : Z)
| VFloat (f : float)
| VStr (s : string)
| VBool (b : bool).

(** [range(n)] *)
Definition range (n : Z) : list Z := seqZ 0 n.

(** ** Checkpoints *)

Section Checkpoints.
Context {Model Optimizer : Type}.

(** What one call of [save_model] serializes: the model, the optimizer, the
    state record and the keyword arguments (epoch and metrics). *)
Record Checkpoint : Type := {
  ckpt_model : Model;
  ckpt_optimizer : Optimizer;
  ckpt_state : gmap string Value;
  ckpt_epoch : Z;
  ckpt_metrics : list (string * float)
}.

(** Modelled from the spec: [save_model] of [src.baselines.DNDT] and
    [src.LT_models.LTRegressor], which are not among the sources.  The spec
    describes a checkpoint as the serialized model, optimizer and state
    record, overwritten in the save directory at every save.  The value is
    the file written; the content of a save directory is an
    [option Checkpoint], which a save replaces by [Some] of that file. *)
Definition save_model (model : Model) (optimizer : Optimizer)
    (state : gmap string Value) (epoch : Z) (metrics : list (string * float))
    : Checkpoint :=
  {| ckpt_model := model; ckpt_optimizer := optimizer;
     ckpt_state := state; ckpt_epoch := epoch;
     ckpt_metrics := metrics |}.

(** Modelled from the spec: [load_model] of the same classes reads the
    persisted checkpoint of the save directory back and returns its model;
    with no checkpoint there it fails with the error of the missing file. *)
Definition load_model (save_dir : option Checkpoint) : result Model :=
  match save_dir with
  | Some c => Ok (ckpt_model c)
  | None => Raise FileNotFoundError
  end.

End Checkpoints.

Arguments Checkpoint : clear implicits.

(** ** Observable calls

    The scripts act through calls into the libraries; the order of the calls
    that matter for the policies is kept in a log. *)
Inductive Event (C : Type) : Type :=
| EvTrain (e : Z)
| EvEvaluate (e : Z) (val_loss : float)
| EvSave (c : C)
| EvLrStep (val_loss : float)
| EvMonitorWrite (it : Z)
| EvMonitorClose
| EvLoad
| EvFinalEval (score : float).

Arguments EvTrain {C} e.
Arguments EvEvaluate {C} e val_loss.
Arguments EvSave {C} c.
Arguments EvLrStep {C} val_loss.
Arguments EvMonitorWrite {C} it.
Arguments EvMonitorClose {C}.
Arguments EvLoad {C}.
Arguments EvFinalEval {C} score.

Definition is_train {C} (ev : Event C) : bool :=
  match ev with EvTrain _ => true | _ => false end.

(** Number of epochs whose training step was run. *)
Definition epochs_run {C} (trace : list (Event C)) : nat :=
  length (List.filter is_train trace).

(** The checkpoints written, oldest first. *)
Definition saves {C} (trace : list (Event C)) : list C :=
  omap (fun ev => match ev with EvSave c => Some c | _ => None end) trace.

(** The validation metrics observed, oldest first. *)
Definition val_losses {C} (trace : list (Event C)) : list float :=
  omap (fun ev => match ev with EvEvaluate _ v => Some v | _ => None end) trace.

(** ** [src/monitors.py] *)

Module Monitors.

(** One call of [SummaryWriter.add_scalars]. *)
Record ScalarGroup : Type := {
  main_tag : string;
  tag_scalar_dict : list (string * float);
  global_step : Z
}.

(** The group a call [add_scalars(key, item, it)] adds, for a keyword
    metric [(key, item)]. *)
Definition group_at (it : Z) (metric : string * list (string * float))
    : ScalarGroup :=
  {| main_tag := fst metric; tag_scalar_dict := snd metric; global_step := it |}.

Section Monitors.
Context {Dir Model : Type}.

(** [tensorboardX.SummaryWriter]: the scalars added since the last export,
    the JSON files exported, and whether the writer was closed. *)
Record SummaryWriter : Type := {
  logdir : option Dir;
  scalar_dict : list ScalarGroup;
  json_files : list (string * list ScalarGroup);
  closed : bool
}.

Definition new_writer (logdir : option Dir) : SummaryWriter :=
  {| logdir := logdir; scalar_dict := []; json_files := []; closed := false |}.

Definition add_scalars (w : SummaryWriter) (tag : string)
    (d : list (string * float)) (it : Z) : SummaryWriter :=
  {| logdir := logdir w;
     scalar_dict := scalar_dict w ++
       [{| main_tag := tag; tag_scalar_dict := d; global_step := it |}];
     json_files := json_files w;
     closed := closed w |}.

(** [export_scalars_to_json(path)] dumps the scalars to the file and then
    empties them. *)
Definition export_scalars_to_json (w : SummaryWriter) (logfile : string)
    : SummaryWriter :=
  {| logdir := logdir w;
     scalar_dict := [];
     json_files := json_files w ++ [(logfile, scalar_dict w)];
     closed := closed w |}.

Definition writer_close (w : SummaryWriter) : SummaryWriter :=
  {| logdir := logdir w;
     scalar_dict := scalar_dict w;
     json_files := json_files w;
     closed := true |}.

Record MonitorTree : Type := {
  writer : SummaryWriter;
  pruning : bool
}.

(** [MonitorTree.__init__] *)
Definition init (pruning : bool) (logdir : option Dir) : MonitorTree :=
  {| writer := new_writer logdir; pruning := pruning |}.

(** The norms [torch.norm] computes on the tree parameters of a model. *)
Record TreeNorms : Type := {
  eta_linf : Model -> float;
  eta_l1 : Model -> float;
  eta_l0 : Model -> float;
  d_l0 : Model -> float
}.

Context (norms : TreeNorms).

Definition eta_group (model : Model) : list (string * float) :=
  [("linf"%string, eta_linf norms model);
   ("l1"%string, eta_l1 norms model);
   ("l0"%string, eta_l0 norms model)].

Definition d_group (model : Model) : list (string * float) :=
  [("l0"%string, d_l0 norms model)].

(** [MonitorTree.write(model, it, report_tree=False, **metrics)] *)
Definition write (self : MonitorTree) (model : Model) (it : Z)
    (report_tree : bool) (metrics : list (string * list (string * float)))
    : MonitorTree :=
  let w :=
    if report_tree && pruning self then
      let w := add_scalars (writer self) "variables/eta_group" (eta_group model) it in
      add_scalars w "variables/d_group" (d_group model) it
    else writer self in
  let w := fold_left (fun w '(key, item) => add_scalars w key item it) metrics w in
  {| writer := w; pruning := pruning self |}.

(** [MonitorTree.close(logfile="./monitor_scalars.json")] *)
Definition close (self : MonitorTree) (logfile : string) : MonitorTree :=
  let w := export_scalars_to_json (writer self) logfile in
  {| writer := writer_close w; pruning := pruning self |}.

Definition default_logfile : string := "./monitor_scalars.json".

End Monitors.

Arguments SummaryWriter : clear implicits.
Arguments MonitorTree : clear implicits.
Arguments TreeNorms : clear implicits.

End Monitors.

(** The metrics the learning-rate scheduler was stepped with, oldest first. *)
Definition lr_steps {C} (trace : list (Event C)) : list float :=
  omap (fun ev => match ev with EvLrStep v => Some v | _ => None end) trace.

(** The metrics [seen] end with [since] metrics that all failed the test
    [<= best], and the one before them, if any, is [best]. *)
Definition trailing_failures (best : float) (since : Z) (seen : list float) : Prop :=
  exists before after,
    seen = before ++ after /\
    Z.of_nat (length after) = since /\
    Forall (fun v => le v best = false) after /\
    (before = [] /\ best = inf \/ exists earlier, before = earlier ++ [best]).

(** A dict literal: the pairs are inserted from left to right. *)
Definition dict (items : list (string * Value)) : gmap string Value :=
  fold_left (fun m '(k, v) => <[k := v]> m) items ∅.

(** ** [dntn.py] *)

Module Dntn.

Definition CUTS : Z := 1.
Definition TEMP : float := lit_0_1.
Definition LR : float := lit_0_001.
Definition BATCH_SIZE : Z := 512.
Definition EPOCHS : Z := 1.
Definition SEEDS : list Z := [1225; 1337; 2020; 6021991].

(** The three parts of a dataset. *)
Inductive Split : Type := Train | Valid | Test.

(** The libraries behind the script.  [Model], [Optimizer] and [Scheduler]
    carry whatever the libraries keep (parameters, random state, learning
    rate); [Data] is the loaded dataset, and a loader is given by it and the
    number of workers. *)
Class Backend : Type := {
  Data : Type;
  Model : Type;
  Optimizer : Type;
  Scheduler : Type;
  (** [Dataset(DATA_NAME, normalize=True, quantile_transform=True)] *)
  Dataset : string -> result Data;
  (** Lines 28-29: [in_features] and [num_classes] read off the training
      arrays, failing as [shape] and [max] do. *)
  shapes : Data -> result (Z * Z);
  (** [TorchDataset(X, y)] on the arrays of a split. *)
  TorchDataset : Data -> Split -> result unit;
  (** What [DataLoader(dataset, batch_size=..., num_workers=WORKERS,
      shuffle=...)] does once it has accepted the number of workers. *)
  DataLoader : Data -> Split -> Z -> result unit;
  (** [deterministic(SEED)] then [DNDT(in_features, num_classes, CUTS, TEMP)] *)
  DNDT : Data -> Z -> Model;
  (** [QHAdam(model.parameters(), lr=LR, ...)] *)
  QHAdam : Model -> float -> Optimizer;
  (** [ReduceLROnPlateau(optimizer, 'min', factor=0.1, patience=2)] *)
  ReduceLROnPlateau : Optimizer -> Scheduler;
  (** [train_stochastic(trainloader, model, optimizer, criterion, epoch=e, reg=0)] *)
  train_stochastic : Data -> Z -> Model -> Optimizer -> Z -> Model * Optimizer;
  (** [evaluate(valloader, model, {'valid_ER': eval_criterion}, epoch=e)['valid_ER']] *)
  evaluate_valid : Data -> Z -> Model -> Z -> float;
  (** [evaluate(testloader, model, {'test_ER': eval_criterion})['test_ER']] *)
  evaluate_test : Data -> Z -> Model -> float;
  (** [lr_scheduler.step(val_loss)]: may change the optimizer it holds. *)
  lr_scheduler_step : Scheduler -> Optimizer -> float -> Scheduler * Optimizer
}.

(** *** Command line *)

Section CommandLine.
(** The builtin [int] on a string: [None] stands for its [ValueError]. *)
Variable int : string -> option Z.

(** [sys.argv[i]] *)
Definition argv_get (argv : list string) (i : nat) : result string :=
  match argv !! i with
  | Some a => Ok a
  | None => Raise IndexError
  end.

(** [DATA_NAME = sys.argv[1]; WORKERS = int(sys.argv[2])] *)
Definition parse_args (argv : list string) : result (string * Z) :=
  match argv_get argv 1 with
  | Raise ex => Raise ex
  | Ok DATA_NAME =>
      match argv_get argv 2 with
      | Raise ex => Raise ex
      | Ok a =>
          match int a with
          | None => Raise ValueError
          | Some WORKERS => Ok (DATA_NAME, WORKERS)
          end
      end
  end.
End CommandLine.

(** [state = {...}] *)
Definition state (SEED : Z) (DATA_NAME : string) : gmap string Value :=
  dict [("batch-size"%string, VInt BATCH_SIZE);
        ("loss-function"%string, VStr "BCE");
        ("learning-rate"%string, VFloat LR);
        ("seed"%string, VInt SEED);
        ("dataset"%string, VStr DATA_NAME)].

Section Training.
Context {B : Backend}.

Definition Ckpt : Type := Checkpoint Model Optimizer.

(** The variables of one pass of the seed loop, the content of its save
    directory and the log of calls. *)
Record LoopState : Type := {
  model : Model;
  optimizer : Optimizer;
  lr_scheduler : Scheduler;
  best_val_loss : float;
  best_e : Z;
  no_improv : Z;
  save_dir : option Ckpt;
  trace : list (Event Ckpt)
}.

Definition log (ev : Event Ckpt) (s : LoopState) : LoopState :=
  {| model := model s; optimizer := optimizer s; lr_scheduler := lr_scheduler s;
     best_val_loss := best_val_loss s; best_e := best_e s;
     no_improv := no_improv s; save_dir := save_dir s;
     trace := trace s ++ [ev] |}.

Definition set_no_improv (n : Z) (s : LoopState) : LoopState :=
  {| model := model s; optimizer := optimizer s; lr_scheduler := lr_scheduler s;
     best_val_loss := best_val_loss s; best_e := best_e s;
     no_improv := n; save_dir := save_dir s;
     trace := trace s |}.

Variables (DATA_NAME : string) (WORKERS : Z) (data : Data) (SEED : Z).

(** Line 70: the training step updates model and optimizer in place. *)
Definition do_train (e : Z) (s : LoopState) : LoopState :=
  let '(m, o) := train_stochastic data WORKERS (model s) (optimizer s) e in
  log (EvTrain e)
    {| model := m; optimizer := o; lr_scheduler := lr_scheduler s;
       best_val_loss := best_val_loss s; best_e := best_e s;
       no_improv := no_improv s; save_dir := save_dir s;
       trace := trace s |}.

(** Lines 77-79: new best value and epoch, checkpoint written. *)
Definition do_save (e : Z) (val_loss : float) (s : LoopState) : LoopState :=
  let written :=
    save_model (model s) (optimizer s) (state SEED DATA_NAME) e
               [("valid_ER"%string, val_loss)] in
  {| model := model s; optimizer := optimizer s; lr_scheduler := lr_scheduler s;
     best_val_loss := val_loss; best_e := e;
     no_improv := no_improv s; save_dir := Some written;
     trace := trace s ++ [EvSave written] |}.

(** Line 83 *)
Definition do_lr_step (val_loss : float) (s : LoopState) : LoopState :=
  let '(sch, o) := lr_scheduler_step (lr_scheduler s) (optimizer s) val_loss in
  log (EvLrStep val_loss)
    {| model := model s; optimizer := o; lr_scheduler := sch;
       best_val_loss := best_val_loss s; best_e := best_e s;
       no_improv := no_improv s; save_dir := save_dir s;
       trace := trace s |}.

(** The metric the epoch body computes at line 72. *)
Definition val_loss_of (e : Z) (s : LoopState) : float :=
  evaluate_valid data WORKERS (model (do_train e s)) e.

(** The checkpoint the epoch body writes at line 79 when it does. *)
Definition written (e : Z) (s : LoopState) : Ckpt :=
  save_model (model (do_train e s)) (optimizer (do_train e s))
             (state SEED DATA_NAME) e [("valid_ER"%string, val_loss_of e s)].

(** Lines 70-86: the body of the epoch loop; the boolean tells whether the
    body ends in [break]. *)
Definition epoch (total_epochs : Z) (e : Z) (s : LoopState) : LoopState * bool :=
  let s := do_train e s in
  let val_loss := evaluate_valid data WORKERS (model s) e in
  let s := log (EvEvaluate e val_loss) s in
  let s := set_no_improv (no_improv s + 1) s in
  let s :=
    if le val_loss (best_val_loss s)
    then set_no_improv 0 (do_save e val_loss s)
    else s in
  let s := do_lr_step val_loss s in
  (s, no_improv s =? total_epochs / 5).

(** [for e in range(total_epochs): ...] with its [break]. *)
Fixpoint for_epochs (total_epochs : Z) (es : list Z) (s : LoopState) : LoopState :=
  match es with
  | [] => s
  | e :: es' =>
      let '(s', brk) := epoch total_epochs e s in
      if brk then s' else for_epochs total_epochs es' s'
  end.

(** Lines 43-68: the state before the first epoch; [disk] is what the save
    directory holds when the script starts. *)
Definition init_state (disk : option Ckpt) : LoopState :=
  let m := DNDT data SEED in
  let o := QHAdam m LR in
  {| model := m; optimizer := o; lr_scheduler := ReduceLROnPlateau o;
     best_val_loss := inf; best_e := -1; no_improv := 0;
     save_dir := disk; trace := [] |}.

Definition train_loop (total_epochs : Z) (disk : option Ckpt) : LoopState :=
  for_epochs total_epochs (range total_epochs) (init_state disk).

(** The save directory holds the last checkpoint the loop wrote, and what
    was there before the run as long as it wrote none. *)
Definition disk_inv (disk : option Ckpt) (s : LoopState) : Prop :=
  save_dir s = from_option Some disk (last (saves (trace s))).

(** [best_e] and [best_val_loss] are the epoch and the metric of the last
    checkpoint of the log, which the evaluation of that epoch returned, or
    still the initial values. *)
Definition best_record (s : LoopState) : Prop :=
  match last (saves (trace s)) with
  | Some c =>
      ckpt_epoch c = best_e s /\
      ckpt_metrics c = [("valid_ER"%string, best_val_loss s)] /\
      EvEvaluate (best_e s) (best_val_loss s) ∈ trace s
  | None => best_e s = -1 /\ best_val_loss s = inf
  end.

(** Lines 91-95: the checkpoint is loaded and evaluated on the test set. *)
Definition final_eval (s : LoopState) : result float * LoopState :=
  match load_model (save_dir s) with
  | Raise ex => (Raise ex, s)
  | Ok m =>
      let s := log EvLoad
        {| model := m; optimizer := optimizer s; lr_scheduler := lr_scheduler s;
           best_val_loss := best_val_loss s; best_e := best_e s;
           no_improv := no_improv s; save_dir := save_dir s;
           trace := trace s |} in
      let test_loss := evaluate_test data WORKERS (model s) in
      (Ok test_loss, log (EvFinalEval test_loss) s)
  end.

(** One pass of the seed loop (lines 38-100). *)
Definition run_seed (total_epochs : Z) (disk : option Ckpt)
    : result float * LoopState :=
  final_eval (train_loop total_epochs disk).

End Training.

Section Script.
Context {B : Backend}.
Variable int : string -> option Z.

(** What the script leaves behind: the save directories by seed and the
    calls made, seed after seed. *)
Record World : Type := {
  results : gmap Z Ckpt;
  calls : list (Event Ckpt)
}.

(** [for SEED in [...]: ...] collecting [test_losses]. *)
Fixpoint seed_loop (DATA_NAME : string) (WORKERS : Z) (data : Data)
    (seeds : list Z) (test_losses : list float) (w : World)
    : result (list float) * World :=
  match seeds with
  | [] => (Ok test_losses, w)
  | SEED :: seeds' =>
      let '(r, s) := run_seed DATA_NAME WORKERS data SEED EPOCHS (results w !! SEED) in
      let w' := {| results := partial_alter (fun _ => save_dir s) SEED (results w);
                   calls := calls w ++ trace s |} in
      match r with
      | Raise ex => (Raise ex, w')
      | Ok test_loss =>
          seed_loop DATA_NAME WORKERS data seeds' (test_losses ++ [test_loss]) w'
      end
  end.

(** One of the lines 31-33: the dataset of the split is built, then
    [DataLoader] is called on it; torch begins by refusing a negative number
    of workers with [ValueError]. *)
Definition loader (data : Data) (split : Split) (WORKERS : Z) : result unit :=
  match TorchDataset data split with
  | Raise ex => Raise ex
  | Ok _ =>
      if WORKERS <? 0 then Raise ValueError else DataLoader data split WORKERS
  end.

(** Lines 28-33: the shapes, then the three loaders. *)
Definition setup (data : Data) (WORKERS : Z) : result unit :=
  match shapes data with
  | Raise ex => Raise ex
  | Ok _ =>
      match loader data Train WORKERS with
      | Raise ex => Raise ex
      | Ok _ =>
          match loader data Valid WORKERS with
          | Raise ex => Raise ex
          | Ok _ => loader data Test WORKERS
          end
      end
  end.

(** The whole script up to the collected test losses. *)
Definition main (argv : list string) (w : World) : result (list float) * World :=
  match parse_args int argv with
  | Raise ex => (Raise ex, w)
  | Ok (DATA_NAME, WORKERS) =>
      match Dataset DATA_NAME with
      | Raise ex => (Raise ex, w)
      | Ok data =>
          match setup data WORKERS with
          | Raise ex => (Raise ex, w)
          | Ok _ => seed_loop DATA_NAME WORKERS data SEEDS [] w
          end
      end
  end.
End Script.

End Dntn.

(** ** [tune_clustering.py] *)

Module TuneClustering.
Import Monitors.

Definition SEED : Z := 1337.
Definition DATA_NAME : string := "COVTYPE".
Definition LR : float := lit_0_1.
Definition EPOCHS : Z := 50.
Definition SPLIT_FUNC : string := "linear".

(** Lines 43-51: 128 for ALOI, 512 for COVTYPE. *)
Definition BATCH_SIZE : Z :=
  if String.eqb DATA_NAME "ALOI" then 128 else 512.

(** The save directory of a trial below [root_dir]:
    [depth={}/reg={}/seed={}]. *)
Record SaveDir : Type := {
  sd_depth : Z;
  sd_reg : float;
  sd_seed : Z
}.

Class Backend : Type := {
  Model : Type;
  Optimizer : Type;
  Scheduler : Type;
  (** [LTRegressor(TREE_DEPTH, ..., pruned=pruning, split_func=SPLIT_FUNC)] *)
  LTRegressor : Z -> bool -> string -> Model;
  (** [QHAdam(model.parameters(), lr=LR, ...)] *)
  QHAdam : Model -> float -> Optimizer;
  (** [ReduceLROnPlateau(optimizer, 'min', factor=0.1, patience=3)] *)
  ReduceLROnPlateau : Optimizer -> Scheduler;
  (** [train_stochastic(trainloader, model, optimizer, criterion, epoch=e,
       reg=REG, monitor=monitor)] *)
  train_stochastic :
    Model -> Optimizer -> Z -> float -> MonitorTree SaveDir ->
    Model * Optimizer * MonitorTree SaveDir;
  (** [evaluate(valloader, model, {'MSE': criterion}, epoch=e,
       monitor=monitor)['MSE']] *)
  evaluate : Model -> Z -> MonitorTree SaveDir -> float * MonitorTree SaveDir;
  (** [lr_scheduler.step(val_loss)]: may change the optimizer it holds. *)
  lr_scheduler_step : Scheduler -> Optimizer -> float -> Scheduler * Optimizer;
  (** [optimizer.param_groups[0]['lr']] *)
  current_lr : Optimizer -> float;
  norms : TreeNorms Model;
  (** The score of [LT_dendrogram_purity(data.X_valid_in, data.y_valid, model, ...)] *)
  LT_dendrogram_purity : Model -> float
}.

(** [state = {...}] *)
Definition state (REG : float) : gmap string Value :=
  dict [("batch-size"%string, VInt BATCH_SIZE);
        ("loss-function"%string, VStr "MSE");
        ("learning-rate"%string, VFloat LR);
        ("seed"%string, VInt SEED);
        ("dataset"%string, VStr DATA_NAME);
        ("reg"%string, VFloat REG);
        ("linear"%string, VBool true)].

Section Objective.
Context {B : Backend}.

Definition Ckpt : Type := Checkpoint Model Optimizer.

(** The local variables of [objective], the content of the save directory
    of the trial and the log of calls; [e] is the loop variable, unbound
    before the first epoch. *)
Record TrialState : Type := {
  model : Model;
  optimizer : Optimizer;
  lr_scheduler : Scheduler;
  monitor : MonitorTree SaveDir;
  best_val_loss : float;
  best_e : Z;
  e : option Z;
  save_dir : option Ckpt;
  trace : list (Event Ckpt)
}.

Definition log (ev : Event Ckpt) (s : TrialState) : TrialState :=
  {| model := model s; optimizer := optimizer s; lr_scheduler := lr_scheduler s;
     monitor := monitor s; best_val_loss := best_val_loss s; best_e := best_e s;
     e := e s; save_dir := save_dir s; trace := trace s ++ [ev] |}.

Definition set_monitor (mon : MonitorTree SaveDir) (s : TrialState) : TrialState :=
  {| model := model s; optimizer := optimizer s; lr_scheduler := lr_scheduler s;
     monitor := mon; best_val_loss := best_val_loss s; best_e := best_e s;
     e := e s; save_dir := save_dir s; trace := trace s |}.

Variables (TREE_DEPTH : Z) (REG : float).

(** Line 107 *)
Definition do_train (ep : Z) (s : TrialState) : TrialState :=
  let '(m, o, mon) := train_stochastic (model s) (optimizer s) ep REG (monitor s) in
  log (EvTrain ep)
    {| model := m; optimizer := o; lr_scheduler := lr_scheduler s;
       monitor := mon; best_val_loss := best_val_loss s; best_e := best_e s;
       e := Some ep; save_dir := save_dir s; trace := trace s |}.

(** Lines 112-114 *)
Definition do_save (ep : Z) (val_loss : float) (s : TrialState) : TrialState :=
  let written :=
    save_model (model s) (optimizer s) (state REG) ep
               [("val_mse"%string, val_loss)] in
  {| model := model s; optimizer := optimizer s; lr_scheduler := lr_scheduler s;
     monitor := monitor s; best_val_loss := val_loss; best_e := ep;
     e := e s; save_dir := Some written;
     trace := trace s ++ [EvSave written] |}.

(** Line 117 *)
Definition do_lr_step (val_loss : float) (s : TrialState) : TrialState :=
  let '(sch, o) := lr_scheduler_step (lr_scheduler s) (optimizer s) val_loss in
  log (EvLrStep val_loss)
    {| model := model s; optimizer := o; lr_scheduler := sch;
       monitor := monitor s; best_val_loss := best_val_loss s; best_e := best_e s;
       e := e s; save_dir := save_dir s; trace := trace s |}.

(** [monitor.write(model, it, **metrics)], [report_tree] left to its
    default. *)
Definition do_write (it : Z) (metrics : list (string * list (string * float)))
    (s : TrialState) : TrialState :=
  log (EvMonitorWrite it)
    (set_monitor (write norms (monitor s) (model s) it false metrics) s).

(** [monitor.close()] *)
Definition do_close (s : TrialState) : TrialState :=
  log EvMonitorClose (set_monitor (close (monitor s) default_logfile) s).

(** The metric the epoch body computes at line 109. *)
Definition val_loss_of (ep : Z) (s : TrialState) : float :=
  let s := do_train ep s in
  fst (evaluate (model s) ep (monitor s)).

(** The checkpoint the epoch body writes at line 114 when it does. *)
Definition written (ep : Z) (s : TrialState) : Ckpt :=
  save_model (model (do_train ep s)) (optimizer (do_train ep s))
             (state REG) ep [("val_mse"%string, val_loss_of ep s)].

(** Lines 107-122: the body of the epoch loop; [Some ex] when the body
    raises [ex]. *)
Definition epoch (ep : Z) (s : TrialState) : TrialState * option PyExn :=
  let s := do_train ep s in
  let '(val_loss, mon) := evaluate (model s) ep (monitor s) in
  let s := log (EvEvaluate ep val_loss) (set_monitor mon s) in
  let s :=
    if le val_loss (best_val_loss s)
    then do_save ep val_loss s
    else s in
  let s := do_lr_step val_loss s in
  let s := do_write ep [("train"%string, [("lr"%string, current_lr (optimizer s))])] s in
  if isnan val_loss
  then (do_close s, Some TrialPruned)
  else (s, None).

(** [for e in range(EPOCHS): ...]; an exception ends the loop. *)
Fixpoint for_epochs (es : list Z) (s : TrialState) : TrialState * option PyExn :=
  match es with
  | [] => (s, None)
  | ep :: es' =>
      match epoch ep s with
      | (s', Some ex) => (s', Some ex)
      | (s', None) => for_epochs es' s'
      end
  end.

(** Lines 72-105 *)
Definition init_state (disk : option Ckpt) : TrialState :=
  let pruning := gt REG zero in
  let dir := {| sd_depth := TREE_DEPTH; sd_reg := REG; sd_seed := SEED |} in
  let m := LTRegressor TREE_DEPTH pruning SPLIT_FUNC in
  let o := QHAdam m LR in
  {| model := m; optimizer := o; lr_scheduler := ReduceLROnPlateau o;
     monitor := init pruning (Some dir);
     best_val_loss := inf; best_e := -1; e := None;
     save_dir := disk; trace := [] |}.

(** The save directory holds the last checkpoint the trial wrote, and what
    was there before the trial as long as it wrote none. *)
Definition disk_inv (disk : option Ckpt) (s : TrialState) : Prop :=
  save_dir s = from_option Some disk (last (saves (trace s))).

(** Every checkpoint of the log carries a metric that is a number. *)
Definition saved_numbers (s : TrialState) : Prop :=
  Forall (fun c => exists v, ckpt_metrics c = [("val_mse"%string, v)] /\ isnan v = false)
         (saves (trace s)).

(** [best_e] and [best_val_loss] are the epoch and the metric of the last
    checkpoint of the log, or still the initial values. *)
Definition best_inv (s : TrialState) : Prop :=
  match last (saves (trace s)) with
  | Some c =>
      ckpt_epoch c = best_e s /\
      ckpt_metrics c = [("val_mse"%string, best_val_loss s)]
  | None => best_e s = -1 /\ best_val_loss s = inf
  end.

(** Once a checkpoint is in the log, [best_val_loss] is what the evaluation
    of epoch [best_e] returned. *)
Definition best_seen (s : TrialState) : Prop :=
  match last (saves (trace s)) with
  | Some _ => EvEvaluate (best_e s) (best_val_loss s) ∈ trace s
  | None => True
  end.

(** Lines 124-133: the checkpoint is loaded and scored. *)
Definition final_eval (s : TrialState) : result float * TrialState :=
  match load_model (save_dir s) with
  | Raise ex => (Raise ex, s)
  | Ok m =>
      let s := log EvLoad
        {| model := m; optimizer := optimizer s; lr_scheduler := lr_scheduler s;
           monitor := monitor s; best_val_loss := best_val_loss s;
           best_e := best_e s; e := e s; save_dir := save_dir s;
           trace := trace s |} in
      let score := LT_dendrogram_purity (model s) in
      let s := log (EvFinalEval score) s in
      match e s with
      | None => (Raise NameError, s)
      | Some ep =>
          let s := do_write ep [("val"%string, [("Dendrogram Purity"%string, score)])] s in
          let s := do_close s in
          (Ok score, s)
      end
  end.

(** [objective(trial)] once the trial has suggested [TREE_DEPTH] and
    [REG]; [disk] is what the save directory holds when it starts. *)
Definition objective_on (es : list Z) (disk : option Ckpt)
    : result float * TrialState :=
  match for_epochs es (init_state disk) with
  | (s, Some ex) => (Raise ex, s)
  | (s, None) => final_eval s
  end.

Definition objective (disk : option Ckpt) : result float * TrialState :=
  objective_on (range EPOCHS) disk.

End Objective.

End TuneClustering.

(** ** Concrete backends

    Backends small enough to run the loops on: the validation metric of epoch
    [e] is read from a table, and a model is the number of training steps it
    went through. *)

Module Fixtures.

Definition table_lookup (t : list float) (ep : Z) : float :=
  default nan (t !! Z.to_nat ep).

Definition dntn_table (metrics : list float) : Dntn.Backend :=
  {| Dntn.Data := unit;
     Dntn.Model := Z;
     Dntn.Optimizer := unit;
     Dntn.Scheduler := unit;
     Dntn.Dataset := fun _ => Ok tt;
     Dntn.shapes := fun _ => Ok (4, 2);
     Dntn.TorchDataset := fun _ _ => Ok tt;
     Dntn.DataLoader := fun _ _ _ => Ok tt;
     Dntn.DNDT := fun _ _ => 0;
     Dntn.QHAdam := fun _ _ => tt;
     Dntn.ReduceLROnPlateau := fun _ => tt;
     Dntn.train_stochastic := fun _ _ m o _ => (m + 1, o);
     Dntn.evaluate_valid := fun _ _ _ ep => table_lookup metrics ep;
     Dntn.evaluate_test := fun _ _ m => table_lookup metrics (m - 1);
     Dntn.lr_scheduler_step := fun sch o _ => (sch, o) |}.

Definition tune_table (metrics : list float) : TuneClustering.Backend :=
  {| TuneClustering.Model := Z;
     TuneClustering.Optimizer := unit;
     TuneClustering.Scheduler := unit;
     TuneClustering.LTRegressor := fun _ _ _ => 0;
     TuneClustering.QHAdam := fun _ _ => tt;
     TuneClustering.ReduceLROnPlateau := fun _ => tt;
     TuneClustering.train_stochastic := fun m o _ _ mon => (m + 1, o, mon);
     TuneClustering.evaluate := fun _ ep mon => (table_lookup metrics ep, mon);
     TuneClustering.lr_scheduler_step := fun sch o _ => (sch, o);
     TuneClustering.current_lr := fun _ => lit_0_1;
     TuneClustering.norms :=
       {| Monitors.eta_linf := fun _ => one; Monitors.eta_l1 := fun _ => one;
          Monitors.eta_l0 := fun _ => one; Monitors.d_l0 := fun _ => one |};
     TuneClustering.LT_dendrogram_purity := fun m => table_lookup metrics (m - 1) |}.

(** The builtin [int] on plain decimal literals: an optional sign and
    decimal digits, nothing else. *)
Definition digit_of (c : ascii) : option Z :=
  let n := Z.of_nat (nat_of_ascii c) in
  if (48 <=? n) && (n <=? 57) then Some (n - 48) else None.

Fixpoint digits_value (acc : Z) (s : string) : option Z :=
  match s with
  | EmptyString => Some acc
  | String c s' =>
      match digit_of c with
      | Some d => digits_value (10 * acc + d) s'
      | None => None
      end
  end.

Definition decimal_int (s : string) : option Z :=
  match s with
  | EmptyString => None
  | String "-" (String c s') => Z.opp <$> digits_value 0 (String c s')
  | String "+" (String c s') => digits_value 0 (String c s')
  | _ => digits_value 0 s
  end.

End Fixtures.

(** ** The order of the numbers among the floats

    Every float but not-a-number is sent to a triple of integers that the
    comparison orders lexicographically: the class (minus infinity, negative,
    zero, positive, plus infinity), then exponent and mantissa, both negated
    for a negative number. *)
Definition float_key (x : float) : Z * Z * Z :=
  match x with
  | S754_nan => (0, 0, 0)
  | S754_zero _ => (0, 0, 0)
  | S754_infinity true => (-2, 0, 0)
  | S754_infinity false => (2, 0, 0)
  | S754_finite true m e => (-1, - e, - Z.pos m)
  | S754_finite false m e => (1, e, Z.pos m)
  end.

Definition key_le (a b : Z * Z * Z) : Prop :=
  let '(a1, a2, a3) := a in
  let '(b1, b2, b3) := b in
  a1 < b1 \/ (a1 = b1 /\ (a2 < b2 \/ (a2 = b2 /\ a3 <= b3))).

(** [best] is the running minimum of the metrics [seen]: it is a number or
    still plus infinity, it is below or equal to every number among them,
    and it is one of them unless it is still plus infinity. *)
Definition min_so_far (best : float) (seen : list float) : Prop :=
  isnan best = false /\
  Forall (fun v => isnan v || le best v = true) seen /\
  (best = inf \/ best ∈ seen).

(** ** Facts on float comparison *)

Lemma le_nan_l (y : float) : le nan y = false.
Proof. reflexivity. Qed.

Lemma le_nan_r (x : float) : le x nan = false.
Proof. destruct x; reflexivity. Qed.

Lemma isnan_le_false (x y : float) : isnan x = true -> le x y = false.
Proof. destruct x; simpl; try discriminate. intros _. apply le_nan_l. Qed.

Lemma le_true_not_nan (x y : float) :
  le x y = true -> isnan x = false /\ isnan y = false.
Proof.
  intros H. split.
  - destruct (isnan x) eqn:E; [|reflexivity].
    rewrite (isnan_le_false x y E) in H. discriminate.
  - destruct y; try reflexivity. rewrite le_nan_r in H. discriminate.
Qed.

Lemma le_inf (x : float) : isnan x = false -> le x inf = true.
Proof. destruct x as [s|s| |s m ex]; try destruct s; simpl; try reflexivity; discriminate. Qed.

Lemma le_inf_iff (x : float) : le x inf = negb (isnan x).
Proof.
  destruct (isnan x) eqn:E; simpl.
  - now apply isnan_le_false.
  - now apply le_inf.
Qed.

Lemma range_pos (n : Z) : 0 < n -> range n = 0 :: seqZ 1 (n - 1).
Proof. intros H. unfold range. now rewrite seqZ_cons. Qed.

(** ** Facts on the log *)

Lemma saves_app {C} (t1 t2 : list (Event C)) : saves (t1 ++ t2) = saves t1 ++ saves t2.
Proof. apply omap_app. Qed.

Lemma val_losses_app {C} (t1 t2 : list (Event C)) :
  val_losses (t1 ++ t2) = val_losses t1 ++ val_losses t2.
Proof. apply omap_app. Qed.

Lemma epochs_run_app {C} (t1 t2 : list (Event C)) :
  epochs_run (t1 ++ t2) = (epochs_run t1 + epochs_run t2)%nat.
Proof. unfold epochs_run. now rewrite List.filter_app, length_app. Qed.

(** ** The epoch loop of [dntn.py] *)

Section DntnLoop.
Context {B : Dntn.Backend}.
Variables (DATA_NAME : string) (WORKERS : Z) (data : Dntn.Data) (SEED : Z).

Local Abbreviation epoch := (Dntn.epoch DATA_NAME WORKERS data SEED).
Local Abbreviation for_epochs := (Dntn.for_epochs DATA_NAME WORKERS data SEED).
Local Abbreviation val_loss_of := (Dntn.val_loss_of WORKERS data).
Local Abbreviation trained := (Dntn.do_train WORKERS data).
Local Abbreviation written := (Dntn.written DATA_NAME WORKERS data SEED).

(** Every variable after one run of the epoch body. *)
Lemma dntn_epoch_fields (total_epochs e : Z) (s : Dntn.LoopState) :
  let v := val_loss_of e s in
  let improved := le v (Dntn.best_val_loss s) in
  let s' := fst (epoch total_epochs e s) in
  Dntn.best_val_loss s' = (if improved then v else Dntn.best_val_loss s) /\
  Dntn.best_e s' = (if improved then e else Dntn.best_e s) /\
  Dntn.no_improv s' = (if improved then 0 else Dntn.no_improv s + 1) /\
  Dntn.save_dir s' = (if improved then Some (written e s) else Dntn.save_dir s) /\
  Dntn.trace s' =
    Dntn.trace s ++ [EvTrain e; EvEvaluate e v] ++
    (if improved then [EvSave (written e s)] else []) ++ [EvLrStep v] /\
  Dntn.model s' = Dntn.model (trained e s) /\
  snd (epoch total_epochs e s) = (Dntn.no_improv s' =? total_epochs / 5).
Proof.
  unfold Dntn.written, Dntn.epoch, Dntn.val_loss_of, Dntn.do_lr_step, Dntn.do_train.
  destruct (Dntn.train_stochastic data WORKERS (Dntn.model s) (Dntn.optimizer s) e)
    as [m o] eqn:Et.
  cbn [Dntn.log Dntn.set_no_improv Dntn.model Dntn.optimizer Dntn.best_val_loss
       Dntn.no_improv Dntn.trace Dntn.lr_scheduler Dntn.save_dir Dntn.best_e].
  destruct (le (Dntn.evaluate_valid data WORKERS m e) (Dntn.best_val_loss s)) eqn:El;
    cbn [Dntn.do_save Dntn.log Dntn.set_no_improv Dntn.model Dntn.optimizer
         Dntn.best_val_loss Dntn.no_improv Dntn.trace Dntn.lr_scheduler
         Dntn.save_dir Dntn.best_e];
    match goal with
    | |- context [Dntn.lr_scheduler_step ?a ?b ?c] =>
        destruct (Dntn.lr_scheduler_step a b c) as [sch o']
    end;
    cbn [fst snd Dntn.log Dntn.model Dntn.optimizer Dntn.best_val_loss
         Dntn.no_improv Dntn.trace Dntn.lr_scheduler Dntn.save_dir Dntn.best_e];
    rewrite <- ?app_assoc; repeat split; reflexivity.
Qed.

Lemma dntn_for_epochs_cons (total_epochs e : Z) (es : list Z) (s : Dntn.LoopState) :
  for_epochs total_epochs (e :: es) s =
    if snd (epoch total_epochs e s)
    then fst (epoch total_epochs e s)
    else for_epochs total_epochs es (fst (epoch total_epochs e s)).
Proof.
  cbn [Dntn.for_epochs]. now destruct (epoch total_epochs e s) as [s' [|]].
Qed.

(** What holds before the loop and is kept by every epoch body holds when
    the loop is left, whether by [break] or by exhaustion. *)
Lemma dntn_for_epochs_ind (P : Dntn.LoopState -> Prop) (total_epochs : Z) :
  (forall e s, P s -> P (fst (epoch total_epochs e s))) ->
  forall es s, P s -> P (for_epochs total_epochs es s).
Proof.
  intros Hstep es. induction es as [|e es IH]; intros s Hs.
  - exact Hs.
  - rewrite dntn_for_epochs_cons.
    destruct (snd (epoch total_epochs e s)); [|apply IH]; now apply Hstep.
Qed.

Lemma dntn_epoch_saves (total_epochs e : Z) (s : Dntn.LoopState) :
  saves (Dntn.trace (fst (epoch total_epochs e s))) =
    saves (Dntn.trace s) ++
    (if le (val_loss_of e s) (Dntn.best_val_loss s) then [written e s] else []).
Proof.
  destruct (dntn_epoch_fields total_epochs e s) as (_ & _ & _ & _ & Ht & _).
  rewrite Ht, !saves_app.
  destruct (le _ _); simpl; now rewrite ?app_nil_r.
Qed.

Lemma dntn_epoch_epochs_run (total_epochs e : Z) (s : Dntn.LoopState) :
  epochs_run (Dntn.trace (fst (epoch total_epochs e s))) =
    S (epochs_run (Dntn.trace s)).
Proof.
  destruct (dntn_epoch_fields total_epochs e s) as (_ & _ & _ & _ & Ht & _).
  rewrite Ht, !epochs_run_app.
  destruct (le _ _); cbn; lia.
Qed.

Lemma dntn_epochs_run_mono (total_epochs : Z) (es : list Z) (s : Dntn.LoopState) :
  (epochs_run (Dntn.trace s) <= epochs_run (Dntn.trace (for_epochs total_epochs es s)))%nat.
Proof.
  apply (dntn_for_epochs_ind (fun s' => (epochs_run (Dntn.trace s) <= epochs_run (Dntn.trace s'))%nat));
    [|lia].
  intros e s' H. rewrite dntn_epoch_epochs_run. lia.
Qed.

Lemma dntn_disk_inv_epoch disk (total_epochs e : Z) (s : Dntn.LoopState) :
  Dntn.disk_inv disk s -> Dntn.disk_inv disk (fst (epoch total_epochs e s)).
Proof.
  unfold Dntn.disk_inv. intros H.
  destruct (dntn_epoch_fields total_epochs e s) as (_ & _ & _ & Hd & _).
  rewrite Hd, dntn_epoch_saves.
  destruct (le _ _).
  - now rewrite last_snoc.
  - now rewrite app_nil_r.
Qed.

Lemma dntn_disk_inv_loop disk (total_epochs : Z) :
  Dntn.disk_inv disk (Dntn.train_loop DATA_NAME WORKERS data SEED total_epochs disk).
Proof.
  unfold Dntn.train_loop. apply dntn_for_epochs_ind.
  - intros e s. apply dntn_disk_inv_epoch.
  - reflexivity.
Qed.

Lemma dntn_saves_mono (total_epochs : Z) (es : list Z) (s : Dntn.LoopState) :
  saves (Dntn.trace s) `prefix_of` saves (Dntn.trace (for_epochs total_epochs es s)).
Proof.
  apply (dntn_for_epochs_ind (fun s' => saves (Dntn.trace s) `prefix_of` saves (Dntn.trace s')));
    [|reflexivity].
  intros e s' H. rewrite dntn_epoch_saves.
  etransitivity; [exact H|]. now apply prefix_app_r.
Qed.

End DntnLoop.

(** ** The epoch loop of [tune_clustering.py] *)

Section TuneLoop.
Context {B : TuneClustering.Backend}.
Variables (TREE_DEPTH : Z) (REG : float).

Local Abbreviation epoch := (TuneClustering.epoch REG).
Local Abbreviation for_epochs := (TuneClustering.for_epochs REG).
Local Abbreviation val_loss_of := (TuneClustering.val_loss_of REG).
Local Abbreviation written := (TuneClustering.written REG).

(** Every variable the policies read after one run of the epoch body. *)
Lemma tune_epoch_fields (ep : Z) (s : TuneClustering.TrialState) :
  let v := val_loss_of ep s in
  let improved := le v (TuneClustering.best_val_loss s) in
  let s' := fst (epoch ep s) in
  TuneClustering.best_val_loss s' = (if improved then v else TuneClustering.best_val_loss s) /\
  TuneClustering.best_e s' = (if improved then ep else TuneClustering.best_e s) /\
  TuneClustering.save_dir s' =
    (if improved then Some (written ep s) else TuneClustering.save_dir s) /\
  TuneClustering.trace s' =
    TuneClustering.trace s ++ [EvTrain ep; EvEvaluate ep v] ++
    (if improved then [EvSave (written ep s)] else []) ++
    [EvLrStep v; EvMonitorWrite ep] ++
    (if isnan v then [EvMonitorClose] else []) /\
  TuneClustering.e s' = Some ep /\
  snd (epoch ep s) = (if isnan v then Some TrialPruned else None) /\
  (isnan v = true ->
   exists mon, TuneClustering.monitor s' = Monitors.close mon Monitors.default_logfile).
Proof.
  unfold TuneClustering.written, TuneClustering.epoch, TuneClustering.val_loss_of,
    TuneClustering.do_write, TuneClustering.do_close, TuneClustering.do_lr_step,
    TuneClustering.do_train.
  destruct (TuneClustering.train_stochastic (TuneClustering.model s)
              (TuneClustering.optimizer s) ep REG (TuneClustering.monitor s))
    as [[m o] mon0] eqn:Et.
  cbn [TuneClustering.log TuneClustering.set_monitor TuneClustering.model
       TuneClustering.optimizer TuneClustering.best_val_loss TuneClustering.monitor
       TuneClustering.trace TuneClustering.lr_scheduler TuneClustering.save_dir
       TuneClustering.best_e TuneClustering.e].
  destruct (TuneClustering.evaluate m ep mon0) as [v mon1] eqn:Ev.
  cbn [fst TuneClustering.log TuneClustering.set_monitor TuneClustering.model
       TuneClustering.optimizer TuneClustering.best_val_loss TuneClustering.monitor
       TuneClustering.trace TuneClustering.lr_scheduler TuneClustering.save_dir
       TuneClustering.best_e TuneClustering.e].
  destruct (le v (TuneClustering.best_val_loss s)) eqn:El;
    cbn [TuneClustering.do_save TuneClustering.log TuneClustering.set_monitor
         TuneClustering.model TuneClustering.optimizer TuneClustering.best_val_loss
         TuneClustering.monitor TuneClustering.trace TuneClustering.lr_scheduler
         TuneClustering.save_dir TuneClustering.best_e TuneClustering.e];
    match goal with
    | |- context [TuneClustering.lr_scheduler_step ?a ?b ?c] =>
        destruct (TuneClustering.lr_scheduler_step a b c) as [sch o']
    end;
    cbn [TuneClustering.log TuneClustering.set_monitor TuneClustering.model
         TuneClustering.optimizer TuneClustering.best_val_loss TuneClustering.monitor
         TuneClustering.trace TuneClustering.lr_scheduler TuneClustering.save_dir
         TuneClustering.best_e TuneClustering.e];
    destruct (isnan v) eqn:En;
    cbn [fst snd TuneClustering.log TuneClustering.set_monitor TuneClustering.model
         TuneClustering.optimizer TuneClustering.best_val_loss TuneClustering.monitor
         TuneClustering.trace TuneClustering.lr_scheduler TuneClustering.save_dir
         TuneClustering.best_e TuneClustering.e];
    rewrite <- ?app_assoc; repeat split; try reflexivity; try discriminate;
    intros _; eexists; reflexivity.
Qed.

Lemma tune_for_epochs_cons (ep : Z) (es : list Z) (s : TuneClustering.TrialState) :
  for_epochs (ep :: es) s =
    match snd (epoch ep s) with
    | Some ex => (fst (epoch ep s), Some ex)
    | None => for_epochs es (fst (epoch ep s))
    end.
Proof.
  cbn [TuneClustering.for_epochs]. now destruct (epoch ep s) as [s' [ex|]].
Qed.

(** What holds before the loop and is kept by every epoch body holds when
    the loop is left, whether by an exception or by exhaustion. *)
Lemma tune_for_epochs_ind (P : TuneClustering.TrialState -> Prop) :
  (forall ep s, P s -> P (fst (epoch ep s))) ->
  forall es s, P s -> P (fst (for_epochs es s)).
Proof.
  intros Hstep es. induction es as [|ep es IH]; intros s Hs.
  - exact Hs.
  - rewrite tune_for_epochs_cons.
    destruct (snd (epoch ep s)); [|apply IH]; now apply Hstep.
Qed.

Lemma tune_epoch_saves (ep : Z) (s : TuneClustering.TrialState) :
  saves (TuneClustering.trace (fst (epoch ep s))) =
    saves (TuneClustering.trace s) ++
    (if le (val_loss_of ep s) (TuneClustering.best_val_loss s) then [written ep s] else []).
Proof.
  destruct (tune_epoch_fields ep s) as (_ & _ & _ & Ht & _).
  rewrite Ht, !saves_app.
  destruct (le _ _), (isnan _); simpl; now rewrite ?app_nil_r.
Qed.

Lemma tune_epoch_val_losses (ep : Z) (s : TuneClustering.TrialState) :
  val_losses (TuneClustering.trace (fst (epoch ep s))) =
    val_losses (TuneClustering.trace s) ++ [val_loss_of ep s].
Proof.
  destruct (tune_epoch_fields ep s) as (_ & _ & _ & Ht & _).
  rewrite Ht, !val_losses_app.
  destruct (le _ _), (isnan _); reflexivity.
Qed.

Lemma tune_epoch_trace_prefix (ep : Z) (s : TuneClustering.TrialState) :
  TuneClustering.trace s `prefix_of` TuneClustering.trace (fst (epoch ep s)).
Proof.
  destruct (tune_epoch_fields ep s) as (_ & _ & _ & Ht & _).
  rewrite Ht. now apply prefix_app_r.
Qed.

Lemma tune_trace_mono (es : list Z) (s : TuneClustering.TrialState) :
  TuneClustering.trace s `prefix_of` TuneClustering.trace (fst (for_epochs es s)).
Proof.
  apply (tune_for_epochs_ind
           (fun s' => TuneClustering.trace s `prefix_of` TuneClustering.trace s'));
    [|reflexivity].
  intros ep s' H. etransitivity; [exact H|]. apply tune_epoch_trace_prefix.
Qed.

Lemma tune_disk_inv_epoch disk (ep : Z) (s : TuneClustering.TrialState) :
  TuneClustering.disk_inv disk s -> TuneClustering.disk_inv disk (fst (epoch ep s)).
Proof.
  unfold TuneClustering.disk_inv. intros H.
  destruct (tune_epoch_fields ep s) as (_ & _ & Hd & _).
  rewrite Hd, tune_epoch_saves.
  destruct (le _ _).
  - now rewrite last_snoc.
  - now rewrite app_nil_r.
Qed.

Lemma tune_disk_inv_loop disk (es : list Z) :
  TuneClustering.disk_inv disk
    (fst (for_epochs es (TuneClustering.init_state TREE_DEPTH REG disk))).
Proof.
  apply tune_for_epochs_ind.
  - intros ep s. apply tune_disk_inv_epoch.
  - reflexivity.
Qed.

Lemma tune_saved_numbers_epoch (ep : Z) (s : TuneClustering.TrialState) :
  TuneClustering.saved_numbers s -> TuneClustering.saved_numbers (fst (epoch ep s)).
Proof.
  unfold TuneClustering.saved_numbers. intros H. rewrite tune_epoch_saves.
  apply Forall_app. split; [exact H|].
  destruct (le _ _) eqn:El; [|constructor].
  repeat constructor. exists (val_loss_of ep s). split; [reflexivity|].
  now apply le_true_not_nan in El.
Qed.

(** How the loop ends: by exhaustion with numbers only among the metrics it
    saw, or by [TrialPruned] right after the checkpoint test, the
    learning-rate step and the monitor write of an epoch whose metric is
    not-a-number, the monitor being closed. *)
Lemma tune_for_epochs_outcome (es : list Z) (s : TuneClustering.TrialState) :
  Forall (fun v => isnan v = false) (val_losses (TuneClustering.trace s)) ->
  match for_epochs es s with
  | (s', None) =>
      Forall (fun v => isnan v = false) (val_losses (TuneClustering.trace s'))
  | (s', Some ex) =>
      ex = TrialPruned /\
      exists t ep v mon,
        isnan v = true /\
        TuneClustering.trace s' =
          t ++ [EvTrain ep; EvEvaluate ep v; EvLrStep v; EvMonitorWrite ep;
                EvMonitorClose] /\
        TuneClustering.monitor s' = Monitors.close mon Monitors.default_logfile
  end.
Proof.
  revert s. induction es as [|ep es IH]; intros s Hs.
  - exact Hs.
  - rewrite tune_for_epochs_cons.
    destruct (tune_epoch_fields ep s) as (_ & _ & _ & Ht & _ & Hr & Hm).
    rewrite Hr. destruct (isnan (val_loss_of ep s)) eqn:En.
    + split; [reflexivity|].
      destruct (Hm eq_refl) as [mon Hmon].
      exists (TuneClustering.trace s), ep, (val_loss_of ep s), mon.
      split; [exact En|]. split; [|exact Hmon].
      rewrite Ht, (isnan_le_false _ _ En). reflexivity.
    + apply IH. rewrite tune_epoch_val_losses.
      apply Forall_app. split; [exact Hs|]. now repeat constructor.
Qed.

Lemma tune_best_inv_epoch (ep : Z) (s : TuneClustering.TrialState) :
  TuneClustering.best_inv s -> TuneClustering.best_inv (fst (epoch ep s)).
Proof.
  unfold TuneClustering.best_inv. intros H.
  destruct (tune_epoch_fields ep s) as (Hb & He & _).
  rewrite Hb, He, tune_epoch_saves.
  destruct (le _ _).
  - rewrite last_snoc. split; reflexivity.
  - now rewrite app_nil_r.
Qed.

Lemma tune_epoch_e (ep : Z) (s : TuneClustering.TrialState) :
  is_Some (TuneClustering.e (fst (epoch ep s))).
Proof.
  destruct (tune_epoch_fields ep s) as (_ & _ & _ & _ & He & _). now rewrite He.
Qed.

(** After a loop of at least one epoch the loop variable is bound. *)
Lemma tune_e_bound (es : list Z) (s : TuneClustering.TrialState) :
  es <> [] -> is_Some (TuneClustering.e (fst (for_epochs es s))).
Proof.
  destruct es as [|ep es]; [done|]. intros _.
  rewrite tune_for_epochs_cons.
  destruct (snd (epoch ep s)); simpl; [apply tune_epoch_e|].
  apply (tune_for_epochs_ind (fun s' => is_Some (TuneClustering.e s'))).
  - intros ep' s' _. apply tune_epoch_e.
  - apply tune_epoch_e.
Qed.

End TuneLoop.

(** ** The claims *)

(** C1 - Best-checkpoint policy.  Both loops start with the running minimum
    at +infinity.  In an epoch whose validation metric is less than or equal
    to the running minimum, the model and optimizer as they are after the
    training step of that epoch are saved together with the state record, the
    save directory holds that checkpoint, the running minimum and the best
    epoch become the values of the epoch and (in [dntn.py]) the no-improvement
    counter is zero.  In every other epoch nothing is saved and the save
    directory, the running minimum and the best epoch are unchanged. *)
Theorem C1_best_checkpoint_policy :
  (forall (B : Dntn.Backend) (DATA_NAME : string) (WORKERS : Z) (data : Dntn.Data)
          (SEED total_epochs : Z) (disk : option Dntn.Ckpt) (e : Z) (s : Dntn.LoopState),
     Dntn.best_val_loss (Dntn.init_state data SEED disk) = inf /\
     let v := Dntn.val_loss_of WORKERS data e s in
     let s' := fst (Dntn.epoch DATA_NAME WORKERS data SEED total_epochs e s) in
     let c := Dntn.written DATA_NAME WORKERS data SEED e s in
     if le v (Dntn.best_val_loss s)
     then Dntn.save_dir s' = Some c /\
          saves (Dntn.trace s') = saves (Dntn.trace s) ++ [c] /\
          ckpt_model c = Dntn.model (Dntn.do_train WORKERS data e s) /\
          ckpt_optimizer c = Dntn.optimizer (Dntn.do_train WORKERS data e s) /\
          ckpt_state c = Dntn.state SEED DATA_NAME /\
          Dntn.best_val_loss s' = v /\ Dntn.best_e s' = e /\ Dntn.no_improv s' = 0
     else Dntn.save_dir s' = Dntn.save_dir s /\
          saves (Dntn.trace s') = saves (Dntn.trace s) /\
          Dntn.best_val_loss s' = Dntn.best_val_loss s /\
          Dntn.best_e s' = Dntn.best_e s) /\
  (forall (B : TuneClustering.Backend) (TREE_DEPTH : Z) (REG : float)
          (disk : option TuneClustering.Ckpt) (ep : Z) (s : TuneClustering.TrialState),
     TuneClustering.best_val_loss (TuneClustering.init_state TREE_DEPTH REG disk) = inf /\
     let v := TuneClustering.val_loss_of REG ep s in
     let s' := fst (TuneClustering.epoch REG ep s) in
     let c := TuneClustering.written REG ep s in
     if le v (TuneClustering.best_val_loss s)
     then TuneClustering.save_dir s' = Some c /\
          saves (TuneClustering.trace s') = saves (TuneClustering.trace s) ++ [c] /\
          ckpt_model c = TuneClustering.model (TuneClustering.do_train REG ep s) /\
          ckpt_optimizer c = TuneClustering.optimizer (TuneClustering.do_train REG ep s) /\
          ckpt_state c = TuneClustering.state REG /\
          TuneClustering.best_val_loss s' = v /\ TuneClustering.best_e s' = ep
     else TuneClustering.save_dir s' = TuneClustering.save_dir s /\
          saves (TuneClustering.trace s') = saves (TuneClustering.trace s) /\
          TuneClustering.best_val_loss s' = TuneClustering.best_val_loss s /\
          TuneClustering.best_e s' = TuneClustering.best_e s).
Proof.
  split.
  - intros B DATA_NAME WORKERS data SEED total_epochs disk e s.
    split; [reflexivity|]. cbv zeta.
    destruct (dntn_epoch_fields DATA_NAME WORKERS data SEED total_epochs e s)
      as (Hb & He & Hn & Hd & _).
    pose proof (dntn_epoch_saves DATA_NAME WORKERS data SEED total_epochs e s) as Hs.
    cbv zeta in *.
    destruct (le _ _).
    + repeat split; assumption.
    + rewrite app_nil_r in Hs. repeat split; assumption.
  - intros B TREE_DEPTH REG disk ep s.
    split; [reflexivity|]. cbv zeta.
    destruct (tune_epoch_fields REG ep s) as (Hb & He & Hd & _).
    pose proof (tune_epoch_saves REG ep s) as Hs.
    cbv zeta in *.
    destruct (le _ _).
    + repeat split; assumption.
    + rewrite app_nil_r in Hs. repeat split; assumption.
Qed.

(** C2 - Early-stop counter.  After an epoch of the loop of [dntn.py] the
    no-improvement counter is its old value plus one, unless the validation
    metric was less than or equal to the running minimum, and then it is
    zero; the epoch body ends in [break] exactly when that counter equals
    [total_epochs // 5], and then the loop is left with the state of that
    epoch, while otherwise it goes on with the next epoch. *)
Theorem C2_early_stop_counter :
  forall (B : Dntn.Backend) (DATA_NAME : string) (WORKERS : Z) (data : Dntn.Data)
         (SEED total_epochs : Z) (e : Z) (es : list Z) (s : Dntn.LoopState),
    let v := Dntn.val_loss_of WORKERS data e s in
    let s' := fst (Dntn.epoch DATA_NAME WORKERS data SEED total_epochs e s) in
    let brk := snd (Dntn.epoch DATA_NAME WORKERS data SEED total_epochs e s) in
    Dntn.no_improv s' =
      (if le v (Dntn.best_val_loss s) then 0 else Dntn.no_improv s + 1) /\
    (brk = true <-> Dntn.no_improv s' = total_epochs / 5) /\
    Dntn.for_epochs DATA_NAME WORKERS data SEED total_epochs (e :: es) s =
      (if brk then s'
       else Dntn.for_epochs DATA_NAME WORKERS data SEED total_epochs es s').
Proof.
  intros B DATA_NAME WORKERS data SEED total_epochs e es s. cbv zeta.
  destruct (dntn_epoch_fields DATA_NAME WORKERS data SEED total_epochs e s)
    as (_ & _ & Hn & _ & _ & _ & Hbrk).
  cbv zeta in *.
  split; [exact Hn|]. split.
  - rewrite Hbrk. apply Z.eqb_eq.
  - apply dntn_for_epochs_cons.
Qed.

Lemma C2_early_stop_counter_witness :
  let B := Fixtures.dntn_table [half; one] in
  let s1 := fst (Dntn.epoch "d" 0 tt 1225 6 0 (Dntn.init_state tt 1225 None)) in
  snd (Dntn.epoch "d" 0 tt 1225 6 1 s1) = true.
Proof.
  cbv zeta.
  apply (C2_early_stop_counter (Fixtures.dntn_table [half; one]) "d"%string 0 tt 1225 6 1 []).
  reflexivity.
Defined.

(** ** Early stop with fewer than ten epochs *)

Section DntnFirstEpoch.
Context {B : Dntn.Backend}.
Variables (DATA_NAME : string) (WORKERS : Z) (data : Dntn.Data) (SEED : Z).
Variable disk : option Dntn.Ckpt.

Local Abbreviation s0 := (Dntn.init_state data SEED disk).
Local Abbreviation v0 := (Dntn.val_loss_of WORKERS data 0 s0).
Local Abbreviation epoch := (Dntn.epoch DATA_NAME WORKERS data SEED).
Local Abbreviation train_loop := (Dntn.train_loop DATA_NAME WORKERS data SEED).

Lemma dntn_first_no_improv (total_epochs : Z) :
  Dntn.no_improv (fst (epoch total_epochs 0 s0)) = (if isnan v0 then 1 else 0).
Proof.
  destruct (dntn_epoch_fields DATA_NAME WORKERS data SEED total_epochs 0 s0)
    as (_ & _ & Hn & _).
  cbv zeta in Hn. rewrite Hn.
  change (Dntn.best_val_loss s0) with inf. rewrite le_inf_iff.
  now destruct (isnan _).
Qed.

Lemma dntn_first_break (total_epochs : Z) :
  snd (epoch total_epochs 0 s0) = ((if isnan v0 then 1 else 0) =? total_epochs / 5).
Proof.
  destruct (dntn_epoch_fields DATA_NAME WORKERS data SEED total_epochs 0 s0)
    as (_ & _ & _ & _ & _ & _ & Hbrk).
  cbv zeta in Hbrk. now rewrite Hbrk, dntn_first_no_improv.
Qed.

Lemma dntn_epochs_run_first (total_epochs : Z) :
  epochs_run (Dntn.trace (fst (epoch total_epochs 0 s0))) = 1%nat.
Proof. now rewrite dntn_epoch_epochs_run. Qed.

(** With at least one planned epoch, the loop runs one epoch only exactly
    when the first epoch is the only one or ends in [break]. *)
Lemma dntn_one_epoch_iff (total_epochs : Z) :
  1 <= total_epochs ->
  epochs_run (Dntn.trace (train_loop total_epochs disk)) = 1%nat <->
  total_epochs = 1 \/ snd (epoch total_epochs 0 s0) = true.
Proof.
  intros Hpos. unfold Dntn.train_loop.
  rewrite range_pos by lia. rewrite dntn_for_epochs_cons.
  destruct (snd (epoch total_epochs 0 s0)) eqn:Hbrk.
  - split; [auto|]. intros _. apply dntn_epochs_run_first.
  - destruct (decide (total_epochs = 1)) as [->|Hne].
    + split; [auto|]. intros _. apply dntn_epochs_run_first.
    + rewrite seqZ_cons by lia. rewrite dntn_for_epochs_cons.
      split; [|intros [?|?]; [lia|discriminate]].
      intros H. exfalso.
      set (s1 := fst (epoch total_epochs 0 s0)) in *.
      set (s2 := fst (epoch total_epochs 1 s1)) in *.
      assert (H2 : epochs_run (Dntn.trace s2) = 2%nat).
      { unfold s2. rewrite dntn_epoch_epochs_run. unfold s1.
        now rewrite dntn_epochs_run_first. }
      destruct (snd (epoch total_epochs 1 s1)); [lia|].
      pose proof (dntn_epochs_run_mono DATA_NAME WORKERS data SEED total_epochs
                    (seqZ (Z.succ 1) (Z.pred (total_epochs - 1))) s2).
      lia.
Qed.

End DntnFirstEpoch.

(** C3 (as stated, refuted) - with five planned epochs and a validation metric
    that stays at 1.0, every epoch ties with the running minimum, the counter
    is reset each time, never equals 5 // 5 = 1, and all five epochs run. *)
Lemma C3_counterexample :
  ~ (forall (B : Dntn.Backend) (DATA_NAME : string) (WORKERS : Z) (data : Dntn.Data)
            (SEED total_epochs : Z) (disk : option Dntn.Ckpt),
       total_epochs < 10 ->
       epochs_run (Dntn.trace
         (Dntn.train_loop DATA_NAME WORKERS data SEED total_epochs disk)) = 1%nat).
Proof.
  intros H.
  specialize (H (Fixtures.dntn_table [one; one; one; one; one])
                "d"%string 0 tt 1225 5 None ltac:(lia)).
  vm_compute in H. discriminate H.
Qed.

(** C3 (amended) - for a total epoch count from 1 to 9, the loop of [dntn.py]
    stops after the very first epoch exactly in these cases: one epoch is
    planned; or fewer than five are planned (threshold 0) and the first
    validation metric is a number, so that the counter is reset to 0; or five
    to nine are planned (threshold 1) and the first validation metric is
    not-a-number, so that the counter stays at 1. *)
Theorem C3_degenerate_early_stop :
  forall (B : Dntn.Backend) (DATA_NAME : string) (WORKERS : Z) (data : Dntn.Data)
         (SEED total_epochs : Z) (disk : option Dntn.Ckpt),
    1 <= total_epochs < 10 ->
    let v0 := Dntn.val_loss_of WORKERS data 0 (Dntn.init_state data SEED disk) in
    epochs_run (Dntn.trace
      (Dntn.train_loop DATA_NAME WORKERS data SEED total_epochs disk)) = 1%nat <->
    total_epochs = 1 \/
    (total_epochs < 5 /\ isnan v0 = false) \/
    (5 <= total_epochs /\ isnan v0 = true).
Proof.
  intros B DATA_NAME WORKERS data SEED total_epochs disk Hrange v0.
  rewrite dntn_one_epoch_iff by lia.
  rewrite dntn_first_break. fold v0.
  assert (Hq : total_epochs / 5 = 0 /\ total_epochs < 5 \/
               total_epochs / 5 = 1 /\ 5 <= total_epochs).
  { destruct (Z_lt_le_dec total_epochs 5).
    - left. split; [apply Z.div_small|]; lia.
    - right. split; [|lia]. symmetry. apply (Z.div_unique total_epochs 5 1 (total_epochs - 5)); lia. }
  destruct (isnan v0); destruct Hq as [[-> Hlt]|[-> Hge]]; simpl; intuition (try lia; try discriminate).
Qed.

Lemma C3_degenerate_early_stop_witness :
  1 <= 3 < 10 /\
  epochs_run (Dntn.trace
    (@Dntn.train_loop (Fixtures.dntn_table [half; one; two]) "d" 0 tt 1225 3 None)) = 1%nat.
Proof.
  split; [lia|].
  apply (C3_degenerate_early_stop (Fixtures.dntn_table [half; one; two])
           "d"%string 0 tt 1225 3 None); [lia|].
  right. left. split; [lia|reflexivity].
Defined.

(** ** Final evaluation and the checkpoint of the first epoch *)

Section DntnFinal.
Context {B : Dntn.Backend}.
Variables (DATA_NAME : string) (WORKERS : Z) (data : Dntn.Data) (SEED : Z).

Lemma dntn_final_eval_result (s : Dntn.LoopState) :
  fst (Dntn.final_eval WORKERS data s) =
    match Dntn.save_dir s with
    | Some c => Ok (Dntn.evaluate_test data WORKERS (ckpt_model c))
    | None => Raise FileNotFoundError
    end.
Proof. unfold Dntn.final_eval. now destruct (Dntn.save_dir s). Qed.

Lemma dntn_final_eval_model (s : Dntn.LoopState) (c : Dntn.Ckpt) :
  Dntn.save_dir s = Some c ->
  Dntn.model (snd (Dntn.final_eval WORKERS data s)) = ckpt_model c.
Proof. unfold Dntn.final_eval. now intros ->. Qed.

Lemma dntn_first_epoch_saved (total_epochs : Z) (disk : option Dntn.Ckpt) :
  1 <= total_epochs ->
  isnan (Dntn.val_loss_of WORKERS data 0 (Dntn.init_state data SEED disk)) = false ->
  let s := Dntn.train_loop DATA_NAME WORKERS data SEED total_epochs disk in
  exists c, Dntn.save_dir s = Some c /\ last (saves (Dntn.trace s)) = Some c.
Proof.
  intros Hpos Hnum s.
  assert (Hne : saves (Dntn.trace s) <> []).
  { unfold s, Dntn.train_loop. rewrite range_pos by lia.
    rewrite dntn_for_epochs_cons.
    set (s1 := fst (Dntn.epoch DATA_NAME WORKERS data SEED total_epochs 0
                      (Dntn.init_state data SEED disk))).
    assert (H1 : saves (Dntn.trace s1) =
                 [Dntn.written DATA_NAME WORKERS data SEED 0 (Dntn.init_state data SEED disk)]).
    { unfold s1. rewrite dntn_epoch_saves.
      change (Dntn.best_val_loss (Dntn.init_state data SEED disk)) with inf.
      now rewrite (le_inf _ Hnum). }
    destruct (snd _).
    - now rewrite H1.
    - pose proof (dntn_saves_mono DATA_NAME WORKERS data SEED total_epochs
                    (seqZ 1 (total_epochs - 1)) s1) as [k Hk].
      rewrite Hk, H1. discriminate. }
  pose proof (dntn_disk_inv_loop DATA_NAME WORKERS data SEED disk total_epochs) as Hinv.
  unfold Dntn.disk_inv in Hinv. fold s in Hinv.
  destruct (last (saves (Dntn.trace s))) as [c|] eqn:Hl.
  - exists c. now split.
  - apply last_None in Hl. contradiction.
Qed.

End DntnFinal.

Section TuneFinal.
Context {B : TuneClustering.Backend}.
Variables (TREE_DEPTH : Z) (REG : float).

Lemma tune_final_eval_result (s : TuneClustering.TrialState) :
  fst (TuneClustering.final_eval s) =
    match TuneClustering.save_dir s with
    | Some c =>
        match TuneClustering.e s with
        | Some _ => Ok (TuneClustering.LT_dendrogram_purity (ckpt_model c))
        | None => Raise NameError
        end
    | None => Raise FileNotFoundError
    end.
Proof.
  unfold TuneClustering.final_eval.
  destruct (TuneClustering.save_dir s); [|reflexivity]. simpl.
  now destruct (TuneClustering.e s).
Qed.

Lemma tune_objective_on_cases (es : list Z) (disk : option TuneClustering.Ckpt) :
  let loop := TuneClustering.for_epochs REG es (TuneClustering.init_state TREE_DEPTH REG disk) in
  TuneClustering.objective_on TREE_DEPTH REG es disk =
    match snd loop with
    | Some ex => (Raise ex, fst loop)
    | None => TuneClustering.final_eval (fst loop)
    end.
Proof.
  unfold TuneClustering.objective_on. cbv zeta.
  now destruct (TuneClustering.for_epochs _ _ _) as [s [ex|]].
Qed.

Lemma tune_first_epoch_saved (es : list Z) (disk : option TuneClustering.Ckpt) :
  isnan (TuneClustering.val_loss_of REG 0
           (TuneClustering.init_state TREE_DEPTH REG disk)) = false ->
  let s := fst (TuneClustering.for_epochs REG (0 :: es)
                  (TuneClustering.init_state TREE_DEPTH REG disk)) in
  exists c, TuneClustering.save_dir s = Some c /\
            last (saves (TuneClustering.trace s)) = Some c.
Proof.
  intros Hnum s.
  set (s0 := TuneClustering.init_state TREE_DEPTH REG disk) in *.
  assert (Hne : saves (TuneClustering.trace s) <> []).
  { set (s1 := fst (TuneClustering.epoch REG 0 s0)).
    assert (H1 : saves (TuneClustering.trace s1) = [TuneClustering.written REG 0 s0]).
    { unfold s1. rewrite tune_epoch_saves.
      change (TuneClustering.best_val_loss s0) with inf.
      now rewrite (le_inf _ Hnum). }
    unfold s. rewrite tune_for_epochs_cons. fold s1.
    destruct (snd _); simpl.
    - now rewrite H1.
    - pose proof (tune_trace_mono REG es s1) as [k Hk].
      rewrite Hk, saves_app, H1. discriminate. }
  pose proof (tune_disk_inv_loop TREE_DEPTH REG disk (0 :: es)) as Hinv.
  unfold TuneClustering.disk_inv in Hinv. fold s0 s in Hinv.
  destruct (last (saves (TuneClustering.trace s))) as [c|] eqn:Hl.
  - exists c. now split.
  - apply last_None in Hl. contradiction.
Qed.

Lemma tune_final_eval_state (s : TuneClustering.TrialState) :
  let s' := snd (TuneClustering.final_eval s) in
  TuneClustering.save_dir s' = TuneClustering.save_dir s /\
  val_losses (TuneClustering.trace s') = val_losses (TuneClustering.trace s) /\
  saves (TuneClustering.trace s') = saves (TuneClustering.trace s).
Proof.
  unfold TuneClustering.final_eval.
  destruct (TuneClustering.save_dir s) as [c|] eqn:Hd; simpl; [|now rewrite Hd].
  destruct (TuneClustering.e s); simpl;
    rewrite ?val_losses_app, ?saves_app; simpl; rewrite ?app_nil_r; auto.
Qed.

Lemma close_closed {Dir : Type} (mon : Monitors.MonitorTree Dir) (logfile : string) :
  let w := Monitors.writer (Monitors.close mon logfile) in
  Monitors.closed w = true /\
  last (Monitors.json_files w) =
    Some (logfile, Monitors.scalar_dict (Monitors.writer mon)) /\
  Monitors.scalar_dict w = [].
Proof. simpl. now rewrite last_snoc. Qed.

(** An epoch whose metric is not-a-number ends with the monitor closed right
    after the write of the learning rate of that epoch. *)
Lemma tune_epoch_close (ep : Z) (s : TuneClustering.TrialState) :
  isnan (TuneClustering.val_loss_of REG ep s) = true ->
  exists mon lr,
    TuneClustering.monitor (fst (TuneClustering.epoch REG ep s)) =
      Monitors.close mon Monitors.default_logfile /\
    last (Monitors.scalar_dict (Monitors.writer mon)) =
      Some (Monitors.group_at ep ("train"%string, [("lr"%string, lr)])).
Proof.
  unfold TuneClustering.epoch, TuneClustering.val_loss_of,
    TuneClustering.do_write, TuneClustering.do_close, TuneClustering.do_lr_step,
    TuneClustering.do_train.
  destruct (TuneClustering.train_stochastic (TuneClustering.model s)
              (TuneClustering.optimizer s) ep REG (TuneClustering.monitor s))
    as [[m o] mon0].
  cbn [TuneClustering.log TuneClustering.set_monitor TuneClustering.model
       TuneClustering.optimizer TuneClustering.best_val_loss TuneClustering.monitor
       TuneClustering.trace TuneClustering.lr_scheduler TuneClustering.save_dir
       TuneClustering.best_e TuneClustering.e].
  destruct (TuneClustering.evaluate m ep mon0) as [v mon1].
  cbn [fst TuneClustering.log TuneClustering.set_monitor TuneClustering.model
       TuneClustering.optimizer TuneClustering.best_val_loss TuneClustering.monitor
       TuneClustering.trace TuneClustering.lr_scheduler TuneClustering.save_dir
       TuneClustering.best_e TuneClustering.e].
  intros ->.
  destruct (le v (TuneClustering.best_val_loss s));
    cbn [TuneClustering.do_save TuneClustering.log TuneClustering.set_monitor
         TuneClustering.model TuneClustering.optimizer TuneClustering.best_val_loss
         TuneClustering.monitor TuneClustering.trace TuneClustering.lr_scheduler
         TuneClustering.save_dir TuneClustering.best_e TuneClustering.e];
    match goal with
    | |- context [TuneClustering.lr_scheduler_step ?a ?b ?c] =>
        destruct (TuneClustering.lr_scheduler_step a b c) as [sch o']
    end;
    cbn [fst TuneClustering.log TuneClustering.set_monitor TuneClustering.model
         TuneClustering.optimizer TuneClustering.best_val_loss TuneClustering.monitor
         TuneClustering.trace TuneClustering.lr_scheduler TuneClustering.save_dir
         TuneClustering.best_e TuneClustering.e];
    eexists _, _; (split; [reflexivity|]);
    unfold Monitors.write; simpl; now rewrite last_snoc.
Qed.

(** A loop left by an exception was left in one of its epoch bodies. *)
Lemma tune_for_epochs_raised (es : list Z) (s s' : TuneClustering.TrialState)
    (ex : PyExn) :
  TuneClustering.for_epochs REG es s = (s', Some ex) ->
  exists ep s1, TuneClustering.epoch REG ep s1 = (s', Some ex).
Proof.
  revert s. induction es as [|ep es IH]; intros s H; [discriminate|].
  rewrite tune_for_epochs_cons in H.
  destruct (snd (TuneClustering.epoch REG ep s)) as [ex'|] eqn:Hr.
  - exists ep, s. rewrite <- H, <- Hr. now destruct (TuneClustering.epoch REG ep s).
  - now apply IH in H.
Qed.

End TuneFinal.

(** C4 - NaN-abort policy.  When one of the validation metrics a trial saw
    is not-a-number, [objective] raises [TrialPruned] and returns no score;
    the last calls of the trial are the training and evaluation of that
    epoch (no checkpoint is written in it), the learning-rate step, the
    monitor write and the monitor close; the close exported to the JSON log
    file the scalars the monitor held, the last of them the learning rate
    written in that epoch, and left the writer closed and emptied.  When
    every validation metric
    of the trial is a number, [objective] returns the dendrogram-purity
    score of the model of the checkpoint in the save directory. *)
Theorem C4_nan_abort :
  forall (B : TuneClustering.Backend) (TREE_DEPTH : Z) (REG : float)
         (disk : option TuneClustering.Ckpt),
    let r := fst (TuneClustering.objective TREE_DEPTH REG disk) in
    let s := snd (TuneClustering.objective TREE_DEPTH REG disk) in
    let w := Monitors.writer (TuneClustering.monitor s) in
    ((exists v, v ∈ val_losses (TuneClustering.trace s) /\ isnan v = true) ->
     r = Raise TrialPruned /\
     (exists t ep v scalars lr,
        isnan v = true /\
        TuneClustering.trace s =
          t ++ [EvTrain ep; EvEvaluate ep v; EvLrStep v; EvMonitorWrite ep;
                EvMonitorClose] /\
        last (Monitors.json_files w) = Some (Monitors.default_logfile, scalars) /\
        last scalars =
          Some (Monitors.group_at ep ("train"%string, [("lr"%string, lr)]))) /\
     Monitors.closed w = true /\
     Monitors.scalar_dict w = []) /\
    ((forall v, v ∈ val_losses (TuneClustering.trace s) -> isnan v = false) ->
     exists c, TuneClustering.save_dir s = Some c /\
               r = Ok (TuneClustering.LT_dendrogram_purity (ckpt_model c))).
Proof.
  intros B TREE_DEPTH REG disk. cbv zeta.
  unfold TuneClustering.objective.
  rewrite tune_objective_on_cases. cbv zeta.
  set (s0 := TuneClustering.init_state TREE_DEPTH REG disk).
  pose proof (tune_for_epochs_outcome REG (range TuneClustering.EPOCHS) s0
                (Forall_nil_2 _)) as Hout.
  assert (Hr : range TuneClustering.EPOCHS = 0 :: seqZ 1 (TuneClustering.EPOCHS - 1))
    by (apply range_pos; reflexivity).
  destruct (TuneClustering.for_epochs REG (range TuneClustering.EPOCHS) s0)
    as [s1 [ex|]] eqn:Hloop; cbn [fst snd].
  - destruct Hout as (-> & _).
    destruct (tune_for_epochs_raised REG _ _ _ _ Hloop) as (ep & s2 & Hep).
    assert (Hs1 : s1 = fst (TuneClustering.epoch REG ep s2)) by now rewrite Hep.
    destruct (tune_epoch_fields REG ep s2) as (_ & _ & _ & Ht & _ & Hres & _).
    cbv zeta in Ht, Hres. rewrite Hep in Hres. cbn [snd] in Hres.
    destruct (isnan (TuneClustering.val_loss_of REG ep s2)) eqn:Hnan; [|discriminate].
    rewrite (isnan_le_false _ _ Hnan) in Ht. rewrite <- Hs1 in Ht.
    destruct (tune_epoch_close REG ep s2 Hnan) as (mon & lr & Hmon & Hlast).
    rewrite <- Hs1 in Hmon.
    destruct (close_closed mon Monitors.default_logfile) as (Hc & Hj & He).
    cbv zeta in Hc, Hj, He. rewrite <- Hmon in Hc, Hj, He.
    split.
    + intros _. split; [reflexivity|]. split; [|now split].
      exists (TuneClustering.trace s2), ep, (TuneClustering.val_loss_of REG ep s2),
             (Monitors.scalar_dict (Monitors.writer mon)), lr.
      split; [exact Hnan|]. split; [exact Ht|]. now split.
    + intros Hall. exfalso.
      assert (Hv : TuneClustering.val_loss_of REG ep s2 ∈ val_losses (TuneClustering.trace s1)).
      { rewrite Ht, val_losses_app. apply elem_of_app. right. left. }
      specialize (Hall _ Hv). congruence.
  - destruct (tune_final_eval_state s1) as (Hd & Hv & _). cbv zeta in Hd, Hv.
    rewrite Hv, Hd, tune_final_eval_result.
    split.
    + intros (v & Hin & Hnan). exfalso.
      rewrite Forall_forall in Hout. specialize (Hout v Hin). congruence.
    + intros Hall.
      assert (Hs1 : s1 = fst (TuneClustering.for_epochs REG (range TuneClustering.EPOCHS) s0))
        by now rewrite Hloop.
      assert (Hnum : isnan (TuneClustering.val_loss_of REG 0 s0) = false).
      { apply Hall. rewrite Hs1, Hr, tune_for_epochs_cons.
        set (s' := fst (TuneClustering.epoch REG 0 s0)).
        assert (H0 : TuneClustering.val_loss_of REG 0 s0 ∈ val_losses (TuneClustering.trace s')).
        { unfold s'. rewrite tune_epoch_val_losses. set_solver. }
        destruct (snd (TuneClustering.epoch REG 0 s0)); [exact H0|].
        destruct (tune_trace_mono REG (seqZ 1 (TuneClustering.EPOCHS - 1)) s') as [k Hk].
        rewrite Hk, val_losses_app. apply elem_of_app. now left. }
      destruct (tune_first_epoch_saved TREE_DEPTH REG (seqZ 1 (TuneClustering.EPOCHS - 1)) disk Hnum)
        as (c & Hc & _).
      rewrite <- Hr in Hc. fold s0 in Hc. rewrite <- Hs1 in Hc.
      exists c. split; [exact Hc|]. rewrite Hc.
      destruct (tune_e_bound REG (range TuneClustering.EPOCHS) s0) as [ep Hep].
      { rewrite Hr. discriminate. }
      rewrite <- Hs1 in Hep. now rewrite Hep.
Qed.

Lemma C4_nan_abort_witness :
  fst (@TuneClustering.objective (Fixtures.tune_table [one; half]) 3 one None)
    = Raise TrialPruned /\
  fst (@TuneClustering.objective (Fixtures.tune_table (replicate 50 one)) 3 one None)
    = Ok one.
Proof.
  split.
  - apply (C4_nan_abort (Fixtures.tune_table [one; half]) 3 one None).
    exists nan. split; [|reflexivity].
    apply list_elem_of_In. vm_compute. auto.
  - destruct (C4_nan_abort (Fixtures.tune_table (replicate 50 one)) 3 one None)
      as [_ H].
    destruct H as (c & Hc & Hr).
    + apply Forall_forall. vm_compute. repeat constructor.
    + rewrite Hr. vm_compute in Hc. injection Hc as <-. reflexivity.
Defined.

(** C5 - Reload-best for the final evaluation.  In [dntn.py] the test error
    of a seed is the test evaluation of the model [load_model] returns for
    the save directory as the epoch loop left it, that model replaces the
    in-memory one, and a failing load is the failure of the seed; two states
    with the same save directory give the same test error, whatever their
    in-memory models are.  In [tune_clustering.py] a trial that was not
    pruned returns the dendrogram purity of the model [load_model] returns
    for its save directory, and two states with the same save directory and
    loop variable give the same score. *)
Theorem C5_reload_best :
  (forall (B : Dntn.Backend) (DATA_NAME : string) (WORKERS : Z) (data : Dntn.Data)
          (SEED total_epochs : Z) (disk : option Dntn.Ckpt),
     let s := Dntn.train_loop DATA_NAME WORKERS data SEED total_epochs disk in
     fst (Dntn.run_seed DATA_NAME WORKERS data SEED total_epochs disk) =
       match load_model (Dntn.save_dir s) with
       | Ok m => Ok (Dntn.evaluate_test data WORKERS m)
       | Raise ex => Raise ex
       end /\
     forall m, load_model (Dntn.save_dir s) = Ok m ->
       Dntn.model (snd (Dntn.run_seed DATA_NAME WORKERS data SEED total_epochs disk)) = m) /\
  (forall (B : Dntn.Backend) (WORKERS : Z) (data : Dntn.Data) (s1 s2 : Dntn.LoopState),
     Dntn.save_dir s1 = Dntn.save_dir s2 ->
     fst (Dntn.final_eval WORKERS data s1) = fst (Dntn.final_eval WORKERS data s2)) /\
  (forall (B : TuneClustering.Backend) (TREE_DEPTH : Z) (REG : float)
          (disk : option TuneClustering.Ckpt) (s : TuneClustering.TrialState),
     TuneClustering.for_epochs REG (range TuneClustering.EPOCHS)
       (TuneClustering.init_state TREE_DEPTH REG disk) = (s, None) ->
     fst (TuneClustering.objective TREE_DEPTH REG disk) =
       match load_model (TuneClustering.save_dir s) with
       | Ok m => Ok (TuneClustering.LT_dendrogram_purity m)
       | Raise ex => Raise ex
       end) /\
  (forall (B : TuneClustering.Backend) (s1 s2 : TuneClustering.TrialState),
     TuneClustering.save_dir s1 = TuneClustering.save_dir s2 ->
     TuneClustering.e s1 = TuneClustering.e s2 ->
     fst (TuneClustering.final_eval s1) = fst (TuneClustering.final_eval s2)).
Proof.
  split; [|split; [|split]].
  - intros B DATA_NAME WORKERS data SEED total_epochs disk s.
    unfold Dntn.run_seed. fold s. split.
    + rewrite dntn_final_eval_result. now destruct (Dntn.save_dir s).
    + intros m Hm. destruct (Dntn.save_dir s) as [c|] eqn:Hc; [|discriminate].
      injection Hm as <-. now apply dntn_final_eval_model.
  - intros B WORKERS data s1 s2 H.
    now rewrite !dntn_final_eval_result, H.
  - intros B TREE_DEPTH REG disk s Hloop.
    unfold TuneClustering.objective. rewrite tune_objective_on_cases. cbv zeta.
    destruct (tune_e_bound REG (range TuneClustering.EPOCHS)
                (TuneClustering.init_state TREE_DEPTH REG disk)) as [ep Hep].
    { rewrite range_pos by reflexivity. discriminate. }
    rewrite Hloop in *. cbn [fst snd] in *.
    rewrite tune_final_eval_result, Hep. now destruct (TuneClustering.save_dir s).
  - intros B s1 s2 Hd He.
    now rewrite !tune_final_eval_result, Hd, He.
Qed.

Lemma C5_reload_best_witness :
  fst (@Dntn.run_seed (Fixtures.dntn_table [half; one; two; one; one; one])
         "d" 0 tt 1225 6 None) = Ok half /\
  fst (@TuneClustering.objective (Fixtures.tune_table (half :: replicate 49 one))
         3 one None) = Ok half.
Proof.
  destruct C5_reload_best as (Hrun & Hfinal & Htune & _). split.
  - destruct (Hrun (Fixtures.dntn_table [half; one; two; one; one; one])
                "d"%string 0 tt 1225 6 None) as [-> _].
    vm_compute. reflexivity.
  - erewrite (Htune (Fixtures.tune_table (half :: replicate 49 one)) 3 one None).
    2: { vm_compute. reflexivity. }
    vm_compute. reflexivity.
Defined.

(** C6 - A validation metric that is not-a-number never causes a save.  In
    both loops an epoch whose metric is not-a-number writes no checkpoint and
    leaves the save directory, the running minimum and the best epoch as they
    were.  When a trial of [tune_clustering.py] is pruned, its save directory
    holds the last checkpoint the trial wrote (and what was there before the
    trial if it wrote none); every checkpoint the trial wrote carries a
    metric that is a number, and the last one is that of [best_e] with
    metric [best_val_loss]. *)
Theorem C6_nan_never_saves :
  (forall (B : Dntn.Backend) (DATA_NAME : string) (WORKERS : Z) (data : Dntn.Data)
          (SEED total_epochs e : Z) (s : Dntn.LoopState),
     isnan (Dntn.val_loss_of WORKERS data e s) = true ->
     let s' := fst (Dntn.epoch DATA_NAME WORKERS data SEED total_epochs e s) in
     saves (Dntn.trace s') = saves (Dntn.trace s) /\
     Dntn.save_dir s' = Dntn.save_dir s /\
     Dntn.best_val_loss s' = Dntn.best_val_loss s /\
     Dntn.best_e s' = Dntn.best_e s) /\
  (forall (B : TuneClustering.Backend) (REG : float) (ep : Z)
          (s : TuneClustering.TrialState),
     isnan (TuneClustering.val_loss_of REG ep s) = true ->
     let s' := fst (TuneClustering.epoch REG ep s) in
     saves (TuneClustering.trace s') = saves (TuneClustering.trace s) /\
     TuneClustering.save_dir s' = TuneClustering.save_dir s /\
     TuneClustering.best_val_loss s' = TuneClustering.best_val_loss s /\
     TuneClustering.best_e s' = TuneClustering.best_e s) /\
  (forall (B : TuneClustering.Backend) (TREE_DEPTH : Z) (REG : float)
          (disk : option TuneClustering.Ckpt) (s : TuneClustering.TrialState),
     TuneClustering.objective TREE_DEPTH REG disk = (Raise TrialPruned, s) ->
     TuneClustering.save_dir s =
       from_option Some disk (last (saves (TuneClustering.trace s))) /\
     TuneClustering.saved_numbers s /\
     TuneClustering.best_inv s).
Proof.
  split; [|split].
  - intros B DATA_NAME WORKERS data SEED total_epochs e s Hnan. cbv zeta.
    destruct (dntn_epoch_fields DATA_NAME WORKERS data SEED total_epochs e s)
      as (Hb & He & _ & Hd & _).
    pose proof (dntn_epoch_saves DATA_NAME WORKERS data SEED total_epochs e s) as Hs.
    cbv zeta in *. rewrite (isnan_le_false _ _ Hnan) in *.
    rewrite app_nil_r in Hs. auto.
  - intros B REG ep s Hnan. cbv zeta.
    destruct (tune_epoch_fields REG ep s) as (Hb & He & Hd & _).
    pose proof (tune_epoch_saves REG ep s) as Hs.
    cbv zeta in *. rewrite (isnan_le_false _ _ Hnan) in *.
    rewrite app_nil_r in Hs. auto.
  - intros B TREE_DEPTH REG disk s.
    unfold TuneClustering.objective. rewrite tune_objective_on_cases. cbv zeta.
    set (s0 := TuneClustering.init_state TREE_DEPTH REG disk).
    pose proof (tune_disk_inv_loop TREE_DEPTH REG disk (range TuneClustering.EPOCHS)) as Hdisk.
    pose proof (tune_for_epochs_ind REG TuneClustering.saved_numbers
                  (tune_saved_numbers_epoch REG) (range TuneClustering.EPOCHS) s0
                  (Forall_nil_2 _)) as Hnum.
    pose proof (tune_for_epochs_ind REG TuneClustering.best_inv
                  (tune_best_inv_epoch REG) (range TuneClustering.EPOCHS) s0
                  (conj eq_refl eq_refl)) as Hbest.
    fold s0 in Hdisk.
    destruct (TuneClustering.for_epochs REG (range TuneClustering.EPOCHS) s0)
      as [s1 [ex|]]; cbn [fst snd] in *.
    + intros [= -> ->]. auto.
    + intros H. exfalso.
      apply (f_equal fst) in H. rewrite tune_final_eval_result in H. simpl in H.
      destruct (TuneClustering.save_dir s1); [|discriminate].
      destruct (TuneClustering.e s1); discriminate.
Qed.

Lemma C6_nan_never_saves_witness :
  (let B := Fixtures.dntn_table [nan; one] in
   Dntn.save_dir (fst (Dntn.epoch "d" 0 tt 1225 7 0 (Dntn.init_state tt 1225 None)))
     = None) /\
  (let B := Fixtures.tune_table [one; nan] in
   let s := snd (TuneClustering.objective 3 one None) in
   ckpt_epoch <$> TuneClustering.save_dir s = Some 0 /\
   TuneClustering.best_e s = 0).
Proof.
  destruct C6_nan_never_saves as (Hdntn & Htune & Hpruned). split; cbv zeta.
  - destruct (Hdntn (Fixtures.dntn_table [nan; one]) "d"%string 0 tt 1225 7 0
                (@Dntn.init_state (Fixtures.dntn_table [nan; one]) tt 1225 None) eq_refl)
      as (_ & -> & _).
    reflexivity.
  - destruct (Hpruned (Fixtures.tune_table [one; nan]) 3 one None
                (snd (@TuneClustering.objective (Fixtures.tune_table [one; nan]) 3 one None)))
      as (Hd & _ & Hb).
    + vm_compute. reflexivity.
    + rewrite Hd. vm_compute. split; reflexivity.
Defined.

(** C9 - First-epoch checkpoint.  When at least one epoch is planned (one in
    [dntn.py], fifty in [tune_clustering.py]) and the validation metric of
    the first epoch is a number, then when the loop is left the save
    directory holds a checkpoint, which is the last one this run wrote; in
    [dntn.py] the final evaluation loads it and succeeds, and in
    [tune_clustering.py] the trial does not fail on a missing checkpoint. *)
Theorem C9_first_epoch_checkpoint :
  (forall (B : Dntn.Backend) (DATA_NAME : string) (WORKERS : Z) (data : Dntn.Data)
          (SEED total_epochs : Z) (disk : option Dntn.Ckpt),
     1 <= total_epochs ->
     isnan (Dntn.val_loss_of WORKERS data 0 (Dntn.init_state data SEED disk)) = false ->
     let s := Dntn.train_loop DATA_NAME WORKERS data SEED total_epochs disk in
     exists c,
       Dntn.save_dir s = Some c /\
       last (saves (Dntn.trace s)) = Some c /\
       load_model (Dntn.save_dir s) = Ok (ckpt_model c) /\
       fst (Dntn.run_seed DATA_NAME WORKERS data SEED total_epochs disk) =
         Ok (Dntn.evaluate_test data WORKERS (ckpt_model c))) /\
  (forall (B : TuneClustering.Backend) (TREE_DEPTH : Z) (REG : float)
          (disk : option TuneClustering.Ckpt),
     isnan (TuneClustering.val_loss_of REG 0
              (TuneClustering.init_state TREE_DEPTH REG disk)) = false ->
     let r := fst (TuneClustering.objective TREE_DEPTH REG disk) in
     let s := snd (TuneClustering.objective TREE_DEPTH REG disk) in
     (exists c,
        TuneClustering.save_dir s = Some c /\
        last (saves (TuneClustering.trace s)) = Some c /\
        load_model (TuneClustering.save_dir s) = Ok (ckpt_model c)) /\
     r <> Raise FileNotFoundError).
Proof.
  split.
  - intros B DATA_NAME WORKERS data SEED total_epochs disk Hpos Hnum s.
    destruct (dntn_first_epoch_saved DATA_NAME WORKERS data SEED total_epochs disk
                Hpos Hnum) as (c & Hc & Hl).
    fold s in Hc, Hl. exists c. split; [exact Hc|]. split; [exact Hl|].
    split; [now rewrite Hc|].
    unfold Dntn.run_seed. fold s. now rewrite dntn_final_eval_result, Hc.
  - intros B TREE_DEPTH REG disk Hnum. cbv zeta.
    unfold TuneClustering.objective. rewrite tune_objective_on_cases. cbv zeta.
    set (s0 := TuneClustering.init_state TREE_DEPTH REG disk) in *.
    assert (Hr : range TuneClustering.EPOCHS = 0 :: seqZ 1 (TuneClustering.EPOCHS - 1))
      by (apply range_pos; reflexivity).
    destruct (tune_first_epoch_saved TREE_DEPTH REG (seqZ 1 (TuneClustering.EPOCHS - 1))
                disk Hnum) as (c & Hc & Hl).
    rewrite <- Hr in Hc, Hl. fold s0 in Hc, Hl.
    pose proof (tune_for_epochs_outcome REG (range TuneClustering.EPOCHS) s0
                  (Forall_nil_2 _)) as Hout.
    destruct (TuneClustering.for_epochs REG (range TuneClustering.EPOCHS) s0)
      as [s1 [ex|]]; cbn [fst snd] in *.
    + split; [exists c; now rewrite Hc|]. destruct Hout as [-> _]. discriminate.
    + destruct (tune_final_eval_state s1) as (Hd & _ & Hs). cbv zeta in Hd, Hs.
      rewrite Hd, Hs. split; [exists c; now rewrite Hc|].
      rewrite tune_final_eval_result, Hc.
      destruct (TuneClustering.e s1); discriminate.
Qed.

Lemma C9_first_epoch_checkpoint_witness :
  (let B := Fixtures.dntn_table [one] in
   fst (Dntn.run_seed "d" 0 tt 1225 Dntn.EPOCHS None) = Ok one) /\
  (let B := Fixtures.tune_table [one; nan] in
   fst (TuneClustering.objective 3 one None) <> Raise FileNotFoundError).
Proof.
  destruct C9_first_epoch_checkpoint as (Hdntn & Htune). split; cbv zeta.
  - destruct (Hdntn (Fixtures.dntn_table [one]) "d"%string 0 tt 1225 Dntn.EPOCHS None)
      as (c & Hc & _ & _ & ->).
    + unfold Dntn.EPOCHS. lia.
    + reflexivity.
    + vm_compute in Hc. injection Hc as <-. reflexivity.
  - apply (Htune (Fixtures.tune_table [one; nan]) 3 one None). reflexivity.
Defined.

(** ** State records, command line and monitor *)

(** C7 - State record.  The state record of [dntn.py] has exactly the keys
    batch-size, loss-function, learning-rate, seed and dataset, that of
    [tune_clustering.py] has these and reg and linear; the values are
    integers, floats, strings and booleans, and every checkpoint either loop
    writes carries the record of its script. *)
Theorem C7_state_record :
  (forall (SEED : Z) (DATA_NAME : string),
     dom (Dntn.state SEED DATA_NAME) =
       ({[ "batch-size"; "loss-function"; "learning-rate"; "seed"; "dataset" ]}
          : gset string) /\
     Dntn.state SEED DATA_NAME !! "batch-size"%string = Some (VInt 512) /\
     Dntn.state SEED DATA_NAME !! "loss-function"%string = Some (VStr "BCE") /\
     Dntn.state SEED DATA_NAME !! "learning-rate"%string = Some (VFloat lit_0_001) /\
     Dntn.state SEED DATA_NAME !! "seed"%string = Some (VInt SEED) /\
     Dntn.state SEED DATA_NAME !! "dataset"%string = Some (VStr DATA_NAME)) /\
  (forall (REG : float),
     dom (TuneClustering.state REG) =
       ({[ "batch-size"; "loss-function"; "learning-rate"; "seed"; "dataset";
           "reg"; "linear" ]} : gset string) /\
     TuneClustering.state REG !! "batch-size"%string = Some (VInt 512) /\
     TuneClustering.state REG !! "loss-function"%string = Some (VStr "MSE") /\
     TuneClustering.state REG !! "learning-rate"%string = Some (VFloat lit_0_1) /\
     TuneClustering.state REG !! "seed"%string = Some (VInt 1337) /\
     TuneClustering.state REG !! "dataset"%string = Some (VStr "COVTYPE") /\
     TuneClustering.state REG !! "reg"%string = Some (VFloat REG) /\
     TuneClustering.state REG !! "linear"%string = Some (VBool true)) /\
  (forall (B : Dntn.Backend) (DATA_NAME : string) (WORKERS : Z) (data : Dntn.Data)
          (SEED e : Z) (s : Dntn.LoopState),
     ckpt_state (Dntn.written DATA_NAME WORKERS data SEED e s) =
       Dntn.state SEED DATA_NAME) /\
  (forall (B : TuneClustering.Backend) (REG : float) (ep : Z)
          (s : TuneClustering.TrialState),
     ckpt_state (TuneClustering.written REG ep s) = TuneClustering.state REG).
Proof.
  split; [|split; [|split]]; try reflexivity.
  - intros SEED DATA_NAME. unfold Dntn.state, dict. cbn [fold_left].
    split.
    + rewrite !dom_insert_L, dom_empty_L. set_solver.
    + repeat split; by simplify_map_eq.
  - intros REG. unfold TuneClustering.state, dict. cbn [fold_left].
    split.
    + rewrite !dom_insert_L, dom_empty_L. set_solver.
    + repeat split; by simplify_map_eq.
Qed.

(** C8 - Command line of [dntn.py].  With fewer than two arguments after the
    script name the script fails with [IndexError]; with two or more, the
    first is the dataset name as given and the second goes through [int]: if
    [int] rejects it the script fails with [ValueError], and otherwise the
    worker count is its value, which the script itself does not check: the
    run goes on with loading the dataset, the shapes and the three loaders,
    and then the seed loop.  A negative worker count is refused only there,
    by the first [DataLoader], with [ValueError].  Arguments beyond the
    second are not read.  In all these failures nothing was trained or
    written. *)
Theorem C8_cli_surface :
  forall (B : Dntn.Backend) (int : string -> option Z) (argv : list string)
         (w : Dntn.World),
    ((length argv < 3)%nat ->
     Dntn.parse_args int argv = Raise IndexError /\
     Dntn.main int argv w = (Raise IndexError, w)) /\
    (forall (a0 a1 a2 : string) (rest : list string),
       argv = a0 :: a1 :: a2 :: rest ->
       (int a2 = None ->
        Dntn.parse_args int argv = Raise ValueError /\
        Dntn.main int argv w = (Raise ValueError, w)) /\
       (forall n : Z, int a2 = Some n ->
        Dntn.parse_args int argv = Ok (a1, n) /\
        Dntn.main int argv w =
          match Dntn.Dataset a1 with
          | Raise ex => (Raise ex, w)
          | Ok data =>
              match Dntn.setup data n with
              | Raise ex => (Raise ex, w)
              | Ok _ => Dntn.seed_loop a1 n data Dntn.SEEDS [] w
              end
          end /\
        (n < 0 ->
         Dntn.main int argv w =
           match Dntn.Dataset a1 with
           | Raise ex => (Raise ex, w)
           | Ok data =>
               match Dntn.shapes data with
               | Raise ex => (Raise ex, w)
               | Ok _ =>
                   match Dntn.TorchDataset data Dntn.Train with
                   | Raise ex => (Raise ex, w)
                   | Ok _ => (Raise ValueError, w)
                   end
               end
           end))).
Proof.
  intros B int argv w. split.
  - intros Hlen. unfold Dntn.main, Dntn.parse_args, Dntn.argv_get.
    destruct argv as [|a0 [|a1 [|a2 rest]]]; simpl in *; try (split; reflexivity).
    lia.
  - intros a0 a1 a2 rest ->. unfold Dntn.main, Dntn.parse_args, Dntn.argv_get.
    cbn [lookup list_lookup].
    split.
    + intros ->. split; reflexivity.
    + intros n ->. split; [reflexivity|]. split; [reflexivity|].
      intros Hneg. destruct (Dntn.Dataset a1) as [data|ex]; [|reflexivity].
      unfold Dntn.setup, Dntn.loader.
      destruct (Dntn.shapes data) as [sh|ex]; [|reflexivity].
      destruct (Dntn.TorchDataset data Dntn.Train) as [ds|ex]; [|reflexivity].
      destruct (Z.ltb_spec n 0); [reflexivity|lia].
Qed.

Lemma C8_cli_surface_witness :
  (let B := Fixtures.dntn_table [one] in
   let w := {| Dntn.results := ∅; Dntn.calls := [] |} in
   Dntn.main Fixtures.decimal_int ["dntn.py"; "MNIST"]%string w = (Raise IndexError, w) /\
   Dntn.main Fixtures.decimal_int ["dntn.py"; "MNIST"; "four"]%string w = (Raise ValueError, w) /\
   Dntn.parse_args Fixtures.decimal_int ["dntn.py"; "MNIST"; "4"]%string
     = Ok ("MNIST"%string, 4) /\
   Dntn.main Fixtures.decimal_int ["dntn.py"; "MNIST"; "-1"]%string w = (Raise ValueError, w)).
Proof.
  cbv zeta.
  set (B := Fixtures.dntn_table [one]).
  set (w := {| Dntn.results := ∅; Dntn.calls := [] |}).
  split; [|split; [|split]].
  - apply (C8_cli_surface B Fixtures.decimal_int ["dntn.py"; "MNIST"]%string w).
    simpl. lia.
  - destruct (C8_cli_surface B Fixtures.decimal_int ["dntn.py"; "MNIST"; "four"]%string w)
      as [_ H].
    destruct (H "dntn.py"%string "MNIST"%string "four"%string [] eq_refl) as [Hnone _].
    now apply Hnone.
  - destruct (C8_cli_surface B Fixtures.decimal_int ["dntn.py"; "MNIST"; "4"]%string w)
      as [_ H].
    destruct (H "dntn.py"%string "MNIST"%string "4"%string [] eq_refl) as [_ Hn].
    now apply (Hn 4).
  - destruct (C8_cli_surface B Fixtures.decimal_int ["dntn.py"; "MNIST"; "-1"]%string w)
      as [_ H].
    destruct (H "dntn.py"%string "MNIST"%string "-1"%string [] eq_refl) as [_ Hn].
    destruct (Hn (-1) eq_refl) as (_ & _ & Hneg).
    rewrite Hneg by lia. reflexivity.
Defined.

Section MonitorWrite.
Context {Dir Model : Type}.

Lemma fold_add_scalars (it : Z) (metrics : list (string * list (string * float)))
    (w : Monitors.SummaryWriter Dir) :
  let w' := fold_left (fun w '(key, item) => Monitors.add_scalars w key item it) metrics w in
  Monitors.scalar_dict w' = Monitors.scalar_dict w ++ map (Monitors.group_at it) metrics /\
  Monitors.json_files w' = Monitors.json_files w /\
  Monitors.closed w' = Monitors.closed w /\
  Monitors.logdir w' = Monitors.logdir w.
Proof.
  revert w. induction metrics as [|[key item] metrics IH]; intros w; simpl.
  - now rewrite app_nil_r.
  - destruct (IH (Monitors.add_scalars w key item it)) as (Hs & Hj & Hc & Hl).
    cbv zeta in *. rewrite Hs, Hj, Hc, Hl. simpl.
    now rewrite <- app_assoc.
Qed.

End MonitorWrite.

(** C10 - [MonitorTree.write].  A call adds to the scalars of the writer
    first the two tree-statistics groups (eta norms, then d norm) when both
    [report_tree] and the pruning flag of the monitor are true, and none of
    them otherwise, and then one group per keyword metric, in order, whatever
    the two flags are.  The pruning flag is the one given at construction and
    [write] does not change it. *)
Theorem C10_write_conditionality :
  forall (Dir Model : Type) (norms : Monitors.TreeNorms Model)
         (self : Monitors.MonitorTree Dir) (model : Model) (it : Z)
         (report_tree : bool) (metrics : list (string * list (string * float))),
    let self' := Monitors.write norms self model it report_tree metrics in
    Monitors.scalar_dict (Monitors.writer self') =
      Monitors.scalar_dict (Monitors.writer self) ++
      (if report_tree && Monitors.pruning self
       then [Monitors.group_at it ("variables/eta_group"%string, Monitors.eta_group norms model);
             Monitors.group_at it ("variables/d_group"%string, Monitors.d_group norms model)]
       else []) ++
      map (Monitors.group_at it) metrics /\
    Monitors.pruning self' = Monitors.pruning self /\
    forall (p : bool) (logdir : option Dir),
      Monitors.pruning (Monitors.init p logdir) = p.
Proof.
  intros Dir Model norms self model it report_tree metrics. cbv zeta.
  split; [|split; reflexivity].
  unfold Monitors.write. cbn [Monitors.writer].
  match goal with
  | |- context [fold_left ?f metrics ?w0] =>
      destruct (fold_add_scalars it metrics w0) as (Hs & _)
  end.
  cbv zeta in Hs. rewrite Hs.
  destruct (report_tree && Monitors.pruning self); simpl.
  - rewrite <- !app_assoc. reflexivity.
  - reflexivity.
Qed.

(** ** Further properties of the scripts *)

(** *** The order behind [<=] *)

Lemma le_key (x y : float) :
  isnan x = false -> isnan y = false ->
  (le x y = true <-> key_le (float_key x) (float_key y)).
Proof.
  unfold le, SFleb, SFcompare, key_le.
  destruct x as [sx|sx| |sx mx ex], y as [sy|sy| |sy my ey];
    try discriminate; intros _ _;
    try destruct sx; try destruct sy; simpl;
    try (split; [intros _; lia | reflexivity]);
    try (split; [discriminate | lia]).
  - destruct (Z.compare_spec ex ey); simpl.
    + change (Pos.compare_cont Eq mx my) with (Pos.compare mx my).
      destruct (Pos.compare_spec mx my); simpl; split; try discriminate; try lia; auto.
    + split; [discriminate|lia].
    + split; [intros _; lia|reflexivity].
  - destruct (Z.compare_spec ex ey); simpl.
    + change (Pos.compare_cont Eq mx my) with (Pos.compare mx my).
      destruct (Pos.compare_spec mx my); simpl; split; try discriminate; try lia; auto.
    + split; [intros _; lia|reflexivity].
    + split; [discriminate|lia].
Qed.

Lemma le_refl (x : float) : isnan x = false -> le x x = true.
Proof.
  intros H. apply (le_key x x H H). unfold key_le.
  destruct (float_key x) as [[a b] c]. lia.
Qed.

Lemma le_trans (x y z : float) : le x y = true -> le y z = true -> le x z = true.
Proof.
  intros Hxy Hyz.
  destruct (le_true_not_nan _ _ Hxy) as [Hx Hy].
  destruct (le_true_not_nan _ _ Hyz) as [_ Hz].
  apply (le_key x y Hx Hy) in Hxy. apply (le_key y z Hy Hz) in Hyz.
  apply (le_key x z Hx Hz). unfold key_le in *.
  destruct (float_key x) as [[a1 a2] a3], (float_key y) as [[b1 b2] b3],
           (float_key z) as [[c1 c2] c3].
  lia.
Qed.

Lemma le_total (x y : float) :
  isnan x = false -> isnan y = false -> le x y = false -> le y x = true.
Proof.
  intros Hx Hy Hxy. apply (le_key y x Hy Hx).
  assert (Hn : ~ key_le (float_key x) (float_key y)).
  { intros H. apply (le_key x y Hx Hy) in H. congruence. }
  unfold key_le in *.
  destruct (float_key x) as [[a1 a2] a3], (float_key y) as [[b1 b2] b3].
  lia.
Qed.

(** *** The epoch loop of [dntn.py] as a whole *)

Section DntnRun.
Context {B : Dntn.Backend}.
Variables (DATA_NAME : string) (WORKERS : Z) (data : Dntn.Data) (SEED : Z).

Local Abbreviation epoch := (Dntn.epoch DATA_NAME WORKERS data SEED).
Local Abbreviation for_epochs := (Dntn.for_epochs DATA_NAME WORKERS data SEED).
Local Abbreviation train_loop := (Dntn.train_loop DATA_NAME WORKERS data SEED).
Local Abbreviation val_loss_of := (Dntn.val_loss_of WORKERS data).

Lemma dntn_epoch_val_losses (total_epochs e : Z) (s : Dntn.LoopState) :
  val_losses (Dntn.trace (fst (epoch total_epochs e s))) =
    val_losses (Dntn.trace s) ++ [val_loss_of e s].
Proof.
  destruct (dntn_epoch_fields DATA_NAME WORKERS data SEED total_epochs e s)
    as (_ & _ & _ & _ & Ht & _).
  rewrite Ht, !val_losses_app. now destruct (le _ _).
Qed.

Lemma dntn_epoch_trace_prefix (total_epochs e : Z) (s : Dntn.LoopState) :
  Dntn.trace s `prefix_of` Dntn.trace (fst (epoch total_epochs e s)).
Proof.
  destruct (dntn_epoch_fields DATA_NAME WORKERS data SEED total_epochs e s)
    as (_ & _ & _ & _ & Ht & _).
  rewrite Ht. now apply prefix_app_r.
Qed.

Lemma seqZ_of_nat_S (k : Z) (n : nat) :
  seqZ k (Z.of_nat (S n)) = k :: seqZ (k + 1) (Z.of_nat n).
Proof.
  rewrite seqZ_cons by lia. f_equal. f_equal; lia.
Qed.

(** The loop over [range]: the epoch index is the number of epochs run so
    far, an epoch is run on the state before the loop or on a state whose
    counter is off the threshold, and the loop is left either after the last
    planned epoch or by a [break], with the counter at the threshold. *)
Lemma dntn_range_loop (P R : Dntn.LoopState -> Prop) (total_epochs : Z) :
  (forall e s, P s -> Z.of_nat (epochs_run (Dntn.trace s)) = e ->
               R (fst (epoch total_epochs e s))) ->
  (forall s, R s -> Dntn.no_improv s <> total_epochs / 5 -> P s) ->
  forall (n : nat) (s : Dntn.LoopState),
    P s ->
    let s' := for_epochs total_epochs
                (seqZ (Z.of_nat (epochs_run (Dntn.trace s))) (Z.of_nat n)) s in
    (s' = s \/ R s') /\
    ((epochs_run (Dntn.trace s') = epochs_run (Dntn.trace s) + n)%nat \/
     Dntn.no_improv s' = total_epochs / 5 /\
     (epochs_run (Dntn.trace s) < epochs_run (Dntn.trace s') <= epochs_run (Dntn.trace s) + n)%nat).
Proof.
  intros Hstep Hcont n. induction n as [|n IH]; intros s Hs.
  - simpl. split; [now left|]. left. lia.
  - cbv zeta. rewrite seqZ_of_nat_S, dntn_for_epochs_cons.
    set (e := Z.of_nat (epochs_run (Dntn.trace s))).
    pose proof (Hstep e s Hs eq_refl) as Hs1.
    pose proof (dntn_epoch_epochs_run DATA_NAME WORKERS data SEED total_epochs e s) as Hrun.
    destruct (dntn_epoch_fields DATA_NAME WORKERS data SEED total_epochs e s)
      as (_ & _ & _ & _ & _ & _ & Hbrk).
    cbv zeta in Hbrk. rewrite Hbrk.
    destruct (Z.eqb_spec (Dntn.no_improv (fst (epoch total_epochs e s))) (total_epochs / 5))
      as [Heq|Hne].
    + split; [now right|]. right. split; [exact Heq|]. lia.
    + specialize (IH _ (Hcont _ Hs1 Hne)). cbv zeta in IH. rewrite Hrun in IH.
      replace (Z.of_nat (S (epochs_run (Dntn.trace s)))) with (e + 1) in IH by lia.
      destruct IH as [HP Hcount]. split.
      * right. destruct HP as [->|HR]; [exact Hs1|exact HR].
      * destruct Hcount as [Hall|[Heq Hb]]; [left|right; split]; lia.
Qed.

Lemma dntn_range_eq (total_epochs : Z) :
  range total_epochs = seqZ 0 (Z.of_nat (Z.to_nat total_epochs)).
Proof. unfold range, seqZ. now rewrite Nat2Z.id. Qed.

Lemma dntn_train_loop_inv (P : Dntn.LoopState -> Prop) (total_epochs : Z)
    (disk : option Dntn.Ckpt) :
  P (Dntn.init_state data SEED disk) ->
  (forall e s, P s -> Z.of_nat (epochs_run (Dntn.trace s)) = e ->
               P (fst (epoch total_epochs e s))) ->
  let s := train_loop total_epochs disk in
  P s /\
  (epochs_run (Dntn.trace s) = Z.to_nat total_epochs \/
   Dntn.no_improv s = total_epochs / 5 /\
   (0 < epochs_run (Dntn.trace s) <= Z.to_nat total_epochs)%nat).
Proof.
  intros Hinit Hstep.
  pose proof (dntn_range_loop P P total_epochs Hstep (fun s H _ => H)
                (Z.to_nat total_epochs) (Dntn.init_state data SEED disk) Hinit) as H.
  cbv zeta in H.
  change (epochs_run (Dntn.trace (Dntn.init_state data SEED disk))) with 0%nat in H.
  change (Z.of_nat 0) with 0 in H. rewrite !Nat.add_0_l in H.
  unfold Dntn.train_loop. rewrite dntn_range_eq.
  destruct H as [[Heq|HP] Hc]; (split; [|exact Hc]).
  - rewrite Heq. exact Hinit.
  - exact HP.
Qed.

End DntnRun.

(** X1 - In [dntn.py], when the epoch loop is left the no-improvement counter
    is the number of epochs run since the best epoch: the number of epochs
    run is [best_e + 1 + no_improv], with [best_e] at least -1 (its initial
    value, no epoch was best) and below the number of epochs run. *)
Theorem X1_counter_counts_since_best :
  forall (B : Dntn.Backend) (DATA_NAME : string) (WORKERS : Z) (data : Dntn.Data)
         (SEED total_epochs : Z) (disk : option Dntn.Ckpt),
    let s := Dntn.train_loop DATA_NAME WORKERS data SEED total_epochs disk in
    Z.of_nat (epochs_run (Dntn.trace s)) = Dntn.best_e s + 1 + Dntn.no_improv s /\
    -1 <= Dntn.best_e s < Z.of_nat (epochs_run (Dntn.trace s)) /\
    0 <= Dntn.no_improv s.
Proof.
  intros B DATA_NAME WORKERS data SEED total_epochs disk.
  pose proof (dntn_train_loop_inv DATA_NAME WORKERS data SEED
    (fun s => Z.of_nat (epochs_run (Dntn.trace s)) = Dntn.best_e s + 1 + Dntn.no_improv s /\
              -1 <= Dntn.best_e s /\ 0 <= Dntn.no_improv s) total_epochs disk) as H.
  cbv zeta in *. destruct H as [(H1 & H2 & H3) _].
  - cbn. lia.
  - intros e s (H1 & H2 & H3) He.
    destruct (dntn_epoch_fields DATA_NAME WORKERS data SEED total_epochs e s)
      as (_ & Hb & Hn & _).
    cbv zeta in Hb, Hn. rewrite Hb, Hn, dntn_epoch_epochs_run.
    destruct (le _ _); lia.
  - lia.
Qed.

(** X2 - In [dntn.py] the epoch loop never runs more epochs than planned and
    runs at least one when one is planned; when it stops before the planned
    number of epochs, the counter is at the threshold [total_epochs // 5];
    and when at least five epochs are planned the counter never exceeds that
    threshold. *)
Theorem X2_loop_exit :
  forall (B : Dntn.Backend) (DATA_NAME : string) (WORKERS : Z) (data : Dntn.Data)
         (SEED total_epochs : Z) (disk : option Dntn.Ckpt),
    let s := Dntn.train_loop DATA_NAME WORKERS data SEED total_epochs disk in
    (epochs_run (Dntn.trace s) <= Z.to_nat total_epochs)%nat /\
    (1 <= total_epochs -> (1 <= epochs_run (Dntn.trace s))%nat) /\
    ((epochs_run (Dntn.trace s) < Z.to_nat total_epochs)%nat ->
     Dntn.no_improv s = total_epochs / 5) /\
    (5 <= total_epochs -> 0 <= Dntn.no_improv s <= total_epochs / 5).
Proof.
  intros B DATA_NAME WORKERS data SEED total_epochs disk s.
  destruct (dntn_train_loop_inv DATA_NAME WORKERS data SEED (fun _ => True)
              total_epochs disk I (fun _ _ _ _ => I)) as [_ Hexit].
  fold s in Hexit.
  split; [|split; [|split]].
  - destruct Hexit as [->|[_ ?]]; lia.
  - intros Hpos. destruct Hexit as [->|[_ ?]]; lia.
  - intros Hlt. destruct Hexit as [Heq|[? _]]; [lia|assumption].
  - intros Hfive.
    assert (HT : 1 <= total_epochs / 5) by (apply Z.div_le_lower_bound; lia).
    pose proof (dntn_range_loop DATA_NAME WORKERS data SEED
      (fun s => 0 <= Dntn.no_improv s < total_epochs / 5)
      (fun s => 0 <= Dntn.no_improv s <= total_epochs / 5) total_epochs) as H.
    specialize (H ltac:(
      intros e s0 Hs0 _;
      destruct (dntn_epoch_fields DATA_NAME WORKERS data SEED total_epochs e s0)
        as (_ & _ & Hn & _);
      cbv zeta in Hn; cbv beta in *; rewrite Hn; destruct (le _ _); lia)).
    specialize (H ltac:(intros s0 Hs0 Hne; cbv beta in *; lia)).
    specialize (H (Z.to_nat total_epochs) (Dntn.init_state data SEED disk)).
    cbv zeta in H.
    change (epochs_run (Dntn.trace (Dntn.init_state data SEED disk))) with 0%nat in H.
    change (Z.of_nat 0) with 0 in H. rewrite <- dntn_range_eq in H.
    destruct H as [[Heq|HR] _].
    + simpl. lia.
    + unfold s, Dntn.train_loop. rewrite Heq. simpl. lia.
    + exact HR.
Qed.

Lemma X2_loop_exit_witness :
  let B := Fixtures.dntn_table [half; one; two; one; one; one; one; one; one; one] in
  let s := Dntn.train_loop "d" 0 tt 1225 10 None in
  (1 <= epochs_run (Dntn.trace s))%nat /\ Dntn.no_improv s = 2 /\
  0 <= Dntn.no_improv s <= 2.
Proof.
  cbv zeta.
  destruct (X2_loop_exit
              (Fixtures.dntn_table [half; one; two; one; one; one; one; one; one; one])
              "d"%string 0 tt 1225 10 None) as (_ & H1 & H2 & H3).
  split; [apply H1; lia|]. split; [apply H2; vm_compute; lia|]. apply H3; lia.
Defined.

(** *** The running minimum *)

Lemma min_so_far_step (best v : float) (seen : list float) :
  min_so_far best seen ->
  min_so_far (if le v best then v else best) (seen ++ [v]).
Proof.
  intros (Hb & Hall & Hin). unfold min_so_far.
  destruct (le v best) eqn:Hle.
  - destruct (le_true_not_nan _ _ Hle) as [Hv _].
    split; [exact Hv|]. split.
    + apply Forall_app. split.
      * eapply Forall_impl; [exact Hall|]. intros u Hu. cbv beta in *.
        destruct (isnan u); [reflexivity|]. simpl in *.
        now apply le_trans with best.
      * repeat constructor. rewrite Hv. simpl. now apply le_refl.
    + right. apply elem_of_app. right. constructor.
  - split; [exact Hb|]. split.
    + apply Forall_app. split; [exact Hall|].
      repeat constructor. destruct (isnan v) eqn:Hv; [reflexivity|]. simpl.
      now apply le_total.
    + destruct Hin as [Hi|Hi]; [now left|right]. apply elem_of_app. now left.
Qed.

Section TuneFinalState.
Context {B : TuneClustering.Backend}.

Lemma tune_final_eval_best (s : TuneClustering.TrialState) :
  let s' := snd (TuneClustering.final_eval s) in
  TuneClustering.best_val_loss s' = TuneClustering.best_val_loss s /\
  TuneClustering.best_e s' = TuneClustering.best_e s /\
  TuneClustering.trace s `prefix_of` TuneClustering.trace s' /\
  epochs_run (TuneClustering.trace s') = epochs_run (TuneClustering.trace s).
Proof.
  unfold TuneClustering.final_eval.
  destruct (TuneClustering.save_dir s) as [c|] eqn:Hd; simpl; [|auto].
  destruct (TuneClustering.e s); simpl; rewrite <- ?app_assoc.
  - split; [reflexivity|]. split; [reflexivity|]. split; [now apply prefix_app_r|].
    rewrite epochs_run_app. cbn. lia.
  - split; [reflexivity|]. split; [reflexivity|]. split; [now apply prefix_app_r|].
    rewrite epochs_run_app. cbn. lia.
Qed.

(** The state [objective] ends in is the state the loop ends in, or that
    state after the final evaluation. *)
Lemma tune_objective_state (TREE_DEPTH : Z) (REG : float)
    (disk : option TuneClustering.Ckpt) :
  let loop := TuneClustering.for_epochs REG (range TuneClustering.EPOCHS)
                (TuneClustering.init_state TREE_DEPTH REG disk) in
  snd (TuneClustering.objective TREE_DEPTH REG disk) = fst loop \/
  snd loop = None /\
  snd (TuneClustering.objective TREE_DEPTH REG disk) =
    snd (TuneClustering.final_eval (fst loop)).
Proof.
  unfold TuneClustering.objective. rewrite tune_objective_on_cases. cbv zeta.
  destruct (snd (TuneClustering.for_epochs REG (range TuneClustering.EPOCHS)
                   (TuneClustering.init_state TREE_DEPTH REG disk)));
    [now left|now right].
Qed.

End TuneFinalState.

(** X3 - In both scripts [best_val_loss] is the running minimum of the
    validation metrics seen: when the loop of [dntn.py] is left, and when
    [objective] ends (by a score, by [TrialPruned] or otherwise), it is not
    not-a-number, it is less than or equal to every metric seen that is a
    number, and it is one of the metrics seen unless it still is plus
    infinity. *)
Theorem X3_running_minimum :
  (forall (B : Dntn.Backend) (DATA_NAME : string) (WORKERS : Z) (data : Dntn.Data)
          (SEED total_epochs : Z) (disk : option Dntn.Ckpt),
     let s := Dntn.train_loop DATA_NAME WORKERS data SEED total_epochs disk in
     min_so_far (Dntn.best_val_loss s) (val_losses (Dntn.trace s))) /\
  (forall (B : TuneClustering.Backend) (TREE_DEPTH : Z) (REG : float)
          (disk : option TuneClustering.Ckpt),
     let s := snd (TuneClustering.objective TREE_DEPTH REG disk) in
     min_so_far (TuneClustering.best_val_loss s) (val_losses (TuneClustering.trace s))).
Proof.
  assert (Hinit : min_so_far inf []).
  { split; [reflexivity|]. split; [constructor|now left]. }
  split.
  - intros B DATA_NAME WORKERS data SEED total_epochs disk s.
    unfold s, Dntn.train_loop.
    apply (dntn_for_epochs_ind DATA_NAME WORKERS data SEED
             (fun s => min_so_far (Dntn.best_val_loss s) (val_losses (Dntn.trace s)))).
    + intros e s0 Hs0.
      destruct (dntn_epoch_fields DATA_NAME WORKERS data SEED total_epochs e s0)
        as (Hb & _).
      cbv zeta in Hb. rewrite Hb, dntn_epoch_val_losses.
      now apply min_so_far_step.
    + exact Hinit.
  - intros B TREE_DEPTH REG disk s.
    assert (Hloop : forall es,
      let s1 := fst (TuneClustering.for_epochs REG es
                       (TuneClustering.init_state TREE_DEPTH REG disk)) in
      min_so_far (TuneClustering.best_val_loss s1) (val_losses (TuneClustering.trace s1))).
    { intros es.
      apply (tune_for_epochs_ind REG
               (fun s => min_so_far (TuneClustering.best_val_loss s)
                                    (val_losses (TuneClustering.trace s)))).
      - intros ep s0 Hs0.
        destruct (tune_epoch_fields REG ep s0) as (Hb & _).
        cbv zeta in Hb. rewrite Hb, tune_epoch_val_losses.
        now apply min_so_far_step.
      - exact Hinit. }
    specialize (Hloop (range TuneClustering.EPOCHS)). cbv zeta in Hloop.
    destruct (tune_objective_state TREE_DEPTH REG disk) as [Hs|[_ Hs]];
      unfold s; rewrite Hs; [exact Hloop|].
    destruct (tune_final_eval_best
                (fst (TuneClustering.for_epochs REG (range TuneClustering.EPOCHS)
                        (TuneClustering.init_state TREE_DEPTH REG disk))))
      as (Hb & _).
    destruct (tune_final_eval_state
                (fst (TuneClustering.for_epochs REG (range TuneClustering.EPOCHS)
                        (TuneClustering.init_state TREE_DEPTH REG disk))))
      as (_ & Hv & _).
    cbv zeta in Hb, Hv. rewrite Hb, Hv. exact Hloop.
Qed.

(** *** The best epoch and the checkpoint *)

Section DntnBest.
Context {B : Dntn.Backend}.
Variables (DATA_NAME : string) (WORKERS : Z) (data : Dntn.Data) (SEED : Z).

Lemma dntn_best_record_epoch (total_epochs e : Z) (s : Dntn.LoopState) :
  Dntn.best_record s ->
  Dntn.best_record (fst (Dntn.epoch DATA_NAME WORKERS data SEED total_epochs e s)).
Proof.
  unfold Dntn.best_record. intros H.
  destruct (dntn_epoch_fields DATA_NAME WORKERS data SEED total_epochs e s)
    as (Hb & He & _ & _ & Ht & _).
  cbv zeta in Hb, He, Ht. rewrite Hb, He, dntn_epoch_saves.
  destruct (le _ _).
  - rewrite last_snoc. split; [reflexivity|]. split; [reflexivity|].
    rewrite Ht. apply elem_of_app. right. right. left.
  - rewrite app_nil_r. destruct (last (saves (Dntn.trace s))) as [c|]; [|exact H].
    destruct H as (H1 & H2 & H3). split; [exact H1|]. split; [exact H2|].
    rewrite Ht. apply elem_of_app. now left.
Qed.

Lemma dntn_best_record_loop (total_epochs : Z) (disk : option Dntn.Ckpt) :
  Dntn.best_record (Dntn.train_loop DATA_NAME WORKERS data SEED total_epochs disk).
Proof.
  unfold Dntn.train_loop. apply dntn_for_epochs_ind.
  - intros e s. apply dntn_best_record_epoch.
  - split; reflexivity.
Qed.

End DntnBest.

Section TuneBest.
Context {B : TuneClustering.Backend}.

Lemma tune_best_seen_epoch (REG : float) (ep : Z) (s : TuneClustering.TrialState) :
  TuneClustering.best_seen s -> TuneClustering.best_seen (fst (TuneClustering.epoch REG ep s)).
Proof.
  unfold TuneClustering.best_seen. intros H.
  destruct (tune_epoch_fields REG ep s) as (Hb & He & _ & Ht & _).
  cbv zeta in Hb, He, Ht. rewrite Hb, He, tune_epoch_saves.
  destruct (le _ _).
  - rewrite last_snoc, Ht. apply elem_of_app. right. right. left.
  - rewrite app_nil_r. destruct (last (saves (TuneClustering.trace s))); [|exact I].
    rewrite Ht. apply elem_of_app. now left.
Qed.

End TuneBest.

(** X4 - In both scripts, when the loop of [dntn.py] is left and when
    [objective] ends, either this run wrote checkpoints, and then the save
    directory holds the last one written, which records [best_e] as its epoch
    and [best_val_loss] as its metric, the value the evaluation of that epoch
    returned; or it wrote none, and then the save directory is as the run
    found it, [best_e] is -1 and [best_val_loss] is plus infinity. *)
Theorem X4_best_epoch_is_checkpoint :
  (forall (B : Dntn.Backend) (DATA_NAME : string) (WORKERS : Z) (data : Dntn.Data)
          (SEED total_epochs : Z) (disk : option Dntn.Ckpt),
     let s := Dntn.train_loop DATA_NAME WORKERS data SEED total_epochs disk in
     match last (saves (Dntn.trace s)) with
     | Some c =>
         Dntn.save_dir s = Some c /\
         ckpt_epoch c = Dntn.best_e s /\
         ckpt_metrics c = [("valid_ER"%string, Dntn.best_val_loss s)] /\
         EvEvaluate (Dntn.best_e s) (Dntn.best_val_loss s) ∈ Dntn.trace s
     | None =>
         Dntn.save_dir s = disk /\ Dntn.best_e s = -1 /\ Dntn.best_val_loss s = inf
     end) /\
  (forall (B : TuneClustering.Backend) (TREE_DEPTH : Z) (REG : float)
          (disk : option TuneClustering.Ckpt),
     let s := snd (TuneClustering.objective TREE_DEPTH REG disk) in
     match last (saves (TuneClustering.trace s)) with
     | Some c =>
         TuneClustering.save_dir s = Some c /\
         ckpt_epoch c = TuneClustering.best_e s /\
         ckpt_metrics c = [("val_mse"%string, TuneClustering.best_val_loss s)] /\
         EvEvaluate (TuneClustering.best_e s) (TuneClustering.best_val_loss s)
           ∈ TuneClustering.trace s
     | None =>
         TuneClustering.save_dir s = disk /\ TuneClustering.best_e s = -1 /\
         TuneClustering.best_val_loss s = inf
     end).
Proof.
  split.
  - intros B DATA_NAME WORKERS data SEED total_epochs disk s.
    pose proof (dntn_disk_inv_loop DATA_NAME WORKERS data SEED disk total_epochs) as Hd.
    pose proof (dntn_best_record_loop DATA_NAME WORKERS data SEED total_epochs disk) as Hb.
    unfold Dntn.disk_inv, Dntn.best_record in *. fold s in Hd, Hb.
    destruct (last (saves (Dntn.trace s))) as [c|]; simpl in Hd.
    + destruct Hb as (H1 & H2 & H3). auto.
    + destruct Hb as (H1 & H2). auto.
  - intros B TREE_DEPTH REG disk s.
    set (s0 := TuneClustering.init_state TREE_DEPTH REG disk).
    set (s1 := fst (TuneClustering.for_epochs REG (range TuneClustering.EPOCHS) s0)).
    pose proof (tune_disk_inv_loop TREE_DEPTH REG disk (range TuneClustering.EPOCHS)) as Hd.
    pose proof (tune_for_epochs_ind REG TuneClustering.best_inv
                  (tune_best_inv_epoch REG) (range TuneClustering.EPOCHS) s0
                  (conj eq_refl eq_refl)) as Hb.
    pose proof (tune_for_epochs_ind REG TuneClustering.best_seen
                  (tune_best_seen_epoch REG) (range TuneClustering.EPOCHS) s0 I) as Hs.
    fold s0 s1 in Hd, Hb, Hs.
    assert (Hgoal :
      forall s', TuneClustering.save_dir s' = TuneClustering.save_dir s1 ->
                 saves (TuneClustering.trace s') = saves (TuneClustering.trace s1) ->
                 TuneClustering.best_val_loss s' = TuneClustering.best_val_loss s1 ->
                 TuneClustering.best_e s' = TuneClustering.best_e s1 ->
                 TuneClustering.trace s1 `prefix_of` TuneClustering.trace s' ->
      match last (saves (TuneClustering.trace s')) with
      | Some c =>
          TuneClustering.save_dir s' = Some c /\
          ckpt_epoch c = TuneClustering.best_e s' /\
          ckpt_metrics c = [("val_mse"%string, TuneClustering.best_val_loss s')] /\
          EvEvaluate (TuneClustering.best_e s') (TuneClustering.best_val_loss s')
            ∈ TuneClustering.trace s'
      | None =>
          TuneClustering.save_dir s' = disk /\ TuneClustering.best_e s' = -1 /\
          TuneClustering.best_val_loss s' = inf
      end).
    { intros s' E1 E2 E3 E4 [k Hk].
      unfold TuneClustering.disk_inv, TuneClustering.best_inv, TuneClustering.best_seen in *.
      rewrite E1, E2, E3, E4.
      destruct (last (saves (TuneClustering.trace s1))) as [c|]; simpl in Hd.
      - destruct Hb as (H1 & H2). repeat split; auto.
        rewrite Hk. apply elem_of_app. now left.
      - destruct Hb as (H1 & H2). auto. }
    destruct (tune_objective_state TREE_DEPTH REG disk) as [Hst|[_ Hst]];
      fold s0 s1 in Hst; unfold s; rewrite Hst.
    + now apply Hgoal.
    + destruct (tune_final_eval_state s1) as (Hfd & _ & Hfs).
      destruct (tune_final_eval_best s1) as (Hfb & Hfe & Hfp & _).
      now apply Hgoal.
Qed.

(** *** Runs that write no checkpoint *)

(** X5 - In [dntn.py] the epoch loop writes no checkpoint exactly when every
    validation metric it saw is not-a-number.  Then the save directory is as
    the run found it, and the final evaluation is that of the model of the
    checkpoint a previous run left there; the seed fails on a missing
    checkpoint exactly when, moreover, there was none. *)
Theorem X5_no_checkpoint_run :
  forall (B : Dntn.Backend) (DATA_NAME : string) (WORKERS : Z) (data : Dntn.Data)
         (SEED total_epochs : Z) (disk : option Dntn.Ckpt),
    let s := Dntn.train_loop DATA_NAME WORKERS data SEED total_epochs disk in
    let r := fst (Dntn.run_seed DATA_NAME WORKERS data SEED total_epochs disk) in
    (saves (Dntn.trace s) = [] <->
     Forall (fun v => isnan v = true) (val_losses (Dntn.trace s))) /\
    (saves (Dntn.trace s) = [] ->
     Dntn.save_dir s = disk /\
     r = match disk with
         | Some c0 => Ok (Dntn.evaluate_test data WORKERS (ckpt_model c0))
         | None => Raise FileNotFoundError
         end) /\
    (r = Raise FileNotFoundError <->
     disk = None /\ Forall (fun v => isnan v = true) (val_losses (Dntn.trace s))).
Proof.
  intros B DATA_NAME WORKERS data SEED total_epochs disk s r.
  assert (Hinv : (saves (Dntn.trace s) = [] -> Dntn.best_val_loss s = inf) /\
                 (saves (Dntn.trace s) = [] <->
                  Forall (fun v => isnan v = true) (val_losses (Dntn.trace s)))).
  { unfold s, Dntn.train_loop.
    apply (dntn_for_epochs_ind DATA_NAME WORKERS data SEED
      (fun s => (saves (Dntn.trace s) = [] -> Dntn.best_val_loss s = inf) /\
                (saves (Dntn.trace s) = [] <->
                 Forall (fun v => isnan v = true) (val_losses (Dntn.trace s))))).
    - intros e s0 (Hbest & Hiff).
      destruct (dntn_epoch_fields DATA_NAME WORKERS data SEED total_epochs e s0)
        as (Hb & _).
      cbv zeta in Hb. rewrite Hb, dntn_epoch_saves, dntn_epoch_val_losses.
      destruct (le _ _) eqn:Hle.
      + split; [intros H; now destruct (saves (Dntn.trace s0))|].
        split; [intros H; now destruct (saves (Dntn.trace s0))|].
        intros H. apply Forall_app in H. destruct H as [_ H].
        apply (proj1 (Forall_singleton _ _)) in H. cbv beta in H.
        apply le_true_not_nan in Hle. destruct Hle as [Hv _]. congruence.
      + rewrite app_nil_r. split; [exact Hbest|]. split.
        * intros H. apply Forall_app. split; [now apply Hiff|].
          apply (proj2 (Forall_singleton _ _)). rewrite (Hbest H), le_inf_iff in Hle.
          now destruct (isnan _).
        * intros H. apply Forall_app in H. destruct H as [H _]. now apply Hiff.
    - split; [reflexivity|]. split; [constructor|reflexivity]. }
  destruct Hinv as [_ Hiff].
  pose proof (dntn_disk_inv_loop DATA_NAME WORKERS data SEED disk total_epochs) as Hd.
  unfold Dntn.disk_inv in Hd. fold s in Hd.
  assert (Hr : r = match Dntn.save_dir s with
                   | Some c => Ok (Dntn.evaluate_test data WORKERS (ckpt_model c))
                   | None => Raise FileNotFoundError
                   end).
  { unfold r, Dntn.run_seed. fold s. apply dntn_final_eval_result. }
  split; [exact Hiff|]. split.
  - intros Hnil. rewrite Hnil in Hd. simpl in Hd. split; [exact Hd|]. now rewrite Hr, Hd.
  - rewrite Hr, Hd. split.
    + intros H. destruct (last (saves (Dntn.trace s))) as [c|] eqn:Hl; [discriminate|].
      apply last_None in Hl. simpl in H. split; [|now apply Hiff].
      now destruct disk.
    + intros [-> Hall]. apply Hiff in Hall. now rewrite Hall.
Qed.

Lemma X5_no_checkpoint_run_witness :
  let B := Fixtures.dntn_table [nan; nan; nan] in
  let stale : Dntn.Ckpt :=
    {| ckpt_model := 1; ckpt_optimizer := tt; ckpt_state := ∅; ckpt_epoch := 7;
       ckpt_metrics := [] |} in
  fst (Dntn.run_seed "d" 0 tt 1225 3 (Some stale)) = Ok nan /\
  fst (Dntn.run_seed "d" 0 tt 1225 3 None) = Raise FileNotFoundError.
Proof.
  cbv zeta. split.
  - destruct (X5_no_checkpoint_run (Fixtures.dntn_table [nan; nan; nan]) "d"%string 0 tt 1225 3
                (Some {| ckpt_model := 1; ckpt_optimizer := tt; ckpt_state := ∅;
                         ckpt_epoch := 7; ckpt_metrics := [] |}))
      as (_ & H & _).
    destruct H as [_ Hr]; [reflexivity|]. exact Hr.
  - apply (X5_no_checkpoint_run (Fixtures.dntn_table [nan; nan; nan]) "d"%string 0 tt 1225 3 None).
    split; [reflexivity|]. vm_compute. repeat constructor.
Defined.

(** *** How a trial ends *)

Section TuneRun.
Context {B : TuneClustering.Backend}.
Variables (TREE_DEPTH : Z) (REG : float).

Local Abbreviation epoch := (TuneClustering.epoch REG).
Local Abbreviation for_epochs := (TuneClustering.for_epochs REG).

Lemma tune_epoch_epochs_run (ep : Z) (s : TuneClustering.TrialState) :
  epochs_run (TuneClustering.trace (fst (epoch ep s))) =
    S (epochs_run (TuneClustering.trace s)).
Proof.
  destruct (tune_epoch_fields REG ep s) as (_ & _ & _ & Ht & _).
  rewrite Ht, !epochs_run_app.
  destruct (le _ _), (isnan _); cbn; lia.
Qed.

(** The loop ends by exhaustion, every epoch having run without exception, or
    in the epoch body that raised, every epoch before it having run without
    exception. *)
Lemma tune_loop_outcome (P : TuneClustering.TrialState -> Prop) :
  (forall ep s, P s -> snd (epoch ep s) = None -> P (fst (epoch ep s))) ->
  forall (es : list Z) (s : TuneClustering.TrialState),
    P s ->
    match for_epochs es s with
    | (s', None) =>
        P s' /\
        epochs_run (TuneClustering.trace s') =
          (epochs_run (TuneClustering.trace s) + length es)%nat
    | (s', Some ex) =>
        exists ep s1,
          P s1 /\ epoch ep s1 = (s', Some ex) /\
          (epochs_run (TuneClustering.trace s) <= epochs_run (TuneClustering.trace s1)
           < epochs_run (TuneClustering.trace s) + length es)%nat
    end.
Proof.
  intros Hstep es. induction es as [|ep es IH]; intros s Hs.
  - simpl. split; [exact Hs|lia].
  - rewrite tune_for_epochs_cons.
    destruct (snd (epoch ep s)) as [ex|] eqn:Hr.
    + exists ep, s. split; [exact Hs|]. split.
      * rewrite <- Hr. now destruct (epoch ep s).
      * simpl. lia.
    + specialize (IH _ (Hstep ep s Hs Hr)).
      rewrite tune_epoch_epochs_run in IH.
      destruct (for_epochs es (fst (epoch ep s))) as [s' [ex|]].
      * destruct IH as (ep' & s1 & HP & He & Hc).
        exists ep', s1. split; [exact HP|]. split; [exact He|]. simpl. lia.
      * destruct IH as [HP Hc]. split; [exact HP|]. simpl. lia.
Qed.

Lemma tune_final_eval_ok (s : TuneClustering.TrialState) (c : TuneClustering.Ckpt)
    (ep : Z) :
  TuneClustering.save_dir s = Some c ->
  TuneClustering.e s = Some ep ->
  let score := TuneClustering.LT_dendrogram_purity (ckpt_model c) in
  let s' := snd (TuneClustering.final_eval s) in
  fst (TuneClustering.final_eval s) = Ok score /\
  TuneClustering.trace s' =
    TuneClustering.trace s ++
    [EvLoad; EvFinalEval score; EvMonitorWrite ep; EvMonitorClose] /\
  TuneClustering.monitor s' =
    Monitors.close
      (Monitors.write TuneClustering.norms (TuneClustering.monitor s) (ckpt_model c) ep
         false [("val"%string, [("Dendrogram Purity"%string, score)])])
      Monitors.default_logfile.
Proof.
  intros Hd He. unfold TuneClustering.final_eval. rewrite Hd. simpl. rewrite He. simpl.
  rewrite <- !app_assoc. auto.
Qed.

End TuneRun.

(** X6 - [objective] of [tune_clustering.py] never fails on a missing
    checkpoint nor on an unbound loop variable, whatever its save directory
    held before: the final [load_model] is reached only after fifty epochs
    without a metric that is not-a-number, the first of which wrote a
    checkpoint.  A score it returns is the dendrogram purity of the model of
    the last checkpoint this trial wrote, which is the one in the save
    directory.  And when it raises [TrialPruned] or returns a score, its last
    call closed the monitor: the writer is closed and emptied and the last
    file exported is the default JSON log file. *)
Theorem X6_objective_outcomes :
  forall (B : TuneClustering.Backend) (TREE_DEPTH : Z) (REG : float)
         (disk : option TuneClustering.Ckpt),
    let r := fst (TuneClustering.objective TREE_DEPTH REG disk) in
    let s := snd (TuneClustering.objective TREE_DEPTH REG disk) in
    let w := Monitors.writer (TuneClustering.monitor s) in
    r <> Raise FileNotFoundError /\
    r <> Raise NameError /\
    (forall score, r = Ok score ->
       exists c, TuneClustering.save_dir s = Some c /\
                 last (saves (TuneClustering.trace s)) = Some c /\
                 score = TuneClustering.LT_dendrogram_purity (ckpt_model c)) /\
    (r = Raise TrialPruned \/ (exists score, r = Ok score) ->
       last (TuneClustering.trace s) = Some EvMonitorClose /\
       Monitors.closed w = true /\
       Monitors.scalar_dict w = [] /\
       exists scalars,
         last (Monitors.json_files w) = Some (Monitors.default_logfile, scalars)).
Proof.
  intros B TREE_DEPTH REG disk. cbv zeta.
  unfold TuneClustering.objective. rewrite tune_objective_on_cases. cbv zeta.
  set (s0 := TuneClustering.init_state TREE_DEPTH REG disk).
  pose proof (tune_for_epochs_outcome REG (range TuneClustering.EPOCHS) s0
                (Forall_nil_2 _)) as Hout.
  assert (Hr : range TuneClustering.EPOCHS = 0 :: seqZ 1 (TuneClustering.EPOCHS - 1))
    by (apply range_pos; reflexivity).
  destruct (TuneClustering.for_epochs REG (range TuneClustering.EPOCHS) s0)
    as [s1 [ex|]] eqn:Hloop; cbn [fst snd].
  - destruct Hout as (-> & t & ep & v & mon & Hnan & Ht & Hmon).
    split; [discriminate|]. split; [discriminate|]. split; [discriminate|].
    intros _. split.
    + rewrite Ht. change (t ++ [EvTrain ep; EvEvaluate ep v; EvLrStep v; EvMonitorWrite ep;
                                EvMonitorClose])
        with (t ++ [EvTrain ep; EvEvaluate ep v; EvLrStep v; EvMonitorWrite ep] ++ [EvMonitorClose]).
      now rewrite app_assoc, last_snoc.
    + rewrite Hmon.
      destruct (close_closed mon Monitors.default_logfile) as (Hc & Hj & He).
      split; [exact Hc|]. split; [exact He|]. eexists. exact Hj.
  - assert (Hs1 : s1 = fst (TuneClustering.for_epochs REG (range TuneClustering.EPOCHS) s0))
      by now rewrite Hloop.
    assert (Hnum : isnan (TuneClustering.val_loss_of REG 0 s0) = false).
    { rewrite Forall_forall in Hout. apply Hout.
      rewrite Hs1, Hr, tune_for_epochs_cons.
      set (s' := fst (TuneClustering.epoch REG 0 s0)).
      assert (H0 : TuneClustering.val_loss_of REG 0 s0 ∈ val_losses (TuneClustering.trace s')).
      { unfold s'. rewrite tune_epoch_val_losses. apply elem_of_app. right. constructor. }
      destruct (snd (TuneClustering.epoch REG 0 s0)); [exact H0|].
      destruct (tune_trace_mono REG (seqZ 1 (TuneClustering.EPOCHS - 1)) s') as [k Hk].
      rewrite Hk, val_losses_app. apply elem_of_app. now left. }
    destruct (tune_first_epoch_saved TREE_DEPTH REG (seqZ 1 (TuneClustering.EPOCHS - 1)) disk Hnum)
      as (c & Hc & Hl).
    rewrite <- Hr in Hc, Hl. fold s0 in Hc, Hl. rewrite <- Hs1 in Hc, Hl.
    destruct (tune_e_bound REG (range TuneClustering.EPOCHS) s0) as [ep Hep].
    { rewrite Hr. discriminate. }
    rewrite <- Hs1 in Hep.
    destruct (tune_final_eval_ok s1 c ep Hc Hep) as (Hres & Ht & Hmon).
    cbv zeta in Hres, Ht, Hmon.
    destruct (tune_final_eval_state s1) as (Hd & _ & Hs). cbv zeta in Hd, Hs.
    rewrite Hres, Hd, Hs.
    split; [discriminate|]. split; [discriminate|]. split.
    + intros score [= <-]. now exists c.
    + intros _. split.
      * rewrite Ht.
        change [EvLoad; EvFinalEval (TuneClustering.LT_dendrogram_purity (ckpt_model c));
                EvMonitorWrite ep; EvMonitorClose]
          with ([EvLoad; EvFinalEval (TuneClustering.LT_dendrogram_purity (ckpt_model c));
                 EvMonitorWrite ep] ++ [@EvMonitorClose TuneClustering.Ckpt]).
        now rewrite app_assoc, last_snoc.
      * rewrite Hmon.
        match goal with
        | |- context [Monitors.close ?m ?f] =>
            destruct (close_closed m f) as (Hcl & Hj & He)
        end.
        split; [exact Hcl|]. split; [exact He|]. eexists. exact Hj.
Qed.

Lemma X6_objective_outcomes_witness :
  let B := Fixtures.tune_table (half :: replicate 49 one) in
  let s := snd (TuneClustering.objective 3 one None) in
  (exists c, TuneClustering.save_dir s = Some c /\
             last (saves (TuneClustering.trace s)) = Some c /\
             half = TuneClustering.LT_dendrogram_purity (ckpt_model c)) /\
  last (TuneClustering.trace s) = Some EvMonitorClose.
Proof.
  cbv zeta.
  destruct (X6_objective_outcomes (Fixtures.tune_table (half :: replicate 49 one)) 3 one None)
    as (_ & _ & Hok & Hclose).
  split.
  - apply Hok. vm_compute. reflexivity.
  - apply Hclose. right. exists half. vm_compute. reflexivity.
Defined.

(** X7 - A trial of [tune_clustering.py] is pruned in the first epoch whose
    validation metric is not-a-number: when [objective] raises
    [TrialPruned], the last metric seen is not-a-number, all the metrics
    before it are numbers, and the trial ran as many epochs as it saw
    metrics, fifty at most.  When [objective] returns a score it ran all
    fifty epochs and every metric was a number. *)
Theorem X7_pruned_at_first_nan :
  forall (B : TuneClustering.Backend) (TREE_DEPTH : Z) (REG : float)
         (disk : option TuneClustering.Ckpt),
    let r := fst (TuneClustering.objective TREE_DEPTH REG disk) in
    let s := snd (TuneClustering.objective TREE_DEPTH REG disk) in
    (r = Raise TrialPruned ->
     exists nums v,
       val_losses (TuneClustering.trace s) = nums ++ [v] /\
       Forall (fun u => isnan u = false) nums /\
       isnan v = true /\
       epochs_run (TuneClustering.trace s) = S (length nums) /\
       (length nums < 50)%nat) /\
    (forall score, r = Ok score ->
       epochs_run (TuneClustering.trace s) = 50%nat /\
       length (val_losses (TuneClustering.trace s)) = 50%nat /\
       Forall (fun u => isnan u = false) (val_losses (TuneClustering.trace s))).
Proof.
  intros B TREE_DEPTH REG disk. cbv zeta.
  unfold TuneClustering.objective. rewrite tune_objective_on_cases. cbv zeta.
  set (s0 := TuneClustering.init_state TREE_DEPTH REG disk).
  pose (P := fun s : TuneClustering.TrialState =>
    Forall (fun u => isnan u = false) (val_losses (TuneClustering.trace s)) /\
    length (val_losses (TuneClustering.trace s)) = epochs_run (TuneClustering.trace s)).
  assert (Hstep : forall ep s, P s -> snd (TuneClustering.epoch REG ep s) = None ->
                               P (fst (TuneClustering.epoch REG ep s))).
  { intros ep s [Hall Hlen] Hnone. unfold P.
    destruct (tune_epoch_fields REG ep s) as (_ & _ & _ & _ & _ & Hr & _).
    cbv zeta in Hr. rewrite Hr in Hnone.
    rewrite tune_epoch_val_losses, tune_epoch_epochs_run, length_app. split.
    - apply Forall_app. split; [exact Hall|]. repeat constructor.
      now destruct (isnan _).
    - simpl. lia. }
  pose proof (tune_loop_outcome REG P Hstep (range TuneClustering.EPOCHS) s0) as Hout.
  assert (Hlen : length (range TuneClustering.EPOCHS) = 50%nat) by reflexivity.
  rewrite Hlen in Hout.
  specialize (Hout ltac:(split; [constructor|reflexivity])).
  change (epochs_run (TuneClustering.trace s0)) with 0%nat in Hout.
  destruct (TuneClustering.for_epochs REG (range TuneClustering.EPOCHS) s0)
    as [s1 [ex|]] eqn:Hloop; cbn [fst snd].
  - split; [|discriminate].
    intros _. destruct Hout as (ep & s2 & [Hall Hl] & He & Hc).
    assert (Hs1 : s1 = fst (TuneClustering.epoch REG ep s2)) by now rewrite He.
    destruct (tune_epoch_fields REG ep s2) as (_ & _ & _ & _ & _ & Hr & _).
    cbv zeta in Hr. rewrite He in Hr. simpl in Hr.
    exists (val_losses (TuneClustering.trace s2)), (TuneClustering.val_loss_of REG ep s2).
    rewrite Hs1, tune_epoch_val_losses, tune_epoch_epochs_run.
    split; [reflexivity|]. split; [exact Hall|].
    split; [destruct (isnan _); [reflexivity|discriminate]|].
    split; lia.
  - destruct Hout as [[Hall Hl] Hc].
    destruct (tune_final_eval_state s1) as (_ & Hv & _).
    destruct (tune_final_eval_best s1) as (_ & _ & _ & He).
    cbv zeta in Hv, He. rewrite Hv, He.
    split.
    + intros H. exfalso.
      rewrite tune_final_eval_result in H.
      destruct (TuneClustering.save_dir s1); [|discriminate].
      destruct (TuneClustering.e s1); discriminate.
    + intros score _. split; [lia|]. split; [lia|exact Hall].
Qed.

Lemma X7_pruned_at_first_nan_witness :
  let B := Fixtures.tune_table [one; half; nan; one] in
  let s := snd (TuneClustering.objective 3 one None) in
  val_losses (TuneClustering.trace s) = [one; half; nan] /\
  epochs_run (TuneClustering.trace s) = 3%nat.
Proof.
  cbv zeta.
  destruct (X7_pruned_at_first_nan (Fixtures.tune_table [one; half; nan; one]) 3 one None)
    as [H _].
  destruct H as (nums & v & Hv & _ & _ & Hrun & _); [reflexivity|].
  split; [reflexivity|]. rewrite Hrun.
  assert (Hlen : length (val_losses (TuneClustering.trace
            (snd (@TuneClustering.objective (Fixtures.tune_table [one; half; nan; one])
                    3 one None)))) = 3%nat) by reflexivity.
  rewrite Hv, length_app in Hlen. simpl in Hlen. lia.
Defined.

(** *** The seed loop of [dntn.py] *)

Lemma Forall2_impl_elem {A C : Type} (P Q : A -> C -> Prop) (l : list A) (k : list C) :
  Forall2 P l k -> (forall x y, x ∈ l -> P x y -> Q x y) -> Forall2 Q l k.
Proof.
  induction 1 as [|x y l k Hxy Hlk IH]; intros Himp; constructor.
  - apply Himp; [left|exact Hxy].
  - apply IH. intros x' y' Hin. apply Himp. now right.
Qed.

Section DntnSeeds.
Context {B : Dntn.Backend}.
Variables (DATA_NAME : string) (WORKERS : Z) (data : Dntn.Data).

Local Abbreviation seed_loop := (Dntn.seed_loop DATA_NAME WORKERS data).
Local Abbreviation run_from w SEED :=
  (Dntn.run_seed DATA_NAME WORKERS data SEED%Z Dntn.EPOCHS (Dntn.results w !! SEED%Z)).

Lemma dntn_seed_loop_cons (SEED : Z) (seeds : list Z) (acc : list float) (w : Dntn.World) :
  let w' := {| Dntn.results :=
                 partial_alter (fun _ => Dntn.save_dir (snd (run_from w SEED))) SEED
                               (Dntn.results w);
               Dntn.calls := Dntn.calls w ++ Dntn.trace (snd (run_from w SEED)) |} in
  seed_loop (SEED :: seeds) acc w =
    match fst (run_from w SEED) with
    | Raise ex => (Raise ex, w')
    | Ok test_loss => seed_loop seeds (acc ++ [test_loss]) w'
    end.
Proof.
  cbn [Dntn.seed_loop].
  now destruct (Dntn.run_seed DATA_NAME WORKERS data SEED Dntn.EPOCHS
                  (Dntn.results w !! SEED)) as [[loss|ex] s].
Qed.

(** The save directories of the seeds that are not in the list are left as
    they were. *)
Lemma dntn_seed_loop_frame (seeds : list Z) (acc : list float) (w : Dntn.World)
    (SEED : Z) :
  SEED ∉ seeds ->
  Dntn.results (snd (seed_loop seeds acc w)) !! SEED = Dntn.results w !! SEED.
Proof.
  revert acc w. induction seeds as [|S seeds IH]; intros acc w Hnot; [reflexivity|].
  apply not_elem_of_cons in Hnot. destruct Hnot as [Hne Hnot].
  rewrite dntn_seed_loop_cons. cbv zeta.
  destruct (fst (run_from w S)) as [loss|ex].
  - rewrite (IH _ _ Hnot). simpl. now apply lookup_partial_alter_ne.
  - simpl. now apply lookup_partial_alter_ne.
Qed.

Lemma dntn_seed_loop_ok (seeds : list Z) (acc : list float) (w : Dntn.World)
    (losses : list float) :
  NoDup seeds ->
  fst (seed_loop seeds acc w) = Ok losses ->
  exists l,
    losses = acc ++ l /\
    Forall2 (fun SEED loss => fst (run_from w SEED) = Ok loss) seeds l /\
    forall SEED, SEED ∈ seeds ->
      Dntn.results (snd (seed_loop seeds acc w)) !! SEED =
        Dntn.save_dir (snd (run_from w SEED)).
Proof.
  revert acc w. induction seeds as [|S seeds IH]; intros acc w Hnd Hok.
  - simpl in Hok. injection Hok as <-. exists []. rewrite app_nil_r.
    split; [reflexivity|]. split; [constructor|]. intros SEED Hin. inversion Hin.
  - apply NoDup_cons in Hnd. destruct Hnd as [HS Hnd].
    rewrite dntn_seed_loop_cons in Hok |- *. cbv zeta in Hok |- *.
    destruct (fst (run_from w S)) as [loss|ex] eqn:Hrun; [|discriminate].
    set (w1 := {| Dntn.results := _; Dntn.calls := _ |}) in *.
    assert (Hsame : forall SEED, SEED ∈ seeds -> run_from w1 SEED = run_from w SEED).
    { intros SEED Hin. cbv beta. simpl. rewrite lookup_partial_alter_ne; [reflexivity|].
      intros ->. contradiction. }
    destruct (IH _ _ Hnd Hok) as (l & -> & Hall & Hres).
    exists (loss :: l). split; [now rewrite <- app_assoc|]. split.
    + constructor; [exact Hrun|].
      apply (Forall2_impl_elem _ _ _ _ Hall). intros SEED y Hin H.
      cbv beta in *. now rewrite <- (Hsame SEED Hin).
    + intros SEED Hin. apply elem_of_cons in Hin. destruct Hin as [->|Hin].
      * rewrite (dntn_seed_loop_frame _ _ _ _ HS). simpl.
        now rewrite lookup_partial_alter_eq.
      * rewrite (Hres SEED Hin). now rewrite (Hsame SEED Hin).
Qed.

End DntnSeeds.

(** X8 - The seeds of [dntn.py] do not interact.  The seed loop leaves the
    save directory of every seed that is not in its list as it was; and when
    it succeeds on a list of distinct seeds, it appends one test loss per
    seed, in order, each the result of running that seed from what its save
    directory held before the loop, and each seed's directory ends as that
    run left it. *)
Theorem X8_seeds_independent :
  forall (B : Dntn.Backend) (DATA_NAME : string) (WORKERS : Z) (data : Dntn.Data)
         (seeds : list Z) (acc : list float) (w : Dntn.World),
    let run := fun SEED =>
      Dntn.run_seed DATA_NAME WORKERS data SEED Dntn.EPOCHS (Dntn.results w !! SEED) in
    let out := Dntn.seed_loop DATA_NAME WORKERS data seeds acc w in
    (forall SEED, SEED ∉ seeds ->
       Dntn.results (snd out) !! SEED = Dntn.results w !! SEED) /\
    (NoDup seeds ->
     forall losses, fst out = Ok losses ->
       exists l,
         losses = acc ++ l /\
         Forall2 (fun SEED loss => fst (run SEED) = Ok loss) seeds l /\
         forall SEED, SEED ∈ seeds ->
           Dntn.results (snd out) !! SEED = Dntn.save_dir (snd (run SEED))).
Proof.
  intros B DATA_NAME WORKERS data seeds acc w. cbv zeta. split.
  - intros SEED. apply dntn_seed_loop_frame.
  - intros Hnd losses. now apply dntn_seed_loop_ok.
Qed.

Lemma X8_seeds_independent_witness :
  let B := Fixtures.dntn_table [half] in
  let w := {| Dntn.results := ∅; Dntn.calls := [] |} in
  let out := Dntn.seed_loop "d" 0 tt [1225; 1337] [] w in
  let run := fun SEED => Dntn.run_seed "d" 0 tt SEED Dntn.EPOCHS (Dntn.results w !! SEED) in
  Dntn.results (snd out) !! 2020 = Dntn.results w !! 2020 /\
  exists l,
    [half; half] = [] ++ l /\
    Forall2 (fun SEED loss => fst (run SEED) = Ok loss) [1225; 1337] l /\
    forall SEED, SEED ∈ [1225; 1337] ->
      Dntn.results (snd out) !! SEED = Dntn.save_dir (snd (run SEED)).
Proof.
  cbv zeta.
  destruct (X8_seeds_independent (Fixtures.dntn_table [half]) "d"%string 0 tt
              [1225; 1337] [] {| Dntn.results := ∅; Dntn.calls := [] |}) as [Hframe Hok].
  split.
  - apply Hframe.
    apply not_elem_of_cons; split; [discriminate|].
    apply not_elem_of_cons; split; [discriminate|]. apply not_elem_of_nil.
  - apply Hok; [|reflexivity].
    apply NoDup_cons_2; [|apply NoDup_singleton].
    apply not_elem_of_cons; split; [discriminate|]. apply not_elem_of_nil.
Defined.

Lemma dntn_setup_ok {B : Dntn.Backend} (data : Dntn.Data) (WORKERS : Z) (u : unit) :
  Dntn.setup data WORKERS = Ok u -> 0 <= WORKERS.
Proof.
  unfold Dntn.setup, Dntn.loader.
  destruct (Dntn.shapes data); [|discriminate].
  destruct (Dntn.TorchDataset data Dntn.Train); [|discriminate].
  destruct (Z.ltb_spec WORKERS 0); [discriminate|]. intros _. lia.
Qed.

(** X9 - When [dntn.py] runs to the end, its command line had at least two
    arguments, [int] accepted the second, the dataset named by the first was
    loaded, and the script collected exactly four test losses, one per seed
    1225, 1337, 2020 and 6021991 in that order, each the result of running
    that seed from what its save directory held when the script started; and
    the worker count was not negative. *)
Theorem X9_main_success :
  forall (B : Dntn.Backend) (int : string -> option Z) (argv : list string)
         (w : Dntn.World) (losses : list float),
    fst (Dntn.main int argv w) = Ok losses ->
    exists (a0 DATA_NAME a2 : string) (rest : list string) (WORKERS : Z)
           (data : Dntn.Data),
      argv = a0 :: DATA_NAME :: a2 :: rest /\
      int a2 = Some WORKERS /\
      Dntn.Dataset DATA_NAME = Ok data /\
      Forall2 (fun SEED loss =>
                 fst (Dntn.run_seed DATA_NAME WORKERS data SEED Dntn.EPOCHS
                        (Dntn.results w !! SEED)) = Ok loss)
              [1225; 1337; 2020; 6021991] losses /\
      length losses = 4%nat /\
      0 <= WORKERS.
Proof.
  intros B int argv w losses. unfold Dntn.main, Dntn.parse_args, Dntn.argv_get.
  destruct argv as [|a0 [|a1 [|a2 rest]]]; cbn [lookup list_lookup fst];
    try discriminate.
  destruct (int a2) as [n|] eqn:Hint; [|discriminate].
  destruct (Dntn.Dataset a1) as [data|ex] eqn:Hdata; [|discriminate].
  destruct (Dntn.setup data n) as [u|ex] eqn:Hsetup; [|discriminate].
  intros Hok.
  assert (Hnd : NoDup Dntn.SEEDS).
  { unfold Dntn.SEEDS. compute_done. }
  destruct (dntn_seed_loop_ok a1 n data Dntn.SEEDS [] w losses Hnd Hok)
    as (l & -> & Hall & _).
  exists a0, a1, a2, rest, n, data.
  split; [reflexivity|]. split; [exact Hint|]. split; [exact Hdata|].
  split; [exact Hall|]. split.
  - apply Forall2_length in Hall. simpl in *. lia.
  - now apply (dntn_setup_ok data n u).
Qed.

Lemma X9_main_success_witness :
  let B := Fixtures.dntn_table [half] in
  let w := {| Dntn.results := ∅; Dntn.calls := [] |} in
  exists (a0 DATA_NAME a2 : string) (rest : list string) (WORKERS : Z) (data : Dntn.Data),
    ["dntn.py"; "MNIST"; "4"]%string = a0 :: DATA_NAME :: a2 :: rest /\
    Fixtures.decimal_int a2 = Some WORKERS /\
    Dntn.Dataset DATA_NAME = Ok data /\
    Forall2 (fun SEED loss =>
               fst (Dntn.run_seed DATA_NAME WORKERS data SEED Dntn.EPOCHS
                      (Dntn.results w !! SEED)) = Ok loss)
            [1225; 1337; 2020; 6021991] [half; half; half; half] /\
    length [half; half; half; half] = 4%nat /\
    0 <= WORKERS.
Proof.
  cbv zeta.
  apply (X9_main_success (Fixtures.dntn_table [half]) Fixtures.decimal_int
           ["dntn.py"; "MNIST"; "4"]%string {| Dntn.results := ∅; Dntn.calls := [] |}).
  vm_compute. reflexivity.
Defined.

(** *** The monitor *)

Section MonitorFacts.
Context {Dir Model : Type}.
Variable norms : Monitors.TreeNorms Model.

Lemma write_fields (self : Monitors.MonitorTree Dir) (model : Model) (it : Z)
    (report_tree : bool) (metrics : list (string * list (string * float))) :
  let self' := Monitors.write norms self model it report_tree metrics in
  Monitors.json_files (Monitors.writer self') = Monitors.json_files (Monitors.writer self) /\
  Monitors.closed (Monitors.writer self') = Monitors.closed (Monitors.writer self) /\
  Monitors.logdir (Monitors.writer self') = Monitors.logdir (Monitors.writer self).
Proof.
  unfold Monitors.write. cbn [Monitors.writer].
  match goal with
  | |- context [fold_left ?f metrics ?w0] =>
      destruct (fold_add_scalars it metrics w0) as (_ & Hj & Hc & Hl)
  end.
  cbv zeta in *. rewrite Hj, Hc, Hl.
  now destruct (report_tree && Monitors.pruning self).
Qed.

Lemma writer_eq (w1 w2 : Monitors.SummaryWriter Dir) :
  Monitors.logdir w1 = Monitors.logdir w2 ->
  Monitors.scalar_dict w1 = Monitors.scalar_dict w2 ->
  Monitors.json_files w1 = Monitors.json_files w2 ->
  Monitors.closed w1 = Monitors.closed w2 ->
  w1 = w2.
Proof. destruct w1, w2; simpl; congruence. Qed.

Lemma monitor_eq (m1 m2 : Monitors.MonitorTree Dir) :
  Monitors.writer m1 = Monitors.writer m2 ->
  Monitors.pruning m1 = Monitors.pruning m2 ->
  m1 = m2.
Proof. destruct m1, m2; simpl; congruence. Qed.

End MonitorFacts.

Section MonitorCompose.
Context {Dir Model : Type}.
Variable norms : Monitors.TreeNorms Model.

Lemma write_scalar_dict (self : Monitors.MonitorTree Dir) (model : Model) (it : Z)
    (report_tree : bool) (metrics : list (string * list (string * float))) :
  Monitors.scalar_dict (Monitors.writer (Monitors.write norms self model it report_tree metrics)) =
    Monitors.scalar_dict (Monitors.writer self) ++
    (if report_tree && Monitors.pruning self
     then [Monitors.group_at it ("variables/eta_group"%string, Monitors.eta_group norms model);
           Monitors.group_at it ("variables/d_group"%string, Monitors.d_group norms model)]
     else []) ++
    map (Monitors.group_at it) metrics.
Proof.
  unfold Monitors.write. cbn [Monitors.writer].
  match goal with
  | |- context [fold_left ?f metrics ?w0] =>
      destruct (fold_add_scalars it metrics w0) as (Hs & _)
  end.
  cbv zeta in Hs. rewrite Hs.
  destruct (report_tree && Monitors.pruning self); simpl.
  - rewrite <- !app_assoc. reflexivity.
  - reflexivity.
Qed.

End MonitorCompose.

(** X10 - [MonitorTree.write] only adds scalars: it exports no JSON file,
    does not close the writer and leaves its log directory.  Without tree
    report and without keyword metrics it changes nothing; and a write
    followed by a write at the same step without tree report is the single
    write of all the keyword metrics together. *)
Theorem X10_write_only_adds :
  forall (Dir Model : Type) (norms : Monitors.TreeNorms Model)
         (self : Monitors.MonitorTree Dir) (model model' : Model) (it : Z)
         (report_tree : bool) (ms1 ms2 : list (string * list (string * float))),
    let self' := Monitors.write norms self model it report_tree ms1 in
    Monitors.json_files (Monitors.writer self') = Monitors.json_files (Monitors.writer self) /\
    Monitors.closed (Monitors.writer self') = Monitors.closed (Monitors.writer self) /\
    Monitors.logdir (Monitors.writer self') = Monitors.logdir (Monitors.writer self) /\
    Monitors.write norms self model it false [] = self /\
    Monitors.write norms self' model' it false ms2 =
      Monitors.write norms self model it report_tree (ms1 ++ ms2).
Proof.
  intros Dir Model norms self model model' it report_tree ms1 ms2. cbv zeta.
  destruct (write_fields norms self model it report_tree ms1) as (Hj & Hc & Hl).
  cbv zeta in Hj, Hc, Hl.
  split; [exact Hj|]. split; [exact Hc|]. split; [exact Hl|]. split.
  - now destruct self.
  - apply monitor_eq; [|reflexivity]. apply writer_eq.
    + destruct (write_fields norms (Monitors.write norms self model it report_tree ms1)
                  model' it false ms2) as (_ & _ & ->).
      destruct (write_fields norms self model it report_tree (ms1 ++ ms2)) as (_ & _ & ->).
      exact Hl.
    + rewrite !write_scalar_dict. simpl. rewrite map_app, <- !app_assoc. reflexivity.
    + destruct (write_fields norms (Monitors.write norms self model it report_tree ms1)
                  model' it false ms2) as (-> & _).
      destruct (write_fields norms self model it report_tree (ms1 ++ ms2)) as (-> & _).
      exact Hj.
    + destruct (write_fields norms (Monitors.write norms self model it report_tree ms1)
                  model' it false ms2) as (_ & -> & _).
      destruct (write_fields norms self model it report_tree (ms1 ++ ms2)) as (_ & -> & _).
      exact Hc.
Qed.

(** X11 - [MonitorTree.close] exports every scalar added since the last
    export and empties the writer: after a write and a close, the last JSON
    file exported is the log file given, holding the scalars the monitor had,
    then the tree-statistics groups if they were reported, then one group per
    keyword metric; the writer is closed and holds no scalar.  Nothing
    prevents a second close, which exports an empty file. *)
Theorem X11_close_exports_all :
  forall (Dir Model : Type) (norms : Monitors.TreeNorms Model)
         (self : Monitors.MonitorTree Dir) (model : Model) (it : Z)
         (report_tree : bool) (metrics : list (string * list (string * float)))
         (logfile logfile' : string),
    let written := Monitors.write norms self model it report_tree metrics in
    let done := Monitors.close written logfile in
    last (Monitors.json_files (Monitors.writer done)) =
      Some (logfile,
            Monitors.scalar_dict (Monitors.writer self) ++
            (if report_tree && Monitors.pruning self
             then [Monitors.group_at it
                     ("variables/eta_group"%string, Monitors.eta_group norms model);
                   Monitors.group_at it
                     ("variables/d_group"%string, Monitors.d_group norms model)]
             else []) ++
            map (Monitors.group_at it) metrics) /\
    Monitors.scalar_dict (Monitors.writer done) = [] /\
    Monitors.closed (Monitors.writer done) = true /\
    Monitors.json_files (Monitors.writer (Monitors.close done logfile')) =
      Monitors.json_files (Monitors.writer self) ++
      [(logfile, Monitors.scalar_dict (Monitors.writer written)); (logfile', [])].
Proof.
  intros Dir Model norms self model it report_tree metrics logfile logfile'. cbv zeta.
  destruct (write_fields norms self model it report_tree metrics) as (Hj & _).
  cbv zeta in Hj.
  split; [|split; [reflexivity|split; [reflexivity|]]].
  - unfold Monitors.close.
    cbn [Monitors.writer Monitors.json_files Monitors.export_scalars_to_json
         Monitors.writer_close].
    now rewrite last_snoc, write_scalar_dict.
  - unfold Monitors.close.
    cbn [Monitors.writer Monitors.json_files Monitors.scalar_dict
         Monitors.export_scalars_to_json Monitors.writer_close].
    now rewrite Hj, <- app_assoc.
Qed.

(** *** The scalars of a trial *)

Section TuneMonitorLog.
Context {B : TuneClustering.Backend}.
Variables (TREE_DEPTH : Z) (REG : float).

(** The training and evaluation steps export no JSON file. *)
Hypothesis Htrain : forall m o ep r mon,
  Monitors.json_files (Monitors.writer (snd (TuneClustering.train_stochastic m o ep r mon))) =
    Monitors.json_files (Monitors.writer mon).
Hypothesis Heval : forall m ep mon,
  Monitors.json_files (Monitors.writer (snd (TuneClustering.evaluate m ep mon))) =
    Monitors.json_files (Monitors.writer mon).

Local Abbreviation epoch := (TuneClustering.epoch REG).
Local Abbreviation for_epochs := (TuneClustering.for_epochs REG).

(** After an epoch the monitor is the one that received the write of the
    learning rate, closed if the metric is not-a-number. *)
Lemma tune_epoch_monitor (ep : Z) (s : TuneClustering.TrialState) :
  exists mon lr,
    TuneClustering.monitor (fst (epoch ep s)) =
      (if isnan (TuneClustering.val_loss_of REG ep s)
       then Monitors.close mon Monitors.default_logfile else mon) /\
    Monitors.json_files (Monitors.writer mon) =
      Monitors.json_files (Monitors.writer (TuneClustering.monitor s)) /\
    last (Monitors.scalar_dict (Monitors.writer mon)) =
      Some (Monitors.group_at ep ("train"%string, [("lr"%string, lr)])).
Proof.
  unfold TuneClustering.epoch, TuneClustering.val_loss_of,
    TuneClustering.do_write, TuneClustering.do_close, TuneClustering.do_lr_step,
    TuneClustering.do_train.
  pose proof (Htrain (TuneClustering.model s) (TuneClustering.optimizer s) ep REG
                (TuneClustering.monitor s)) as Ht.
  destruct (TuneClustering.train_stochastic (TuneClustering.model s)
              (TuneClustering.optimizer s) ep REG (TuneClustering.monitor s))
    as [[m o] mon0] eqn:Et.
  cbn [snd] in Ht.
  cbn [TuneClustering.log TuneClustering.set_monitor TuneClustering.model
       TuneClustering.optimizer TuneClustering.best_val_loss TuneClustering.monitor
       TuneClustering.trace TuneClustering.lr_scheduler TuneClustering.save_dir
       TuneClustering.best_e TuneClustering.e].
  pose proof (Heval m ep mon0) as He.
  destruct (TuneClustering.evaluate m ep mon0) as [v mon1] eqn:Ev.
  cbn [snd] in He.
  cbn [fst TuneClustering.log TuneClustering.set_monitor TuneClustering.model
       TuneClustering.optimizer TuneClustering.best_val_loss TuneClustering.monitor
       TuneClustering.trace TuneClustering.lr_scheduler TuneClustering.save_dir
       TuneClustering.best_e TuneClustering.e].
  destruct (le v (TuneClustering.best_val_loss s));
    cbn [TuneClustering.do_save TuneClustering.log TuneClustering.set_monitor
         TuneClustering.model TuneClustering.optimizer TuneClustering.best_val_loss
         TuneClustering.monitor TuneClustering.trace TuneClustering.lr_scheduler
         TuneClustering.save_dir TuneClustering.best_e TuneClustering.e];
    match goal with
    | |- context [TuneClustering.lr_scheduler_step ?a ?b ?c] =>
        destruct (TuneClustering.lr_scheduler_step a b c) as [sch o']
    end;
    cbn [TuneClustering.log TuneClustering.set_monitor TuneClustering.model
         TuneClustering.optimizer TuneClustering.best_val_loss TuneClustering.monitor
         TuneClustering.trace TuneClustering.lr_scheduler TuneClustering.save_dir
         TuneClustering.best_e TuneClustering.e];
    eexists _, _;
    (split; [destruct (isnan v); cbn [fst TuneClustering.log TuneClustering.set_monitor
                                      TuneClustering.monitor]; reflexivity|]);
    (split; [|unfold Monitors.write; simpl; now rewrite last_snoc]);
    match goal with
    | |- context [Monitors.write ?n ?self ?mdl ?it ?rt ?ms] =>
        destruct (write_fields n self mdl it rt ms) as (Hj & _);
        cbv zeta in Hj; rewrite Hj
    end;
    now rewrite He, Ht.
Qed.

(** The loop over an interval that starts at the number of epochs run so
    far: every epoch runs at its own index. *)
Lemma tune_range_outcome (P : TuneClustering.TrialState -> Prop) :
  (forall s, P s ->
     let k := Z.of_nat (epochs_run (TuneClustering.trace s)) in
     snd (epoch k s) = None -> P (fst (epoch k s))) ->
  forall (n : nat) (s : TuneClustering.TrialState),
    P s ->
    match for_epochs (seqZ (Z.of_nat (epochs_run (TuneClustering.trace s))) (Z.of_nat n)) s with
    | (s', None) =>
        P s' /\
        epochs_run (TuneClustering.trace s') = (epochs_run (TuneClustering.trace s) + n)%nat
    | (s', Some ex) =>
        exists s1, P s1 /\
          epoch (Z.of_nat (epochs_run (TuneClustering.trace s1))) s1 = (s', Some ex)
    end.
Proof.
  intros Hstep n. induction n as [|n IH]; intros s Hs.
  - simpl. split; [exact Hs|lia].
  - rewrite seqZ_of_nat_S, tune_for_epochs_cons.
    specialize (Hstep s Hs). cbv zeta in Hstep.
    destruct (snd (epoch (Z.of_nat (epochs_run (TuneClustering.trace s))) s))
      as [ex|] eqn:Hr.
    + exists s. split; [exact Hs|]. rewrite <- Hr.
      now destruct (epoch (Z.of_nat (epochs_run (TuneClustering.trace s))) s).
    + specialize (IH _ (Hstep eq_refl)).
      rewrite tune_epoch_epochs_run, Nat2Z.inj_succ, <- Z.add_1_r in IH.
      destruct (for_epochs
                  (seqZ (Z.of_nat (epochs_run (TuneClustering.trace s)) + 1) (Z.of_nat n))
                  (fst (epoch (Z.of_nat (epochs_run (TuneClustering.trace s))) s)))
        as [s' [ex|]].
      * exact IH.
      * destruct IH as [HP Hc]. split; [exact HP|lia].
Qed.

Lemma tune_unpruned_saved (disk : option TuneClustering.Ckpt)
    (s1 : TuneClustering.TrialState) :
  for_epochs (range TuneClustering.EPOCHS) (TuneClustering.init_state TREE_DEPTH REG disk)
    = (s1, None) ->
  exists c, TuneClustering.save_dir s1 = Some c.
Proof.
  intros Hloop.
  set (s0 := TuneClustering.init_state TREE_DEPTH REG disk) in *.
  pose proof (tune_for_epochs_outcome REG (range TuneClustering.EPOCHS) s0
                (Forall_nil_2 _)) as Hout.
  rewrite Hloop in Hout.
  assert (Hr : range TuneClustering.EPOCHS = 0 :: seqZ 1 (TuneClustering.EPOCHS - 1))
    by (apply range_pos; reflexivity).
  assert (Hs1 : s1 = fst (for_epochs (range TuneClustering.EPOCHS) s0)) by now rewrite Hloop.
  assert (Hnum : isnan (TuneClustering.val_loss_of REG 0 s0) = false).
  { rewrite Forall_forall in Hout. apply Hout.
    rewrite Hs1, Hr, tune_for_epochs_cons.
    set (s' := fst (epoch 0 s0)).
    assert (H0 : TuneClustering.val_loss_of REG 0 s0 ∈ val_losses (TuneClustering.trace s')).
    { unfold s'. rewrite tune_epoch_val_losses. apply elem_of_app. right. constructor. }
    destruct (snd (epoch 0 s0)); [exact H0|].
    destruct (tune_trace_mono REG (seqZ 1 (TuneClustering.EPOCHS - 1)) s') as [k Hk].
    rewrite Hk, val_losses_app. apply elem_of_app. now left. }
  destruct (tune_first_epoch_saved TREE_DEPTH REG (seqZ 1 (TuneClustering.EPOCHS - 1)) disk Hnum)
    as (c & Hc & _).
  rewrite <- Hr in Hc. fold s0 in Hc. rewrite <- Hs1 in Hc. now exists c.
Qed.

End TuneMonitorLog.

(** X12 - The JSON log of a trial of [tune_clustering.py], for libraries
    whose training and evaluation steps export no JSON file themselves.  When
    [objective] returns a score, exactly one JSON file has been exported, the
    default log file; the last group it holds is the dendrogram purity,
    tagged val, at step 49, the last epoch and not the best one; and the
    writer holds no scalar any more.  When [objective] raises [TrialPruned],
    exactly one JSON file has been exported too, and the last group it holds
    is the learning rate, tagged train, at the step of the last epoch run. *)
Theorem X12_trial_scalars :
  forall (B : TuneClustering.Backend),
    (forall m o ep r mon,
       Monitors.json_files
         (Monitors.writer (snd (TuneClustering.train_stochastic m o ep r mon))) =
       Monitors.json_files (Monitors.writer mon)) ->
    (forall m ep mon,
       Monitors.json_files (Monitors.writer (snd (TuneClustering.evaluate m ep mon))) =
       Monitors.json_files (Monitors.writer mon)) ->
    forall (TREE_DEPTH : Z) (REG : float) (disk : option TuneClustering.Ckpt),
      let r := fst (TuneClustering.objective TREE_DEPTH REG disk) in
      let s := snd (TuneClustering.objective TREE_DEPTH REG disk) in
      let w := Monitors.writer (TuneClustering.monitor s) in
      (forall score, r = Ok score ->
         exists scalars,
           Monitors.json_files w = [(Monitors.default_logfile, scalars)] /\
           last scalars =
             Some (Monitors.group_at 49
                     ("val"%string, [("Dendrogram Purity"%string, score)])) /\
           Monitors.scalar_dict w = []) /\
      (r = Raise TrialPruned ->
         exists scalars lr,
           Monitors.json_files w = [(Monitors.default_logfile, scalars)] /\
           last scalars =
             Some (Monitors.group_at (Z.of_nat (epochs_run (TuneClustering.trace s)) - 1)
                     ("train"%string, [("lr"%string, lr)])) /\
           Monitors.scalar_dict w = []).
Proof.
  intros B Htrain Heval TREE_DEPTH REG disk. cbv zeta.
  unfold TuneClustering.objective. rewrite tune_objective_on_cases. cbv zeta.
  set (s0 := TuneClustering.init_state TREE_DEPTH REG disk).
  pose (P := fun s : TuneClustering.TrialState =>
    let k := Z.of_nat (epochs_run (TuneClustering.trace s)) in
    Monitors.json_files (Monitors.writer (TuneClustering.monitor s)) = [] /\
    (0 < k -> TuneClustering.e s = Some (k - 1))).
  assert (Hstep : forall s, P s ->
    let k := Z.of_nat (epochs_run (TuneClustering.trace s)) in
    snd (TuneClustering.epoch REG k s) = None -> P (fst (TuneClustering.epoch REG k s))).
  { intros s (Hj & _) k Hnone. unfold P. cbv zeta.
    destruct (tune_epoch_fields REG k s) as (_ & _ & _ & _ & He & Hr & _).
    cbv zeta in Hr. rewrite Hr in Hnone.
    destruct (tune_epoch_monitor REG Htrain Heval k s) as (mon & lr & Hmon & Hjm & _).
    rewrite tune_epoch_epochs_run, Hmon, He.
    destruct (isnan _); [discriminate|].
    split; [now rewrite Hjm|]. intros _. f_equal. unfold k. lia. }
  pose proof (tune_range_outcome REG P Hstep 50 s0) as Hout.
  specialize (Hout ltac:(split; [reflexivity|];
    change (epochs_run (TuneClustering.trace s0)) with 0%nat; simpl; lia)).
  change (seqZ (Z.of_nat (epochs_run (TuneClustering.trace s0))) (Z.of_nat 50))
    with (range TuneClustering.EPOCHS) in Hout.
  change (epochs_run (TuneClustering.trace s0)) with 0%nat in Hout.
  destruct (TuneClustering.for_epochs REG (range TuneClustering.EPOCHS) s0)
    as [s1 [ex|]] eqn:Hloop; cbn [fst snd].
  - split; [discriminate|]. intros _.
    destruct Hout as (s2 & (Hj & _) & He).
    set (k := Z.of_nat (epochs_run (TuneClustering.trace s2))) in *.
    assert (Hs1 : s1 = fst (TuneClustering.epoch REG k s2)) by now rewrite He.
    destruct (tune_epoch_fields REG k s2) as (_ & _ & _ & _ & _ & Hr & _).
    cbv zeta in Hr. rewrite He in Hr. simpl in Hr.
    destruct (tune_epoch_monitor REG Htrain Heval k s2) as (mon & lr & Hmon & Hjm & Hlast).
    rewrite <- Hs1 in Hmon.
    destruct (isnan (TuneClustering.val_loss_of REG k s2)); [|discriminate].
    exists (Monitors.scalar_dict (Monitors.writer mon)), lr.
    rewrite Hmon, Hs1, tune_epoch_epochs_run. fold k.
    replace (Z.of_nat (S (epochs_run (TuneClustering.trace s2))) - 1) with k
      by (unfold k; lia).
    split; [|split; [exact Hlast|reflexivity]].
    unfold Monitors.close.
    cbn [Monitors.writer Monitors.json_files Monitors.export_scalars_to_json
         Monitors.writer_close].
    now rewrite Hjm, Hj.
  - destruct Hout as ((Hj & He) & Hrun).
    destruct (tune_unpruned_saved TREE_DEPTH REG disk s1 Hloop) as [c Hc].
    rewrite Hrun in He. specialize (He ltac:(lia)).
    change (Z.of_nat (0 + 50) - 1) with 49 in He.
    destruct (tune_final_eval_ok s1 c 49 Hc He) as (Hres & _ & Hmon).
    cbv zeta in Hres, Hmon. rewrite Hres, Hmon.
    split; [|discriminate].
    intros score [= <-].
    match goal with
    | |- context [Monitors.write ?n ?self ?mdl ?it ?rt ?ms] =>
        destruct (write_fields n self mdl it rt ms) as (Hjw & _);
        pose proof (write_scalar_dict n self mdl it rt ms) as Hsw;
        exists (Monitors.scalar_dict (Monitors.writer (Monitors.write n self mdl it rt ms)))
    end.
    cbv zeta in Hjw.
    unfold Monitors.close.
    cbn [Monitors.writer Monitors.scalar_dict Monitors.json_files
         Monitors.export_scalars_to_json Monitors.writer_close].
    rewrite Hjw, Hj. split; [reflexivity|]. split; [|reflexivity].
    rewrite Hsw. cbn [andb app map]. now rewrite last_snoc.
Qed.

Lemma X12_trial_scalars_witness :
  let B := Fixtures.tune_table [one; half; nan] in
  let s := snd (TuneClustering.objective 3 one None) in
  exists scalars lr,
    Monitors.json_files (Monitors.writer (TuneClustering.monitor s)) =
      [(Monitors.default_logfile, scalars)] /\
    last scalars =
      Some (Monitors.group_at (Z.of_nat (epochs_run (TuneClustering.trace s)) - 1)
              ("train"%string, [("lr"%string, lr)])) /\
    Monitors.scalar_dict (Monitors.writer (TuneClustering.monitor s)) = [].
Proof.
  cbv zeta.
  apply (X12_trial_scalars (Fixtures.tune_table [one; half; nan])
           (fun _ _ _ _ _ => eq_refl) (fun _ _ _ => eq_refl) 3 one None).
  reflexivity.
Defined.

(** *** What the counter counts *)

Lemma trailing_failures_step (best v : float) (since : Z) (seen : list float) :
  trailing_failures best since seen ->
  trailing_failures (if le v best then v else best)
                    (if le v best then 0 else since + 1) (seen ++ [v]).
Proof.
  intros (before & after & -> & Hlen & Hall & Hbest).
  destruct (le v best) eqn:Hle.
  - exists ((before ++ after) ++ [v]), []. rewrite app_nil_r.
    split; [reflexivity|]. split; [reflexivity|]. split; [constructor|].
    right. now exists (before ++ after).
  - exists before, (after ++ [v]). rewrite app_assoc.
    split; [reflexivity|]. split; [rewrite length_app; simpl; lia|].
    split; [|exact Hbest]. apply Forall_app. split; [exact Hall|]. now repeat constructor.
Qed.

(** X13 - In [dntn.py], when the epoch loop is left, the metrics seen end
    with exactly [no_improv] metrics that all failed the test against
    [best_val_loss] (greater, or not-a-number), and the metric right before
    them is [best_val_loss]: the best epoch is the last one whose metric was
    tie-or-better, so among equal metrics the latest epoch is the one kept.
    If no metric precedes them, [best_val_loss] still is plus infinity. *)
Theorem X13_counter_counts_failures :
  forall (B : Dntn.Backend) (DATA_NAME : string) (WORKERS : Z) (data : Dntn.Data)
         (SEED total_epochs : Z) (disk : option Dntn.Ckpt),
    let s := Dntn.train_loop DATA_NAME WORKERS data SEED total_epochs disk in
    trailing_failures (Dntn.best_val_loss s) (Dntn.no_improv s)
                      (val_losses (Dntn.trace s)).
Proof.
  intros B DATA_NAME WORKERS data SEED total_epochs disk s.
  unfold s, Dntn.train_loop.
  apply (dntn_for_epochs_ind DATA_NAME WORKERS data SEED
           (fun s => trailing_failures (Dntn.best_val_loss s) (Dntn.no_improv s)
                                       (val_losses (Dntn.trace s)))).
  - intros e s0 Hs0.
    destruct (dntn_epoch_fields DATA_NAME WORKERS data SEED total_epochs e s0)
      as (Hb & _ & Hn & _).
    cbv zeta in Hb, Hn. rewrite Hb, Hn, dntn_epoch_val_losses.
    now apply trailing_failures_step.
  - exists [], []. split; [reflexivity|]. split; [reflexivity|].
    split; [constructor|]. now left.
Qed.

(** *** The scheduler *)

Lemma lr_steps_app {C} (t1 t2 : list (Event C)) :
  lr_steps (t1 ++ t2) = lr_steps t1 ++ lr_steps t2.
Proof. apply omap_app. Qed.

(** X14 - In both scripts the learning-rate scheduler is stepped exactly once
    in every epoch that runs, with the validation metric of that epoch, also
    when it is not-a-number: when the loop of [dntn.py] is left and when
    [objective] ends, the metrics the scheduler was stepped with are the
    metrics seen, in order, one per epoch run. *)
Theorem X14_scheduler_sees_every_metric :
  (forall (B : Dntn.Backend) (DATA_NAME : string) (WORKERS : Z) (data : Dntn.Data)
          (SEED total_epochs : Z) (disk : option Dntn.Ckpt),
     let s := Dntn.train_loop DATA_NAME WORKERS data SEED total_epochs disk in
     lr_steps (Dntn.trace s) = val_losses (Dntn.trace s) /\
     length (val_losses (Dntn.trace s)) = epochs_run (Dntn.trace s)) /\
  (forall (B : TuneClustering.Backend) (TREE_DEPTH : Z) (REG : float)
          (disk : option TuneClustering.Ckpt),
     let s := snd (TuneClustering.objective TREE_DEPTH REG disk) in
     lr_steps (TuneClustering.trace s) = val_losses (TuneClustering.trace s) /\
     length (val_losses (TuneClustering.trace s)) = epochs_run (TuneClustering.trace s)).
Proof.
  split.
  - intros B DATA_NAME WORKERS data SEED total_epochs disk s.
    unfold s, Dntn.train_loop.
    apply (dntn_for_epochs_ind DATA_NAME WORKERS data SEED
             (fun s => lr_steps (Dntn.trace s) = val_losses (Dntn.trace s) /\
                       length (val_losses (Dntn.trace s)) = epochs_run (Dntn.trace s))).
    + intros e s0 [Hlr Hlen].
      rewrite dntn_epoch_val_losses, dntn_epoch_epochs_run, length_app.
      destruct (dntn_epoch_fields DATA_NAME WORKERS data SEED total_epochs e s0)
        as (_ & _ & _ & _ & Ht & _).
      cbv zeta in Ht. rewrite Ht, !lr_steps_app, Hlr.
      split; [|simpl; lia]. now destruct (le _ _).
    + split; reflexivity.
  - intros B TREE_DEPTH REG disk s.
    set (s0 := TuneClustering.init_state TREE_DEPTH REG disk).
    set (s1 := fst (TuneClustering.for_epochs REG (range TuneClustering.EPOCHS) s0)).
    assert (Hloop : lr_steps (TuneClustering.trace s1) = val_losses (TuneClustering.trace s1) /\
                    length (val_losses (TuneClustering.trace s1)) =
                      epochs_run (TuneClustering.trace s1)).
    { unfold s1.
      apply (tune_for_epochs_ind REG
               (fun s => lr_steps (TuneClustering.trace s) = val_losses (TuneClustering.trace s) /\
                         length (val_losses (TuneClustering.trace s)) =
                           epochs_run (TuneClustering.trace s))).
      - intros ep s2 [Hlr Hlen].
        rewrite tune_epoch_val_losses, tune_epoch_epochs_run, length_app.
        destruct (tune_epoch_fields REG ep s2) as (_ & _ & _ & Ht & _).
        cbv zeta in Ht. rewrite Ht, !lr_steps_app, Hlr.
        split; [|simpl; lia]. now destruct (le _ _), (isnan _).
      - split; reflexivity. }
    destruct (tune_objective_state TREE_DEPTH REG disk) as [Hst|[_ Hst]];
      fold s0 s1 in Hst; unfold s; rewrite Hst; [exact Hloop|].
    destruct (tune_final_eval_state s1) as (_ & Hv & _).
    destruct (tune_final_eval_best s1) as (_ & _ & _ & He).
    cbv zeta in Hv, He. rewrite Hv, He.
    split; [|apply Hloop].
    destruct Hloop as [<- _].
    unfold TuneClustering.final_eval.
    destruct (TuneClustering.save_dir s1); [|reflexivity]. simpl.
    destruct (TuneClustering.e s1); simpl; rewrite ?lr_steps_app; simpl;
      now rewrite ?app_nil_r.
Qed.

(** *** A failing seed *)

(** X15 - In [dntn.py] the first seed whose run raises ends the script with
    that exception: when the loop over distinct seeds raises, the run of one
    seed, from what its save directory held before the loop, raised that
    exception, the run of every seed before it returned a test loss, and the
    save directories of the seeds after it are left as they were. *)
Theorem X15_seed_failure_aborts :
  forall (B : Dntn.Backend) (DATA_NAME : string) (WORKERS : Z) (data : Dntn.Data)
         (seeds : list Z) (acc : list float) (w : Dntn.World) (ex : PyExn),
    NoDup seeds ->
    let run := fun SEED =>
      Dntn.run_seed DATA_NAME WORKERS data SEED Dntn.EPOCHS (Dntn.results w !! SEED) in
    let out := Dntn.seed_loop DATA_NAME WORKERS data seeds acc w in
    fst out = Raise ex ->
    exists (before : list Z) (SEED : Z) (rest : list Z),
      seeds = before ++ SEED :: rest /\
      Forall (fun S => exists loss, fst (run S) = Ok loss) before /\
      fst (run SEED) = Raise ex /\
      forall S, S ∈ rest -> Dntn.results (snd out) !! S = Dntn.results w !! S.
Proof.
  intros B DATA_NAME WORKERS data seeds. cbv zeta.
  induction seeds as [|S seeds IH]; intros acc w ex Hnd Hraise; [discriminate|].
  apply NoDup_cons in Hnd. destruct Hnd as [HS Hnd].
  rewrite dntn_seed_loop_cons in Hraise |- *. cbv zeta in Hraise |- *.
  destruct (fst (Dntn.run_seed DATA_NAME WORKERS data S Dntn.EPOCHS (Dntn.results w !! S)))
    as [loss|ex'] eqn:Hrun.
  - set (w1 := {| Dntn.results := _; Dntn.calls := _ |}) in *.
    destruct (IH _ _ _ Hnd Hraise) as (before & SEED & rest & -> & Hbefore & Hfail & Hrest).
    assert (Hother : forall S', S' ∈ before ++ SEED :: rest ->
              Dntn.results w1 !! S' = Dntn.results w !! S').
    { intros S' Hin. simpl. apply lookup_partial_alter_ne. intros ->. contradiction. }
    exists (S :: before), SEED, rest.
    split; [reflexivity|]. split; [|split].
    + constructor; [now exists loss|].
      apply Forall_forall. intros S' Hin.
      rewrite Forall_forall in Hbefore. destruct (Hbefore S' Hin) as [l Hl].
      exists l. rewrite <- Hother; [exact Hl|]. apply elem_of_app. now left.
    + rewrite <- Hother; [exact Hfail|]. apply elem_of_app. right. left.
    + intros S' Hin'. rewrite (Hrest S' Hin').
      apply Hother. apply elem_of_app. right. now right.
  - simpl in Hraise. injection Hraise as ->.
    exists [], S, seeds.
    split; [reflexivity|]. split; [constructor|]. split; [exact Hrun|].
    intros S' Hin'. simpl. apply lookup_partial_alter_ne. intros ->. contradiction.
Qed.

Lemma X15_seed_failure_aborts_witness :
  let B := Fixtures.dntn_table [nan] in
  let w := {| Dntn.results := ∅; Dntn.calls := [] |} in
  let run := fun SEED =>
    Dntn.run_seed "d" 0 tt SEED Dntn.EPOCHS (Dntn.results w !! SEED) in
  exists (before : list Z) (SEED : Z) (rest : list Z),
    [1225; 1337] = before ++ SEED :: rest /\
    Forall (fun S => exists loss, fst (run S) = Ok loss) before /\
    fst (run SEED) = Raise FileNotFoundError /\
    forall S, S ∈ rest ->
      Dntn.results (snd (Dntn.seed_loop "d" 0 tt [1225; 1337] [] w)) !! S =
        Dntn.results w !! S.
Proof.
  cbv zeta.
  apply (X15_seed_failure_aborts (Fixtures.dntn_table [nan]) "d"%string 0 tt
           [1225; 1337] [] {| Dntn.results := ∅; Dntn.calls := [] |} FileNotFoundError).
  - compute_done.
  - reflexivity.
Defined.
